(** * A shallow embedding of the Playwright/Cucumber test harness

    The development follows the TypeScript sources of the harness:

    - [Js]            the JavaScript values and string primitives the sources use;
    - [Effects]       completions (return / throw) and state-passing computations;
    - [Runtime]       the process state and the host the harness runs on;
    - [Logger]        src/utils/logger.ts;
    - [Config]        the configuration manager ([getConfig]);
    - [DataService]   src/utils/dataService.ts;
    - [ScenarioGenerator]  src/data/generators/scenarioGenerator.ts;
    - [LoginSteps]    the data-driven assertion of src/steps/loginSteps.ts;
    - [World]         the Cucumber world ([closeBrowser], [takeScreenshot]);
    - [Spec]          the properties of the specification, stated over the above;
    - [Fixtures]      a concrete host, workbooks and environments;
    - [JsText]        letter case, trimming and character-class replacement;
    - [LoggerLevel]   [getLogLevel] of src/utils/logger.ts;
    - [Reference]     what the data service returns, caches and logs, in closed form;
    - [Session]       [initBrowser] of the world and [ScreenshotManager.capture];
    - [Hooks]         src/support/hooks.ts;
    - [Pages]         the page objects (BasePage, LoginPage, TodoPage);
    - [Steps]         further steps of src/steps/loginSteps.ts and todoSteps.ts;
    - [Observed]      what a page shows, for the statements about the page objects.

    Libraries the harness calls (xlsx, path, fs, the browser driver) are not
    part of the repository; they enter as fields of a [Host] record and, for
    the session code, of a [Driver] record. The modules named [...Facts],
    [...More] and [...Examples] hold the proofs. *)

From Stdlib Require Import ZArith String Ascii List DecimalString DecimalNat Lia.
From stdpp Require Import gmap strings list fin_maps.


(* ===================================================================== *)
(** ** JavaScript values and string primitives *)
(* ===================================================================== *)

Module Js.

(** Strings are byte strings, holding the text in UTF-8. On ASCII text (every
    byte below 128) the string functions of this file are those of
    JavaScript. On other text JavaScript's white space, letter case and [/./]
    follow Unicode, which is not modelled: the statements that depend on
    them are made for ASCII text. *)
Definition ascii_text (s : string) : bool :=
  forallb (fun c => (nat_of_ascii c <? 128)%nat) (list_ascii_of_string s).

(** [Num z] is the number of integer value [z]. A JavaScript number holds
    every integer up to 2^53 in magnitude exactly, and within that bound
    [Num z] is read, compared and printed as the engine does. Fractions, the
    infinities and the rounding of larger integers are not modelled: the
    statements that depend on the value of a number are made within the
    bound. *)
Inductive JsNumber := Num (z : Z) | NaN.

Definition safe_integer (z : Z) : Prop := (Z.abs z <= 2 ^ 53)%Z.

(** The names of the members every object inherits from [Object.prototype]. *)
Definition Object_prototype_members : list string :=
  ["constructor"; "__defineGetter__"; "__defineSetter__"; "hasOwnProperty";
   "__lookupGetter__"; "__lookupSetter__"; "isPrototypeOf"; "propertyIsEnumerable";
   "toString"; "valueOf"; "__proto__"; "toLocaleString"].

(** The values the sources handle: cells and fields are [undefined],
    booleans, numbers or strings; [VMember name] is the member an object
    inherits from [Object.prototype] under [name] (a function, or for
    [__proto__] the prototype object itself). *)
Inductive JsVal :=
  | VUndef
  | VBool (b : bool)
  | VNum (n : JsNumber)
  | VStr (s : string)
  | VMember (name : string).

Definition number_eq (a b : JsNumber) : bool :=
  match a, b with
  | Num x, Num y => (x =? y)%Z
  | _, _ => false
  end.

(** [a === b] *)
Definition strict_eq (a b : JsVal) : bool :=
  match a, b with
  | VUndef, VUndef => true
  | VBool x, VBool y => Bool.eqb x y
  | VNum x, VNum y => number_eq x y
  | VStr x, VStr y => String.eqb x y
  | VMember x, VMember y => String.eqb x y
  | _, _ => false
  end.

(** ToBoolean, as used by [!v] and [v || d]. *)
Definition truthy (v : JsVal) : bool :=
  match v with
  | VUndef => false
  | VBool b => b
  | VNum (Num z) => negb (z =? 0)%Z
  | VNum NaN => false
  | VStr s => negb (String.eqb s "")
  | VMember _ => true
  end.

Definition nat_to_string (n : nat) : string := NilZero.string_of_uint (Nat.to_uint n).
Definition Z_to_string (z : Z) : string := NilZero.string_of_int (Z.to_int z).

(** The conversion a template literal applies to an interpolated value. An
    integer within the bound of [safe_integer] prints as its decimal numeral;
    an inherited function prints as the engine prints a built-in. *)
Definition to_String (v : JsVal) : string :=
  match v with
  | VUndef => "undefined"
  | VBool true => "true"
  | VBool false => "false"
  | VNum (Num z) => Z_to_string z
  | VNum NaN => "NaN"
  | VStr s => s
  | VMember name =>
      if String.eqb name "__proto__" then "[object Object]"
      else "function "
           +:+ (if String.eqb name "constructor" then "Object" else name)
           +:+ "() { [native code] }"
  end.

(** Property read [o[key]] on a plain object (a row, the test data of the
    world): the value of the entry the object owns under [key]; failing that
    the member it inherits from [Object.prototype]; failing that
    [undefined]. *)
Definition get (o : gmap string JsVal) (key : string) : JsVal :=
  match o !! key with
  | Some v => v
  | None => if bool_decide (key ∈ Object_prototype_members) then VMember key else VUndef
  end.

(** [Object.keys(o)] *)
Definition Object_keys {A} (o : gmap string A) : list string := (map_to_list o).*1.

Definition dq : string := String (ascii_of_nat 34) EmptyString.
Definition nl : string := String (ascii_of_nat 10) EmptyString.

(** [s.startsWith(p)] *)
Definition startsWith (s p : string) : bool := String.prefix p s.

Fixpoint drop_chars (n : nat) (s : string) : string :=
  match n, s with
  | S n', String _ s' => drop_chars n' s'
  | _, _ => s
  end.

(** [s.replace(pat, rep)] with a string pattern: only the first occurrence is
    replaced ([rep] holds no [$] pattern in the sources). *)
Fixpoint replace (s pat rep : string) : string :=
  if String.prefix pat s then rep +:+ drop_chars (String.length pat) s
  else match s with
       | EmptyString => EmptyString
       | String c s' => String c (replace s' pat rep)
       end.

(** [s.includes(sub)], the test behind [expect(s).toContain(sub)] on strings. *)
Fixpoint includes (s sub : string) : bool :=
  String.prefix sub s ||
  match s with
  | EmptyString => false
  | String _ s' => includes s' sub
  end.

(** White space as matched by [\s], removed by [trim] and skipped by
    [parseInt]: the six ASCII characters. JavaScript counts further
    characters outside ASCII (the no-break space, U+2028, ...). *)
Definition is_space (c : ascii) : bool :=
  let n := nat_of_ascii c in ((n =? 32) || ((9 <=? n) && (n <=? 13)))%nat.

(** [s.replace(/\s/g, rep)] for a one-character-class pattern. *)
Fixpoint replace_all_space (s rep : string) : string :=
  match s with
  | EmptyString => EmptyString
  | String c s' =>
      (if is_space c then rep else String c EmptyString) +:+ replace_all_space s' rep
  end.

Fixpoint skip_space (s : string) : string :=
  match s with
  | String c s' => if is_space c then skip_space s' else s
  | EmptyString => EmptyString
  end.

Definition digit_of (c : ascii) : option Z :=
  let n := nat_of_ascii c in
  if ((48 <=? n) && (n <=? 57))%nat then Some (Z.of_nat (n - 48)) else None.

(** The longest leading run of decimal digits, [None] when it is empty. *)
Fixpoint leading_digits (s : string) (acc : option Z) : option Z :=
  match s with
  | String c s' =>
      match digit_of c with
      | Some d => leading_digits s' (Some (10 * default 0%Z acc + d)%Z)
      | None => acc
      end
  | EmptyString => acc
  end.

(** [parseInt(s, 10)] on ASCII text: leading white space, a sign, then the
    longest run of decimal digits. The value is exact when it is a
    [safe_integer]; the engine rounds larger ones to the nearest double. *)
Definition parseInt (s : string) : JsNumber :=
  let s1 := skip_space s in
  let '(sign, s2) :=
    match s1 with
    | String "-"%char r => ((-1)%Z, r)
    | String "+"%char r => (1%Z, r)
    | _ => (1%Z, s1)
    end in
  match leading_digits s2 None with
  | Some n => Num (sign * n)
  | None => NaN
  end.

End Js.

(* ===================================================================== *)
(** ** Completions, process state and host *)
(* ===================================================================== *)

Module Effects.
Import Js.

(** What a [throw] carries. *)
Inductive JsThrown :=
  | JsError (message : string)       (* new Error(message) *)
  | JsTypeError (message : string)   (* raised by the engine *)
  | JsAssertion (message : string)   (* a failed expect(...) *)
  | JsNonError (str : string).       (* any other thrown value *)

(** [error instanceof Error ? error.message : String(error)] *)
Definition thrown_message (e : JsThrown) : string :=
  match e with
  | JsError m | JsTypeError m | JsAssertion m => m
  | JsNonError s => s
  end.

Inductive Completion (A : Type) :=
  | Normal (a : A)
  | Throw (e : JsThrown).
Arguments Normal {A} a.
Arguments Throw {A} e.

(** A computation over a mutable state: mutations made before a throw stay. *)
Definition M (St A : Type) : Type := St -> Completion A * St.

Definition ret {St A} (a : A) : M St A := fun s => (Normal a, s).
Definition throw {St A} (e : JsThrown) : M St A := fun s => (Throw e, s).

Definition bind {St A B} (m : M St A) (k : A -> M St B) : M St B :=
  fun s =>
    match m s with
    | (Normal a, s') => k a s'
    | (Throw e, s') => (Throw e, s')
    end.

Definition try_catch {St A} (m : M St A) (handler : JsThrown -> M St A) : M St A :=
  fun s =>
    match m s with
    | (Normal a, s') => (Normal a, s')
    | (Throw e, s') => handler e s'
    end.

Definition gets {St A} (f : St -> A) : M St A := fun s => (Normal (f s), s).
Definition modify {St} (f : St -> St) : M St unit := fun s => (Normal tt, f s).

Definition lift {St A} (r : JsThrown + A) : M St A :=
  match r with
  | inl e => throw e
  | inr a => ret a
  end.

(** [xs.forEach(body)] *)
Fixpoint forEach {St A} (xs : list A) (body : A -> M St unit) : M St unit :=
  match xs with
  | [] => ret tt
  | x :: xs' => bind (body x) (fun _ => forEach xs' body)
  end.

(** [xs.forEach((x, index) => body)] *)
Fixpoint forEach_indexed {St A} (index : nat) (xs : list A)
    (body : A -> nat -> M St unit) : M St unit :=
  match xs with
  | [] => ret tt
  | x :: xs' => bind (body x index) (fun _ => forEach_indexed (S index) xs' body)
  end.

End Effects.

Declare Scope js_scope.
Delimit Scope js_scope with js.
Notation "x <- m ;; k" := (Effects.bind m (fun x => k))
  (at level 100, m at next level, right associativity) : js_scope.
Notation "m ;; k" := (Effects.bind m (fun _ => k))
  (at level 100, right associativity) : js_scope.
Open Scope js_scope.

(* ===================================================================== *)
(** ** The process state and the host *)
(* ===================================================================== *)

Module Runtime.
Import Js Effects.

(** [enum LogLevel] of src/utils/logger.ts *)
Inductive LogLevel := DEBUG | INFO | WARN | ERROR | SILENT.

Definition level_value (l : LogLevel) : nat :=
  match l with DEBUG => 0 | INFO => 1 | WARN => 2 | ERROR => 3 | SILENT => 4 end.

(** A row of a sheet, as [sheet_to_json] builds it: column name to cell. *)
Abbreviation Row := (gmap string JsVal).

(** Handles of the browser driver. *)
Record Browser := mkBrowser { browser_id : nat }.
Record Page := mkPage { page_id : nat }.
Abbreviation Buffer := (list Byte.byte).

(** Calls made to the browser driver, in the order they are issued. *)
Inductive DriverCall :=
  | BrowserClose (b : Browser)
  | PageScreenshot (p : Page) (path : string)
  | ExpectToBeVisible (p : Page) (selector : string) (timeout : option Z)
  | ExpectToHaveText (p : Page) (selector text : string) (awaited : bool)
      (* [awaited = false]: the promise is dropped, its outcome is never seen *)
  | LocatorTextContent (p : Page) (selector : string).

(** The mutable state of the test process. *)
Record Proc := mkProc {
  console : list (LogLevel * string);        (* lines written by the Logger *)
  cache : gmap string (list Row);            (* DataService.cache, see below *)
  files : gmap string string;                (* files written through fs *)
  driver_calls : list DriverCall;
}.

(** [cache] holds the entries of the object [DataService.cache], sheet name to
    rows. The name [__proto__] is special in JavaScript: the assignment
    [this.cache['__proto__'] = rows] adds no entry, it makes the array [rows]
    the prototype of the object. The map keeps that prototype under the name
    [__proto__]; without it the prototype is [Object.prototype]. *)

Definition set_console (f : list (LogLevel * string) -> list (LogLevel * string))
    (s : Proc) : Proc :=
  mkProc (f (console s)) (cache s) (files s) (driver_calls s).
Definition set_cache (f : gmap string (list Row) -> gmap string (list Row))
    (s : Proc) : Proc :=
  mkProc (console s) (f (cache s)) (files s) (driver_calls s).
Definition set_files (f : gmap string string -> gmap string string) (s : Proc) : Proc :=
  mkProc (console s) (cache s) (f (files s)) (driver_calls s).
Definition set_driver_calls (f : list DriverCall -> list DriverCall) (s : Proc) : Proc :=
  mkProc (console s) (cache s) (files s) (f (driver_calls s)).

(** [WorkBook] of the xlsx library: sheet names in file order and the sheets. *)
Record WorkBook (WorkSheet : Type) := mkWorkBook {
  SheetNames : list string;
  Sheets : gmap string WorkSheet;
}.
Arguments mkWorkBook {WorkSheet} _ _.
Arguments SheetNames {WorkSheet} _.
Arguments Sheets {WorkSheet} _.

(** Everything the harness takes from outside the repository. *)
Record Host (WorkSheet : Type) := mkHost {
  (* process *)
  process_env : gmap string string;
  cwd : string;                                        (* process.cwd() *)
  Date_now : Z;
  CURRENT_LOG_LEVEL : LogLevel;
  (* the engine: the names of the members of Array.prototype *)
  Array_prototype_members : list string;
  (* path *)
  path_isAbsolute : string -> bool;
  path_join : list string -> string;
  (* xlsx *)
  XLSX_readFile : string -> JsThrown + WorkBook WorkSheet;
  XLSX_sheet_to_json : option WorkSheet -> list Row;
  (* src/data/dataLoader.ts, not among the sources *)
  DataLoader_loadLoginData : option string -> JsThrown + list Row;
  (* fs.writeFileSync: the error it raises for a path, if any *)
  fs_write_error : string -> option JsThrown;
  (* browser driver *)
  browser_close : Browser -> option JsThrown;
  page_screenshot : Page -> string -> JsThrown + Buffer;
  page_url : Page -> string;
  expect_toBeVisible : Page -> string -> option Z -> option JsThrown;
  locator_textContent : Page -> string -> JsThrown + option string;
}.
Arguments process_env {WorkSheet} _.
Arguments cwd {WorkSheet} _.
Arguments Date_now {WorkSheet} _.
Arguments CURRENT_LOG_LEVEL {WorkSheet} _.
Arguments Array_prototype_members {WorkSheet} _.
Arguments path_isAbsolute {WorkSheet} _ _.
Arguments path_join {WorkSheet} _ _.
Arguments XLSX_readFile {WorkSheet} _ _.
Arguments XLSX_sheet_to_json {WorkSheet} _ _.
Arguments DataLoader_loadLoginData {WorkSheet} _ _.
Arguments fs_write_error {WorkSheet} _ _.
Arguments browser_close {WorkSheet} _ _.
Arguments page_screenshot {WorkSheet} _ _ _.
Arguments page_url {WorkSheet} _ _.
Arguments expect_toBeVisible {WorkSheet} _ _ _ _.
Arguments locator_textContent {WorkSheet} _ _ _.

(** Lines appended to the console. *)
Definition print (lines : list (LogLevel * string)) (s : Proc) : Proc :=
  set_console (fun out => (out ++ lines)%list) s.

(** Issue a driver call and record it. *)
Definition driver_call (c : DriverCall) : M Proc unit :=
  modify (set_driver_calls (fun cs => (cs ++ [c])%list)).

Definition throw_if {St} (o : option JsThrown) : M St unit :=
  match o with
  | Some e => throw e
  | None => ret tt
  end.

End Runtime.

(* ===================================================================== *)
(** ** src/utils/logger.ts *)
(* ===================================================================== *)

Module Logger.
Import Js Effects Runtime.

Section WithHost.
Context {WorkSheet : Type} (host : Host WorkSheet).

(** [Logger.log]: a line reaches the console when its level is at or above
    the configured one. The time stamp of the line is left out. *)
Definition log (level : LogLevel) (message : string) : M Proc unit :=
  if (level_value (CURRENT_LOG_LEVEL host) <=? level_value level)%nat then
    match level with
    | SILENT => ret tt
    | _ => modify (set_console (fun out => (out ++ [(level, message)])%list))
    end
  else ret tt.

(** The lines a call [log level message] adds to the console. *)
Definition emitted (level : LogLevel) (message : string) : list (LogLevel * string) :=
  if (level_value (CURRENT_LOG_LEVEL host) <=? level_value level)%nat then
    match level with
    | SILENT => []
    | _ => [(level, message)]
    end
  else [].

Definition debug (message : string) : M Proc unit := log DEBUG message.
Definition info (message : string) : M Proc unit := log INFO message.
Definition warn (message : string) : M Proc unit := log WARN message.
Definition error (message : string) : M Proc unit := log ERROR message.

End WithHost.
End Logger.

(* ===================================================================== *)
(** ** The configuration manager *)
(* ===================================================================== *)

Module Config.
Import Js.

(** [interface IConfig]. [ENV] and [BROWSER] hold whatever string the
    environment supplies: the casts in the source check nothing at run time. *)
Record IConfig := mkConfig {
  ENV : string;
  BASE_URL : string;
  HEADLESS : bool;
  SLOW_MO : JsNumber;
  TIMEOUT : JsNumber;
  BROWSER : string;
  VIEWPORT_WIDTH : JsNumber;
  VIEWPORT_HEIGHT : JsNumber;
  ALLURE_RESULTS_DIR : string;
  SCREENSHOT_ON_FAIL : bool;
}.

(** [Partial<IConfig>] as [baseConfig] fills it: every field but [BASE_URL]. *)
Record BaseConfig := mkBase {
  base_ENV : string;
  base_HEADLESS : bool;
  base_SLOW_MO : JsNumber;
  base_TIMEOUT : JsNumber;
  base_BROWSER : string;
  base_VIEWPORT_WIDTH : JsNumber;
  base_VIEWPORT_HEIGHT : JsNumber;
  base_ALLURE_RESULTS_DIR : string;
  base_SCREENSHOT_ON_FAIL : bool;
}.

Section WithEnv.
Variable env : gmap string string.      (* process.env *)

(** [process.env.NAME || fallback]: an unset or empty variable gives [fallback]. *)
Definition env_or (name fallback : string) : string :=
  match env !! name with
  | Some v => if String.eqb v "" then fallback else v
  | None => fallback
  end.

(** [process.env.NAME === literal] *)
Definition env_is (name literal : string) : bool :=
  match env !! name with
  | Some v => String.eqb v literal
  | None => false
  end.

Definition baseConfig (env_name : string) : BaseConfig :=
  {| base_ENV := env_name;
     base_HEADLESS := if env_is "HEADLESS" "false" then false else true;
     base_SLOW_MO := parseInt (env_or "SLOW_MO" "0");
     base_TIMEOUT := parseInt (env_or "TIMEOUT" "30000");
     base_BROWSER := env_or "BROWSER" "chromium";
     base_VIEWPORT_WIDTH := parseInt (env_or "VIEWPORT_WIDTH" "1920");
     base_VIEWPORT_HEIGHT := parseInt (env_or "VIEWPORT_HEIGHT" "1080");
     base_ALLURE_RESULTS_DIR := env_or "ALLURE_RESULTS_DIR" "allure-results";
     base_SCREENSHOT_ON_FAIL := if env_is "SCREENSHOT_ON_FAIL" "true" then true else false |}.

(** [{ ...baseConfig, BASE_URL: url }] *)
Definition spread (b : BaseConfig) (url : string) : IConfig :=
  {| ENV := base_ENV b;
     BASE_URL := url;
     HEADLESS := base_HEADLESS b;
     SLOW_MO := base_SLOW_MO b;
     TIMEOUT := base_TIMEOUT b;
     BROWSER := base_BROWSER b;
     VIEWPORT_WIDTH := base_VIEWPORT_WIDTH b;
     VIEWPORT_HEIGHT := base_VIEWPORT_HEIGHT b;
     ALLURE_RESULTS_DIR := base_ALLURE_RESULTS_DIR b;
     SCREENSHOT_ON_FAIL := base_SCREENSHOT_ON_FAIL b |}.

Definition with_HEADLESS (v : bool) (c : IConfig) : IConfig :=
  mkConfig (ENV c) (BASE_URL c) v (SLOW_MO c) (TIMEOUT c) (BROWSER c)
           (VIEWPORT_WIDTH c) (VIEWPORT_HEIGHT c) (ALLURE_RESULTS_DIR c)
           (SCREENSHOT_ON_FAIL c).
Definition with_SLOW_MO (v : JsNumber) (c : IConfig) : IConfig :=
  mkConfig (ENV c) (BASE_URL c) (HEADLESS c) v (TIMEOUT c) (BROWSER c)
           (VIEWPORT_WIDTH c) (VIEWPORT_HEIGHT c) (ALLURE_RESULTS_DIR c)
           (SCREENSHOT_ON_FAIL c).
Definition with_SCREENSHOT_ON_FAIL (v : bool) (c : IConfig) : IConfig :=
  mkConfig (ENV c) (BASE_URL c) (HEADLESS c) (SLOW_MO c) (TIMEOUT c) (BROWSER c)
           (VIEWPORT_WIDTH c) (VIEWPORT_HEIGHT c) (ALLURE_RESULTS_DIR c) v.
Definition with_ENV (v : string) (c : IConfig) : IConfig :=
  mkConfig v (BASE_URL c) (HEADLESS c) (SLOW_MO c) (TIMEOUT c) (BROWSER c)
           (VIEWPORT_WIDTH c) (VIEWPORT_HEIGHT c) (ALLURE_RESULTS_DIR c)
           (SCREENSHOT_ON_FAIL c).

Definition getConfig : IConfig :=
  let env_name := env_or "NODE_ENV" "local" in
  let baseConfig := baseConfig env_name in
  if String.eqb env_name "production" then
    with_SCREENSHOT_ON_FAIL false
      (with_HEADLESS true
        (spread baseConfig (env_or "PROD_BASE_URL" "https://prod.example.com")))
  else if String.eqb env_name "staging" then
    with_HEADLESS true
      (spread baseConfig (env_or "STAGING_BASE_URL" "https://staging.example.com"))
  else if String.eqb env_name "development" then
    with_HEADLESS false
      (spread baseConfig (env_or "DEV_BASE_URL" "http://localhost:5173"))
  else (* case 'local': default: *)
    with_SLOW_MO (Num 50)
      (with_HEADLESS false
        (spread baseConfig (env_or "LOCAL_BASE_URL" "http://localhost:5173"))).

End WithEnv.
End Config.

(* ===================================================================== *)
(** ** src/utils/dataService.ts *)
(* ===================================================================== *)

Module DataService.
Import Js Effects Runtime.

Section WithHost.
Context {WorkSheet : Type} (host : Host WorkSheet).

Definition EXCEL_FILE_PATH : string := path_join host [cwd host; "test_data.xlsx"].

(** [if (!path.isAbsolute(filePath)) filePath = path.join(process.cwd(), filePath)] *)
Definition resolve (filePath : string) : string :=
  if negb (path_isAbsolute host filePath)
  then path_join host [cwd host; filePath]
  else filePath.

(** The path a call [loadData(filePath)] hands to [XLSX.readFile]. *)
Definition read_path (filePath : option string) : string :=
  resolve (default EXCEL_FILE_PATH filePath).

(** [this.cache[sheetName] = data]: an entry of the object, or for the name
    [__proto__] its prototype (see [Proc]). *)
Definition cache_store (sheetName : string) (data : list Row) : M Proc unit :=
  modify (set_cache (fun c => <[sheetName := data]> c)).

(** [Object.keys(this.cache)]: the names of the entries. *)
Definition cache_names (c : gmap string (list Row)) : list string :=
  List.filter (fun name => negb (String.eqb name "__proto__")) (Object_keys c).

(** What [this.cache[sheetName]] gives when it is truthy: an array of rows,
    or a value the object inherits under that name (a function, an object, a
    row or a number), which has no [find] method. *)
Inductive SheetData :=
  | Rows (rows : list Row)
  | Inherited (name : string).

(** [name] is an index of an array of [n] elements. *)
Definition is_index (name : string) (n : nat) : bool :=
  existsb (fun i => String.eqb (nat_to_string i) name) (seq 0 n).

(** [this.cache[sheetName]], [None] when it is falsy ([undefined], or the
    length 0 of an empty array). An entry of the object comes first; then
    what the prototype gives: [Object.prototype] its members, an array
    assigned as prototype its elements, its length and the members of
    [Array.prototype] and [Object.prototype]. *)
Definition cache_read (c : gmap string (list Row)) (sheetName : string)
    : option SheetData :=
  if String.eqb sheetName "__proto__" then
    match c !! "__proto__" with
    | Some rows => Some (Rows rows)
    | None => Some (Inherited sheetName)
    end
  else
    match c !! sheetName with
    | Some rows => Some (Rows rows)
    | None =>
        match c !! "__proto__" with
        | Some rows =>
            if String.eqb sheetName "length" then
              if (length rows =? 0)%nat then None else Some (Inherited sheetName)
            else if is_index sheetName (length rows)
                    || bool_decide (sheetName ∈ Array_prototype_members host)
                    || bool_decide (sheetName ∈ Object_prototype_members)
            then Some (Inherited sheetName)
            else None
        | None =>
            if bool_decide (sheetName ∈ Object_prototype_members)
            then Some (Inherited sheetName)
            else None
        end
    end.

(** [loadData(filePath = EXCEL_FILE_PATH)]: [None] is the omitted argument. *)
Definition loadData (filePath : option string) : M Proc unit :=
  let filePath := default EXCEL_FILE_PATH filePath in
  Logger.info host ("Attempting to load data from: " +:+ filePath) ;;
  let filePath := resolve filePath in
  try_catch
    (workbook <- lift (XLSX_readFile host filePath) ;;
     forEach (SheetNames workbook) (fun sheetName =>
       let worksheet := Sheets workbook !! sheetName in
       let data := XLSX_sheet_to_json host worksheet in
       cache_store sheetName data ;;
       Logger.info host ("Successfully loaded " +:+ nat_to_string (length data)
                         +:+ " rows from sheet: " +:+ sheetName)) ;;
     Logger.info host "All data sheets loaded successfully.")
    (fun error =>
       Logger.error host ("Failed to load Excel data from " +:+ filePath +:+ ". Error:") ;;
       throw (JsError ("DataService failed to load data: " +:+ thrown_message error))).

Definition getData (sheetName : string) : M Proc SheetData :=
  c <- gets cache ;;
  (if (length (cache_names c) =? 0)%nat
   then Logger.warn host "Data cache is empty. Attempting to load data now." ;;
        loadData None
   else ret tt) ;;
  c <- gets cache ;;
  match cache_read c sheetName with
  | None =>
      Logger.error host ("Sheet '" +:+ sheetName +:+ "' not found in Excel file.") ;;
      ret (Rows [])
  | Some data => ret data
  end.

(** [data.find(row => row[key] === value)]; [None] is [undefined]. On data
    that is no array the call of [find] raises a TypeError. *)
Definition getSingleData (sheetName key : string) (value : JsVal) : M Proc (option Row) :=
  data <- getData sheetName ;;
  match data with
  | Rows rows => ret (List.find (fun row => strict_eq (get row key) value) rows)
  | Inherited _ => throw (JsTypeError "data.find is not a function")
  end.

End WithHost.
End DataService.

(* ===================================================================== *)
(** ** src/data/generators/scenarioGenerator.ts *)
(* ===================================================================== *)

Module ScenarioGenerator.
Import Js Effects Runtime.

Section WithHost.
Context {WorkSheet : Type} (host : Host WorkSheet).

(** [TestDataFactory.getLoginTestData] of src/data/testDataFactory.ts *)
Definition getLoginTestData : M Proc (list Row) :=
  lift (DataLoader_loadLoginData host (process_env host !! "TEST_ENV")).

(** [fs.writeFileSync(path, data)]: the file is replaced by [data]. *)
Definition writeFileSync (path data : string) : M Proc unit :=
  throw_if (fs_write_error host path) ;;
  modify (set_files (fun fs => <[path := data]> fs)).

(** The template literal appended for one row. *)
Definition scenario_text (row : Row) (index : nat) : string :=
  nl +:+ "  Scenario: Login test #" +:+ nat_to_string (index + 1)
     +:+ " (" +:+ to_String (get row "username") +:+ ")" +:+ nl
     +:+ "    Given I login with username " +:+ dq +:+ to_String (get row "username") +:+ dq
     +:+ " and password " +:+ dq +:+ to_String (get row "password") +:+ dq +:+ nl
     +:+ "    Then Login should be successful" +:+ nl.

(** What the loop has appended once it went through [rows], the first of
    them at position [index]. *)
Fixpoint appended (index : nat) (rows : list Row) : string :=
  match rows with
  | [] => EmptyString
  | row :: rows' => scenario_text row index +:+ appended (S index) rows'
  end.

Definition outputPath : string :=
  path_join host [cwd host; "src"; "features"; "generated"; "loginDDT.feature"].

(** The local variable [featureContent] is the state of the loop. *)
Definition generateLoginFeature : M Proc unit :=
  data <- getLoginTestData ;;
  let featureContent := "Feature: Login DDT Tests" +:+ nl in
  let '(_, featureContent) :=
    forEach_indexed 0 data
      (fun row index => modify (fun acc => acc +:+ scenario_text row index))
      featureContent in
  writeFileSync outputPath featureContent.

End WithHost.
End ScenarioGenerator.

(* ===================================================================== *)
(** ** The Cucumber world *)
(* ===================================================================== *)

Module World.
Import Js Effects Runtime.

(** [class CustomWorld]: [browser] and [page] are unset until [initBrowser]. *)
Record CustomWorld := mkWorld {
  browser : option Browser;
  page : option Page;
  config : Config.IConfig;
  testData : gmap string JsVal;
}.

Section WithHost.
Context {WorkSheet : Type} (host : Host WorkSheet).

Definition closeBrowser (this : CustomWorld) : M Proc unit :=
  match browser this with
  | Some b =>
      Logger.info host "Closing browser..." ;;
      driver_call (BrowserClose b) ;;
      throw_if (browser_close host b)
  | None => ret tt
  end.

(** [None] is the [undefined] returned when there is no page. *)
Definition takeScreenshot (this : CustomWorld) (scenarioName : string)
    : M Proc (option Buffer) :=
  match page this with
  | Some p =>
      let screenshotPath :=
        path_join host
          [cwd host; Config.ALLURE_RESULTS_DIR (config this);
           "screenshot-" +:+ replace_all_space scenarioName "_" +:+ "-"
             +:+ Z_to_string (Date_now host) +:+ ".png"] in
      Logger.debug host ("Taking screenshot: " +:+ screenshotPath) ;;
      driver_call (PageScreenshot p screenshotPath) ;;
      buffer <- lift (page_screenshot host p screenshotPath) ;;
      ret (Some buffer)
  | None => ret None
  end.

End WithHost.
End World.

(* ===================================================================== *)
(** ** The data-driven login steps of src/steps/loginSteps.ts *)
(* ===================================================================== *)

Module LoginSteps.
Import Js Effects Runtime World.

Definition selector (testid : string) : string :=
  "[data-testid=" +:+ dq +:+ testid +:+ dq +:+ "]".

Section WithHost.
Context {WorkSheet : Type} (host : Host WorkSheet).

(** [elementName || selector] *)
Definition display_name (elementName sel : string) : string :=
  if String.eqb elementName "" then sel else elementName.

(** [BasePage.assertElementVisible] *)
Definition assertElementVisible (p : Page) (sel elementName : string) : M Proc unit :=
  Logger.info host ("Asserting element is visible: " +:+ display_name elementName sel) ;;
  driver_call (ExpectToBeVisible p sel None) ;;
  throw_if (expect_toBeVisible host p sel None).

(** [BasePage.waitForElementVisible] on a selector *)
Definition waitForElementVisible (p : Page) (sel elementName : string) (timeout : Z)
    : M Proc unit :=
  Logger.info host ("Waiting for element to be visible: " +:+ display_name elementName sel) ;;
  driver_call (ExpectToBeVisible p sel (Some timeout)) ;;
  throw_if (expect_toBeVisible host p sel (Some timeout)).

(** [BasePage.getElementText]; [None] is [null]. *)
Definition getElementText (p : Page) (sel elementName : string) : M Proc (option string) :=
  Logger.debug host ("Getting text from element: " +:+ display_name elementName sel) ;;
  driver_call (LocatorTextContent p sel) ;;
  lift (locator_textContent host p sel).

(** [LoginPage.assertErrorMessageDisplayed] *)
Definition assertErrorMessageDisplayed (p : Page) : M Proc unit :=
  assertElementVisible p (selector "error-message") "Error Message".

(** [LoginPage.getErrorMessage] *)
Definition getErrorMessage (p : Page) : M Proc (option string) :=
  try_catch
    (waitForElementVisible p (selector "error-message") "Error Message" 5000 ;;
     getElementText p (selector "error-message") "Error Message")
    (fun _ => Logger.debug host "No error message found" ;; ret None).

(** [expect(actual).toContain(expected)] on a string or [null] *)
Definition expect_toContain (actual : option string) (expected : string) : M Proc unit :=
  match actual with
  | Some a =>
      if includes a expected then ret tt
      else throw (JsAssertion "expect(received).toContain(expected)")
  | None => throw (JsAssertion "expect(received).toContain(expected)")
  end.

(** [this.testData.expectedResult = loginData.expected_result], the line of
    the step "I login with data from test case ID" that feeds the assertion. *)
Definition store_expected_result (loginData : Row) (this : CustomWorld) : CustomWorld :=
  mkWorld (browser this) (page this) (config this)
          (<["expectedResult" := get loginData "expected_result"]> (testData this)).

(** The success branch of the assertion step: the [expect] on the header is
    issued without [await], so its outcome never reaches the step. *)
Definition success_branch (p : Page) (currentUrl : string) : M Proc unit :=
  Logger.info host "Verified todos page header: My Tasks" ;;
  driver_call (ExpectToHaveText p (selector "todos-header") "My Tasks" false) ;;
  Logger.info host ("Verified successful login and redirection to: " +:+ currentUrl).

(** The error branch of the assertion step. *)
Definition error_branch (p : Page) (currentUrl expectedResult : string) : M Proc unit :=
  let expectedErrorMessage := replace expectedResult "Error: " "" in
  assertErrorMessageDisplayed p ;;
  actualMessage <- getErrorMessage p ;;
  expect_toContain actualMessage expectedErrorMessage ;;
  expect_toContain (Some currentUrl) "/login" ;;
  Logger.info host ("Verified failed login with error: " +:+ expectedErrorMessage).

(** [Then('the login result should match the expected outcome')] *)
Definition login_result_should_match (this : CustomWorld) : M Proc unit :=
  let expectedResult := get (testData this) "expectedResult" in
  if negb (truthy expectedResult) then
    throw (JsError "Expected result not set in test data.")
  else
    match page this with
    | None => throw (JsTypeError "Cannot read properties of undefined (reading 'url')")
    | Some p =>
        let currentUrl := page_url host p in
        match expectedResult with
        | VStr s =>
            if startsWith s "Success" then success_branch p currentUrl
            else if startsWith s "Error:" then error_branch p currentUrl s
            else throw (JsError ("Unknown expected result format: " +:+ s))
        | _ => throw (JsTypeError "expectedResult.startsWith is not a function")
        end
    end.

End WithHost.
End LoginSteps.

(* ===================================================================== *)
(** ** Specification-side definitions and fixtures *)
(* ===================================================================== *)

Module Spec.
Import Js Effects Runtime.

(** The text a cell is substituted by: a string by itself, an integer by its
    decimal numeral, the other values by their names. *)
Definition printed (cell : JsVal) (text : string) : Prop :=
  match cell with
  | VUndef => text = "undefined"
  | VBool b => text = if b then "true" else "false"
  | VNum (Num z) => safe_integer z /\ text = Z_to_string z
  | VNum NaN => text = "NaN"
  | VStr s => text = s
  | VMember _ => False
  end.

(** The generated file as the specification describes it: a single feature
    header followed by one scenario block per row, in row order, each block
    being the fixed template with the number of the row (from 1) and the
    texts of its username and password columns substituted. *)
Definition scenario_block (number : nat) (username password : string) : string :=
  nl +:+ "  Scenario: Login test #" +:+ nat_to_string number
     +:+ " (" +:+ username +:+ ")" +:+ nl
     +:+ "    Given I login with username " +:+ dq +:+ username +:+ dq
     +:+ " and password " +:+ dq +:+ password +:+ dq +:+ nl
     +:+ "    Then Login should be successful" +:+ nl.

Fixpoint scenario_blocks (number : nat) (credentials : list (string * string)) : string :=
  match credentials with
  | [] => EmptyString
  | (username, password) :: rest =>
      scenario_block number username password +:+ scenario_blocks (S number) rest
  end.

Definition feature_text (credentials : list (string * string)) : string :=
  ("Feature: Login DDT Tests" +:+ nl) +:+ scenario_blocks 1 credentials.

(** The rows carry these credentials, one pair per row. *)
Definition carry (rows : list Row) (credentials : list (string * string)) : Prop :=
  Forall2 (fun row c => printed (get row "username") c.1 /\
                        printed (get row "password") c.2) rows credentials.

(** The cache a successful load leaves: the sheets of the workbook stored
    over what was cached before. *)
Definition merged_cache {WorkSheet} (host : Host WorkSheet) (wb : WorkBook WorkSheet)
    (before : gmap string (list Row)) : gmap string (list Row) :=
  foldl (fun c name => <[name := XLSX_sheet_to_json host (Sheets wb !! name)]> c)
        before (SheetNames wb).

(** The first element of [rows] that satisfies [f], with its position made
    explicit: nothing before it satisfies [f]. *)
Definition first_match {A} (f : A -> bool) (rows : list A) (r : A) : Prop :=
  exists before after,
    rows = (before ++ r :: after)%list /\
    Forall (fun x => f x = false) before /\
    f r = true.

(** "Fully replaced on reload", as the specification words it: after a
    successful load no sheet outside the loaded file is left in the cache. *)
Definition replaced_on_reload {WorkSheet} (host : Host WorkSheet) : Prop :=
  forall filePath wb s s',
    XLSX_readFile host (DataService.read_path host filePath) = inr wb ->
    DataService.loadData host filePath s = (Normal tt, s') ->
    forall name, name ∉ SheetNames wb -> cache s' !! name = None.


(** The enumerated profiles and the variable that carries each one's base URL. *)
Inductive Profile := Production | Staging | Development | Local.

Definition profile_of (name : string) : Profile :=
  if String.eqb name "production" then Production
  else if String.eqb name "staging" then Staging
  else if String.eqb name "development" then Development
  else Local.

Definition base_url_variable (p : Profile) : string :=
  match p with
  | Production => "PROD_BASE_URL"
  | Staging => "STAGING_BASE_URL"
  | Development => "DEV_BASE_URL"
  | Local => "LOCAL_BASE_URL"
  end.

(** The environment name [getConfig] switches on. *)
Definition env_name (env : gmap string string) : string :=
  Config.env_or env "NODE_ENV" "local".

(** A variable is set: present with a non-empty value. *)
Definition is_set (env : gmap string string) (name value : string) : Prop :=
  env !! name = Some value /\ value <> "".

(** The text [getErrorMessage] reads from a page: [None] when the error
    element does not show within the wait or its text cannot be read. *)
Definition shown_error {WorkSheet} (host : Host WorkSheet) (p : Page) : option string :=
  match expect_toBeVisible host p (LoginSteps.selector "error-message") (Some 5000%Z) with
  | Some _ => None
  | None =>
      match locator_textContent host p (LoginSteps.selector "error-message") with
      | inr text => text
      | inl _ => None
      end
  end.

(** "Any other value is an unrecognized-format error", as the specification
    words it: a value with neither prefix raises that error. *)
Definition other_values_unrecognized {WorkSheet} (host : Host WorkSheet) : Prop :=
  forall (row : Row) (w : World.CustomWorld) (p : Page) (v : string) (s : Proc),
    World.page w = Some p ->
    get row "expected_result" = VStr v ->
    startsWith v "Success" = false ->
    startsWith v "Error:" = false ->
    exists s',
      LoginSteps.login_result_should_match host (LoginSteps.store_expected_result row w) s
      = (Throw (JsError ("Unknown expected result format: " +:+ v)), s').

End Spec.

Module Fixtures.
Import Js Effects Runtime.

Definition row (cells : list (string * JsVal)) : Row := list_to_map cells.

Definition login_rows : list Row :=
  [ row [("test_case_id", VStr "TC-LOGIN-001"); ("username", VStr "admin");
         ("password", VStr "password"); ("expected_result", VStr "Success")];
    row [("test_case_id", VStr "TC-LOGIN-002"); ("username", VStr "admin");
         ("password", VStr "wrongpassword");
         ("expected_result", VStr "Error: Invalid credentials")];
    row [("test_case_id", VStr "TC-LOGIN-001"); ("username", VStr "duplicate");
         ("password", VStr "other"); ("expected_result", VStr "Success")] ].

Definition todo_rows : list Row :=
  [ row [("title", VStr "Buy milk"); ("completed", VBool false); ("priority", VNum (Num 2))] ].

(** A workbook with the sheets Login and Todo, and one with Login alone. *)
Definition book_two_sheets : WorkBook (list Row) :=
  mkWorkBook ["Login"; "Todo"]
             (list_to_map [("Login", login_rows); ("Todo", todo_rows)]).

Definition book_login_only : WorkBook (list Row) :=
  mkWorkBook ["Login"] (list_to_map [("Login", login_rows)]).

(** A workbook whose only sheet is named [__proto__]. *)
Definition book_proto_only : WorkBook (list Row) :=
  mkWorkBook ["__proto__"] (list_to_map [("__proto__", login_rows)]).

Definition readFile (path : string) : JsThrown + WorkBook (list Row) :=
  if String.eqb path "/proj/two_sheets.xlsx" then inr book_two_sheets
  else if String.eqb path "/proj/login_only.xlsx" then inr book_login_only
  else if String.eqb path "/proj/proto_only.xlsx" then inr book_proto_only
  else inl (JsError ("ENOENT: no such file or directory, open '" +:+ path +:+ "'")).

(** The members of [Array.prototype] of a current engine. *)
Definition array_members : list string :=
  ["length"; "constructor"; "at"; "concat"; "copyWithin"; "fill"; "find"; "findIndex";
   "findLast"; "findLastIndex"; "lastIndexOf"; "pop"; "push"; "reverse"; "shift";
   "unshift"; "slice"; "sort"; "splice"; "includes"; "indexOf"; "join"; "keys";
   "entries"; "values"; "forEach"; "filter"; "flat"; "flatMap"; "map"; "every"; "some";
   "reduce"; "reduceRight"; "toLocaleString"; "toString"; "toReversed"; "toSorted";
   "toSpliced"; "with"].

(** A host whose project directory holds the workbooks above and no
    test_data.xlsx. *)
Definition host (env : gmap string string) (level : LogLevel) : Host (list Row) :=
  {| process_env := env;
     cwd := "/proj";
     Date_now := 1700000000000;
     CURRENT_LOG_LEVEL := level;
     Array_prototype_members := array_members;
     path_isAbsolute := fun p => String.prefix "/" p;
     path_join := fun parts => String.concat "/" parts;
     XLSX_readFile := readFile;
     XLSX_sheet_to_json := fun ws => default [] ws;
     DataLoader_loadLoginData := fun _ => inr login_rows;
     fs_write_error := fun _ => None;
     browser_close := fun _ => None;
     page_screenshot := fun _ _ => inr [];
     page_url := fun _ => "http://localhost:5173/login";
     expect_toBeVisible := fun _ _ _ => None;
     locator_textContent := fun _ _ => inr (Some "Invalid credentials") |}.

Definition start : Proc := mkProc [] ∅ ∅ [].

(** The process after both sheets were cached. *)
Definition loaded : Proc :=
  mkProc [] (list_to_map [("Login", login_rows); ("Todo", todo_rows)]) ∅ [].

Definition world (data : gmap string JsVal) : World.CustomWorld :=
  World.mkWorld None None (Config.getConfig ∅) data.

(** A world whose browser session is open on one page. *)
Definition open_world : World.CustomWorld :=
  World.mkWorld (Some (mkBrowser 1)) (Some (mkPage 1)) (Config.getConfig ∅) ∅.

(** A data row whose expected_result cell is the empty string. *)
Definition blank_result_row : Row :=
  row [("test_case_id", VStr "TC-LOGIN-009"); ("username", VStr "admin");
       ("password", VStr "password"); ("expected_result", VStr "")].

(** A production run that asks for a visible, slowed-down browser. *)
Definition production_env : gmap string string :=
  list_to_map [("NODE_ENV", "production"); ("HEADLESS", "false"); ("SLOW_MO", "250");
               ("TIMEOUT", "45000"); ("BROWSER", "firefox");
               ("PROD_BASE_URL", "https://shop.example.com")].

(** A run under an environment name outside the enumerated profiles. *)
Definition qa_env : gmap string string :=
  list_to_map [("NODE_ENV", "qa"); ("TIMEOUT", "1000")].

End Fixtures.

(* ===================================================================== *)
(** ** Further string primitives *)
(* ===================================================================== *)

Module JsText.
Import Js.

(** Letter case on ASCII letters; every other byte is left as it is.
    JavaScript also maps letters outside ASCII, so [toUpperCase] and
    [toLowerCase] below are those of JavaScript on ASCII text. *)
Definition upper_char (c : ascii) : ascii :=
  let n := nat_of_ascii c in
  if ((97 <=? n) && (n <=? 122))%nat then ascii_of_nat (n - 32) else c.

Definition lower_char (c : ascii) : ascii :=
  let n := nat_of_ascii c in
  if ((65 <=? n) && (n <=? 90))%nat then ascii_of_nat (n + 32) else c.

Fixpoint map_chars (f : ascii -> ascii) (s : string) : string :=
  match s with
  | EmptyString => EmptyString
  | String c s' => String (f c) (map_chars f s')
  end.

(** [s.toUpperCase()] and [s.toLowerCase()] *)
Definition toUpperCase (s : string) : string := map_chars upper_char s.
Definition toLowerCase (s : string) : string := map_chars lower_char s.

(** [s.replace(/C/g, rep)] for a pattern [C] that matches one character of a
    class, on ASCII text (where a character is a byte). *)
Fixpoint replace_class (class : ascii -> bool) (s rep : string) : string :=
  match s with
  | EmptyString => EmptyString
  | String c s' =>
      (if class c then rep else String c EmptyString) +:+ replace_class class s' rep
  end.

(** [s.replace(/C+/g, rep)]: every maximal run of the class becomes one [rep].
    [in_run] tells that the character before belonged to the class. *)
Fixpoint replace_runs (class : ascii -> bool) (in_run : bool) (s rep : string) : string :=
  match s with
  | EmptyString => EmptyString
  | String c s' =>
      if class c
      then (if in_run then EmptyString else rep) +:+ replace_runs class true s' rep
      else String c (replace_runs class false s' rep)
  end.

(** Line terminators, which the pattern [.] does not match: the two of ASCII
    (JavaScript has U+2028 and U+2029 besides). *)
Definition is_line_terminator (c : ascii) : bool :=
  let n := nat_of_ascii c in ((n =? 10) || (n =? 13))%nat.

(** The class of [/./] and the class of [/[:.]/]. *)
Definition any_char (c : ascii) : bool := negb (is_line_terminator c).
Definition colon_or_dot (c : ascii) : bool :=
  let n := nat_of_ascii c in ((n =? 58) || (n =? 46))%nat.

Fixpoint trim_end (s : string) : string :=
  match s with
  | EmptyString => EmptyString
  | String c s' =>
      let rest := trim_end s' in
      if is_space c && String.eqb rest "" then EmptyString else String c rest
  end.

(** [s.trim()], on ASCII text *)
Definition trim (s : string) : string := trim_end (skip_space s).

(** [v || d] *)
Definition or_else (v d : JsVal) : JsVal := if truthy v then v else d.

(** [text || fallback] on a [string | null] *)
Definition text_or (text : option string) (fallback : string) : string :=
  match text with
  | Some t => if String.eqb t "" then fallback else t
  | None => fallback
  end.

End JsText.

(* ===================================================================== *)
(** ** The log level of src/utils/logger.ts *)
(* ===================================================================== *)

Module LoggerLevel.
Import Js JsText Effects Runtime.

(** [LogLevel[level]], the reverse mapping of the enum *)
Definition level_name (l : LogLevel) : string :=
  match l with
  | DEBUG => "DEBUG" | INFO => "INFO" | WARN => "WARN"
  | ERROR => "ERROR" | SILENT => "SILENT"
  end.

(** [getLogLevel]: [process.env.LOG_LEVEL?.toUpperCase()] through the switch. *)
Definition getLogLevel (env : gmap string string) : LogLevel :=
  match toUpperCase <$> (env !! "LOG_LEVEL") with
  | Some level =>
      if String.eqb level "DEBUG" then DEBUG
      else if String.eqb level "INFO" then INFO
      else if String.eqb level "WARN" then WARN
      else if String.eqb level "ERROR" then ERROR
      else if String.eqb level "SILENT" then SILENT
      else INFO
  | None => INFO
  end.

End LoggerLevel.

(* ===================================================================== *)
(** ** Reference behaviour of the data service, without the console *)
(* ===================================================================== *)

Module Reference.
Import Js JsText Effects Runtime.

(** A host that differs in the configured log level only. *)
Definition with_level {WorkSheet} (level : LogLevel) (host : Host WorkSheet)
    : Host WorkSheet :=
  {| process_env := process_env host;
     cwd := cwd host;
     Date_now := Date_now host;
     CURRENT_LOG_LEVEL := level;
     Array_prototype_members := Array_prototype_members host;
     path_isAbsolute := path_isAbsolute host;
     path_join := path_join host;
     XLSX_readFile := XLSX_readFile host;
     XLSX_sheet_to_json := XLSX_sheet_to_json host;
     DataLoader_loadLoginData := DataLoader_loadLoginData host;
     fs_write_error := fs_write_error host;
     browser_close := browser_close host;
     page_screenshot := page_screenshot host;
     page_url := page_url host;
     expect_toBeVisible := expect_toBeVisible host;
     locator_textContent := locator_textContent host |}.

(** A host that differs in what [XLSX.readFile] finds only. *)
Definition with_readFile {WorkSheet}
    (readFile : string -> JsThrown + WorkBook WorkSheet) (host : Host WorkSheet)
    : Host WorkSheet :=
  {| process_env := process_env host;
     cwd := cwd host;
     Date_now := Date_now host;
     CURRENT_LOG_LEVEL := CURRENT_LOG_LEVEL host;
     Array_prototype_members := Array_prototype_members host;
     path_isAbsolute := path_isAbsolute host;
     path_join := path_join host;
     XLSX_readFile := readFile;
     XLSX_sheet_to_json := XLSX_sheet_to_json host;
     DataLoader_loadLoginData := DataLoader_loadLoginData host;
     fs_write_error := fs_write_error host;
     browser_close := browser_close host;
     page_screenshot := page_screenshot host;
     page_url := page_url host;
     expect_toBeVisible := expect_toBeVisible host;
     locator_textContent := locator_textContent host |}.

Section WithHost.
Context {WorkSheet : Type} (host : Host WorkSheet).

(** The rows [loadData] stores for a sheet name of a workbook. *)
Definition sheet_rows (wb : WorkBook WorkSheet) (name : string) : list Row :=
  XLSX_sheet_to_json host (Sheets wb !! name).

(** What a call [loadData(filePath)] completes with, and the cache it leaves. *)
Definition load_outcome (filePath : option string) (c : gmap string (list Row))
    : Completion unit * gmap string (list Row) :=
  match XLSX_readFile host (DataService.read_path host filePath) with
  | inr wb => (Normal tt, Spec.merged_cache host wb c)
  | inl e =>
      (Throw (JsError ("DataService failed to load data: " +:+ thrown_message e)), c)
  end.

(** The lines a call [loadData(filePath)] hands to the console. *)
Definition load_lines (filePath : option string) : list (LogLevel * string) :=
  (Logger.emitted host INFO
     ("Attempting to load data from: "
      +:+ default (DataService.EXCEL_FILE_PATH host) filePath)
   ++ match XLSX_readFile host (DataService.read_path host filePath) with
      | inr wb =>
          flat_map (fun name =>
             Logger.emitted host INFO
               ("Successfully loaded " +:+ nat_to_string (length (sheet_rows wb name))
                +:+ " rows from sheet: " +:+ name)) (SheetNames wb)
          ++ Logger.emitted host INFO "All data sheets loaded successfully."
      | inl e =>
          Logger.emitted host ERROR
            ("Failed to load Excel data from " +:+ DataService.read_path host filePath
             +:+ ". Error:")
      end)%list.

(** What a call [getData(sheetName)] completes with, and the cache it leaves. *)
Definition getData_outcome (sheetName : string) (c : gmap string (list Row))
    : Completion DataService.SheetData * gmap string (list Row) :=
  if (length (DataService.cache_names c) =? 0)%nat then
    match load_outcome None c with
    | (Normal _, c') =>
        (Normal (default (DataService.Rows [])
                         (DataService.cache_read host c' sheetName)), c')
    | (Throw e, c') => (Throw e, c')
    end
  else (Normal (default (DataService.Rows []) (DataService.cache_read host c sheetName)),
        c).

(** The line [getData] logs for a name under which the cache gives nothing. *)
Definition missing_sheet_lines (sheetName : string) (c : gmap string (list Row))
    : list (LogLevel * string) :=
  match DataService.cache_read host c sheetName with
  | Some _ => []
  | None =>
      Logger.emitted host ERROR ("Sheet '" +:+ sheetName +:+ "' not found in Excel file.")
  end.

(** The lines a call [getData(sheetName)] hands to the console. *)
Definition getData_lines (sheetName : string) (c : gmap string (list Row))
    : list (LogLevel * string) :=
  if (length (DataService.cache_names c) =? 0)%nat then
    (Logger.emitted host WARN "Data cache is empty. Attempting to load data now."
     ++ load_lines None
     ++ match load_outcome None c with
        | (Normal _, c') => missing_sheet_lines sheetName c'
        | (Throw _, _) => []
        end)%list
  else missing_sheet_lines sheetName c.

End WithHost.

(** The variables [getConfig] reads under a profile. *)
Definition read_variables (p : Spec.Profile) : list string :=
  ["NODE_ENV"; "HEADLESS"; "SLOW_MO"; "TIMEOUT"; "BROWSER"; "VIEWPORT_WIDTH";
   "VIEWPORT_HEIGHT"; "ALLURE_RESULTS_DIR"; "SCREENSHOT_ON_FAIL";
   Spec.base_url_variable p].

(** A variable is unset for [||]: absent or empty. *)
Definition is_unset (env : gmap string string) (name : string) : Prop :=
  env !! name = None \/ env !! name = Some "".

(** The default base URL of a profile. *)
Definition default_base_url (p : Spec.Profile) : string :=
  match p with
  | Spec.Production => "https://prod.example.com"
  | Spec.Staging => "https://staging.example.com"
  | Spec.Development | Spec.Local => "http://localhost:5173"
  end.

End Reference.

Module Fixtures2.
Import Js Effects Runtime Reference.

(** The fixture host with a workbook at the default path as well. *)
Definition host_with_default (level : LogLevel) : Host (list Row) :=
  with_readFile
    (fun path =>
       if String.eqb path "/proj/test_data.xlsx" then inr Fixtures.book_two_sheets
       else Fixtures.readFile path)
    (Fixtures.host ∅ level).

(** A host whose login data cannot be loaded, and one that cannot write. *)
Definition host_without_login_data : Host (list Row) :=
  {| process_env := ∅;
     cwd := "/proj";
     Date_now := 1700000000000;
     CURRENT_LOG_LEVEL := INFO;
     Array_prototype_members := Fixtures.array_members;
     path_isAbsolute := fun p => String.prefix "/" p;
     path_join := fun parts => String.concat "/" parts;
     XLSX_readFile := Fixtures.readFile;
     XLSX_sheet_to_json := fun ws => default [] ws;
     DataLoader_loadLoginData := fun _ => inl (JsError "Unknown environment");
     fs_write_error := fun _ => None;
     browser_close := fun _ => None;
     page_screenshot := fun _ _ => inr [];
     page_url := fun _ => "http://localhost:5173/login";
     expect_toBeVisible := fun _ _ _ => None;
     locator_textContent := fun _ _ => inr (Some "Invalid credentials") |}.

End Fixtures2.

(* ===================================================================== *)
(** ** The scenario session: world, browser driver and further calls *)
(* ===================================================================== *)

Module Session.
Import Js JsText Effects Runtime World.

Record BrowserContext := mkContext { context_id : nat }.

(** The browser types of the driver. *)
Inductive BrowserType := chromium | firefox | webkit.

(** [Status] of the scenario runner; a result may carry none. *)
Inductive Status := UNKNOWN | PASSED | SKIPPED | PENDING | UNDEFINED | AMBIGUOUS | FAILED.

Definition status_name (st : Status) : string :=
  match st with
  | UNKNOWN => "UNKNOWN" | PASSED => "PASSED" | SKIPPED => "SKIPPED"
  | PENDING => "PENDING" | UNDEFINED => "UNDEFINED" | AMBIGUOUS => "AMBIGUOUS"
  | FAILED => "FAILED"
  end.

(** Calls to the driver, the file system and the report sink made by the
    session code, in the order they are issued. *)
Inductive Call :=
  | Launch (t : BrowserType) (headless : bool) (slowMo : JsNumber)
  | NewContext (b : Browser) (width height : JsNumber) (baseURL : string)
  | SetDefaultTimeout (c : BrowserContext) (timeout : JsNumber)
  | NewPage (c : BrowserContext)
  | Fill (p : Page) (selector : string) (value : JsVal)
  | Click (p : Page) (selector : string)
  | ToBeVisible (p : Page) (selector : string) (timeout : option Z)
  | ToBeHidden (p : Page) (selector : string) (timeout : option Z)
  | TodoItems (p : Page)
  | MkdirSync (path : string)
  | ScreenshotFullPage (p : Page) (path : string)
  | Attach (data : Buffer) (mediaType : string).

(** One rendered todo item, as the locators inside it answer: each read
    gives a text (or null), or throws. *)
Record TodoElement := mkTodoElement {
  title_text : JsThrown + option string;        (* textContent() of the title *)
  description_text : JsThrown + option string;
  priority_text : JsThrown + option string;
  is_checked : JsThrown + bool;                 (* isChecked() of the checkbox *)
}.

(** What the session code takes from the driver, the file system and the
    report sink, besides the fields of [Host]. *)
Record Driver := mkDriver {
  launch : BrowserType -> bool -> JsNumber -> JsThrown + Browser;
  newContext : Browser -> JsNumber -> JsNumber -> string -> JsThrown + BrowserContext;
  setDefaultTimeout_error : BrowserContext -> JsNumber -> option JsThrown;
  newPage : BrowserContext -> JsThrown + Page;
  fill_error : Page -> string -> JsVal -> option JsThrown;
  click_error : Page -> string -> option JsThrown;
  expect_toBeHidden : Page -> string -> option Z -> option JsThrown;
  todo_elements : Page -> JsThrown + list TodoElement;
  fs_existsSync : string -> bool;
  fs_mkdirSync_error : string -> option JsThrown;
  Date_toISOString : string;                 (* new Date().toISOString() *)
  screenshot_fullPage : Page -> string -> JsThrown + Buffer;
  attach_error : Buffer -> string -> option JsThrown;
}.

(** The state a scenario runs in: the process, the world object ([this]) with
    its [context] field, and the calls issued so far. *)
Record Run := mkRun {
  proc : Proc;
  this : CustomWorld;
  context : option BrowserContext;
  calls : list Call;
}.

(** Run a computation of the process inside a scenario. *)
Definition on_proc {A} (m : M Proc A) : M Run A :=
  fun r =>
    let '(c, p) := m (proc r) in
    (c, mkRun p (this r) (context r) (calls r)).

(** Run a method of the world on the current [this]. *)
Definition on_this {A} (method : CustomWorld -> M Proc A) : M Run A :=
  fun r => on_proc (method (this r)) r.

Definition call (c : Call) : M Run unit :=
  modify (fun r => mkRun (proc r) (this r) (context r) (calls r ++ [c])%list).

Definition set_browser (b : Browser) : M Run unit :=
  modify (fun r =>
    mkRun (proc r)
          (mkWorld (Some b) (page (this r)) (config (this r)) (testData (this r)))
          (context r) (calls r)).

Definition set_context (c : BrowserContext) : M Run unit :=
  modify (fun r => mkRun (proc r) (this r) (Some c) (calls r)).

Definition set_page (p : Page) : M Run unit :=
  modify (fun r =>
    mkRun (proc r)
          (mkWorld (browser (this r)) (Some p) (config (this r)) (testData (this r)))
          (context r) (calls r)).

(** [this.testData[key] = value] *)
Definition set_testData (key : string) (value : JsVal) : M Run unit :=
  modify (fun r =>
    mkRun (proc r)
          (mkWorld (browser (this r)) (page (this r)) (config (this r))
                   (<[key := value]> (testData (this r))))
          (context r) (calls r)).

(** What [{ chromium, firefox, webkit }[name]] evaluates to. *)
Inductive TableEntry :=
  | Entry (t : BrowserType)
  | InheritedMember        (* a member of Object.prototype: truthy, no [launch] *)
  | Missing.               (* undefined *)

Definition browser_table (name : string) : TableEntry :=
  if String.eqb name "chromium" then Entry chromium
  else if String.eqb name "firefox" then Entry firefox
  else if String.eqb name "webkit" then Entry webkit
  else if bool_decide (name ∈ Object_prototype_members) then InheritedMember
  else Missing.

Section WithHost.
Context {WorkSheet : Type} (host : Host WorkSheet) (driver : Driver).

(** [CustomWorld.initBrowser] *)
Definition initBrowser : M Run unit :=
  config <- gets (fun r => config (this r)) ;;
  on_proc (Logger.info host ("Initializing " +:+ Config.BROWSER config +:+ " browser...")) ;;
  match browser_table (Config.BROWSER config) with
  | Missing => throw (JsError ("Unsupported browser type: " +:+ Config.BROWSER config))
  | InheritedMember => throw (JsTypeError "browserType.launch is not a function")
  | Entry browserType =>
      call (Launch browserType (Config.HEADLESS config) (Config.SLOW_MO config)) ;;
      b <- lift (launch driver browserType (Config.HEADLESS config) (Config.SLOW_MO config)) ;;
      set_browser b ;;
      call (NewContext b (Config.VIEWPORT_WIDTH config) (Config.VIEWPORT_HEIGHT config)
                       (Config.BASE_URL config)) ;;
      c <- lift (newContext driver b (Config.VIEWPORT_WIDTH config)
                            (Config.VIEWPORT_HEIGHT config) (Config.BASE_URL config)) ;;
      set_context c ;;
      call (SetDefaultTimeout c (Config.TIMEOUT config)) ;;
      throw_if (setDefaultTimeout_error driver c (Config.TIMEOUT config)) ;;
      call (NewPage c) ;;
      p <- lift (newPage driver c) ;;
      set_page p ;;
      on_proc (Logger.info host "Browser and Page initialized successfully.")
  end.

(** [this.page.m(...)]: reading a member of an unset page throws. *)
Definition the_page (member : string) : M Run Page :=
  p <- gets (fun r => page (this r)) ;;
  match p with
  | Some p => ret p
  | None =>
      throw (JsTypeError ("Cannot read properties of undefined (reading '"
                          +:+ member +:+ "')"))
  end.

(** [ScreenshotManager.capture(world, name = 'screenshot')] *)
Definition capture (name : option string) : M Run string :=
  let name := default "screenshot" name in
  let timestamp := replace_class colon_or_dot (Date_toISOString driver) "-" in
  let fileName := name +:+ "-" +:+ timestamp +:+ ".png" in
  let filePath := path_join host ["screenshots"; fileName] in
  (if negb (fs_existsSync driver "screenshots")
   then call (MkdirSync "screenshots") ;;
        throw_if (fs_mkdirSync_error driver "screenshots")
   else ret tt) ;;
  p <- the_page "screenshot" ;;
  call (ScreenshotFullPage p filePath) ;;
  buffer <- lift (screenshot_fullPage driver p filePath) ;;
  call (Attach buffer "image/png") ;;
  throw_if (attach_error driver buffer "image/png") ;;
  ret filePath.

End WithHost.
End Session.

(* ===================================================================== *)
(** ** src/support/hooks.ts *)
(* ===================================================================== *)

Module Hooks.
Import Js JsText Effects Runtime World Session.

Section WithHost.
Context {WorkSheet : Type} (host : Host WorkSheet) (driver : Driver).

Definition EXCEL_FILE_NAME : string := "/test-data/test_data.xlsx".
Definition EXCEL_FILE_PATH : string := path_join host [cwd host; EXCEL_FILE_NAME].

(** [BeforeAll], the version that loads the workbook through the data service *)
Definition BeforeAll : M Proc unit :=
  try_catch
    (DataService.loadData host (Some EXCEL_FILE_PATH))
    (fun _ =>
       Logger.error host ("FATAL: Could not load test data from " +:+ EXCEL_FILE_NAME
                          +:+ ". Test execution aborted.")) ;;
  Logger.info host "🚀 Starting test execution..." ;;
  Logger.info host "✅ Test environment initialized".

(** [`${scenarioStatus}`] for [scenario.result?.status] *)
Definition status_text (status : option Status) : string :=
  match status with
  | Some st => status_name st
  | None => "undefined"
  end.

Definition is_failed (status : option Status) : bool :=
  match status with
  | Some FAILED => true
  | _ => false
  end.

(** [After] *)
Definition After (scenario_name : string) (status : option Status) : M Run unit :=
  (if is_failed status
   then capture host driver
          (Some ("FAILED-" +:+ replace_runs is_space false scenario_name "_")) ;;
        ret tt
   else ret tt) ;;
  on_proc (Logger.info host ("🏁 Scenario completed: " +:+ scenario_name
                             +:+ " - Status: " +:+ status_text status)) ;;
  on_this (closeBrowser host) ;;
  on_proc (Logger.info host "🔒 Browser closed").

End WithHost.
End Hooks.

(* ===================================================================== *)
(** ** The page objects: BasePage, LoginPage and TodoPage *)
(* ===================================================================== *)

Module Pages.
Import Js JsText Effects Runtime World Session.

Section WithHost.
Context {WorkSheet : Type} (host : Host WorkSheet) (driver : Driver).

(** A page object keeps the page it was built with: [this.page.m(...)] throws
    when that page is unset. *)
Definition member (page : option Page) (name : string) : M Run Page :=
  match page with
  | Some p => ret p
  | None =>
      throw (JsTypeError ("Cannot read properties of undefined (reading '"
                          +:+ name +:+ "')"))
  end.

(** *** BasePage *)

(** [BasePage.clickElement] *)
Definition clickElement (page : option Page) (selector : string)
    (elementName : option string) : M Run unit :=
  let name := text_or elementName selector in
  on_proc (Logger.info host ("Clicking element: " +:+ name)) ;;
  p <- member page "locator" ;;
  call (Click p selector) ;;
  throw_if (click_error driver p selector).

(** [BasePage.fillText] *)
Definition fillText (page : option Page) (selector : string) (text : JsVal)
    (elementName : option string) : M Run unit :=
  let name := text_or elementName selector in
  on_proc (Logger.info host ("Filling text " +:+ dq +:+ to_String text +:+ dq
                             +:+ " into: " +:+ name)) ;;
  p <- member page "locator" ;;
  call (Fill p selector text) ;;
  throw_if (fill_error driver p selector text).

(** [BasePage.waitForElementVisible] on a selector *)
Definition waitForElementVisible (page : option Page) (element : string)
    (elementName : option string) (timeout : option Z) : M Run unit :=
  let name := text_or elementName element in
  p <- member page "locator" ;;
  on_proc (Logger.info host ("Waiting for element to be visible: " +:+ name)) ;;
  call (ToBeVisible p element timeout) ;;
  throw_if (expect_toBeVisible host p element timeout).

(** [BasePage.waitForElementHidden] on a selector *)
Definition waitForElementHidden (page : option Page) (element : string)
    (elementName : option string) (timeout : option Z) : M Run unit :=
  let name := text_or elementName element in
  p <- member page "locator" ;;
  on_proc (Logger.info host ("Waiting for element to be hidden: " +:+ name)) ;;
  call (ToBeHidden p element timeout) ;;
  throw_if (expect_toBeHidden driver p element timeout).

(** *** LoginPage *)

(** [LoginPage.isPageLoaded]; the caught error handed to the logger after the
    message is not part of the line. *)
Definition isPageLoaded (page : option Page) : M Run bool :=
  try_catch
    (waitForElementVisible page (LoginSteps.selector "tab-login") (Some "tab-login") None ;;
     waitForElementVisible page (LoginSteps.selector "login-username")
       (Some "Username Input") None ;;
     waitForElementVisible page (LoginSteps.selector "login-password")
       (Some "Password Input") None ;;
     waitForElementVisible page (LoginSteps.selector "login-button")
       (Some "Login Button") None ;;
     ret true)
    (fun _ =>
       on_proc (Logger.error host "Login page is not loaded correctly") ;;
       ret false).

(** [LoginPage.enterUsername] and [LoginPage.enterPassword] *)
Definition enterUsername (page : option Page) (username : JsVal) : M Run unit :=
  fillText page (LoginSteps.selector "login-username") username (Some "Username Input").

Definition enterPassword (page : option Page) (password : JsVal) : M Run unit :=
  fillText page (LoginSteps.selector "login-password") password (Some "Password Input").

(** [LoginPage.clickLoginButton] and [clickRegisterTab] *)
Definition clickLoginButton (page : option Page) : M Run unit :=
  clickElement page (LoginSteps.selector "login-button") (Some "Login Button").

Definition clickRegisterTab (page : option Page) : M Run unit :=
  clickElement page (LoginSteps.selector "tab-register") (Some "Register Tab").

(** [LoginPage.waitForLoginToComplete] *)
Definition waitForLoginToComplete (page : option Page) : M Run unit :=
  try_catch
    (waitForElementVisible page (LoginSteps.selector "loading-spinner")
       (Some "Loading Spinner") (Some 2000%Z) ;;
     waitForElementHidden page (LoginSteps.selector "loading-spinner")
       (Some "Loading Spinner") (Some 10000%Z))
    (fun _ =>
       on_proc (Logger.debug host "Loading spinner not found or disappeared quickly")).

(** *** TodoPage *)

(** A [TodoItem] as [getAllTodos] builds it. *)
Record TodoItem := mkTodoItem {
  title : string;
  description : string;
  completed : bool;
  priority : string;
}.

(** The body of the loop of [getAllTodos]: the reads of one element. *)
Definition read_element (element : TodoElement) : M Run TodoItem :=
  title <- lift (title_text element) ;;
  let title := text_or title "" in
  description <- lift (description_text element) ;;
  let description := text_or description "" in
  priority <- lift (priority_text element) ;;
  let priority := text_or priority "medium" in
  completed <- lift (is_checked element) ;;
  ret {| title := trim title;
         description := trim description;
         completed := completed;
         priority := toLowerCase priority |}.

(** [for (const element of todoElements) { ... todos.push(...) }] *)
Fixpoint collect (todoElements : list TodoElement) (todos : list TodoItem)
    : M Run (list TodoItem) :=
  match todoElements with
  | [] => ret todos
  | element :: rest =>
      todo <- read_element element ;;
      collect rest (todos ++ [todo])%list
  end.

(** [TodoPage.getAllTodos] *)
Definition getAllTodos (page : option Page) : M Run (list TodoItem) :=
  p <- member page "locator" ;;
  call (TodoItems p) ;;
  todoElements <- lift (todo_elements driver p) ;;
  collect todoElements [].

(** [TodoPage.getTodoByTitle]; [None] is [null]. *)
Definition getTodoByTitle (page : option Page) (wanted : string)
    : M Run (option TodoItem) :=
  todos <- getAllTodos page ;;
  ret (List.find (fun todo => String.eqb (title todo) wanted) todos).

(** [TodoPage.assertTodoExists] *)
Definition assertTodoExists (page : option Page) (wanted : string) : M Run unit :=
  todo <- getTodoByTitle page wanted ;;
  match todo with
  | None =>
      throw (JsError ("Todo with title " +:+ dq +:+ wanted +:+ dq +:+ " not found"))
  | Some _ => on_proc (Logger.info host ("Verified todo exists: " +:+ wanted))
  end.

(** [TodoPage.assertTodoNotExists] *)
Definition assertTodoNotExists (page : option Page) (wanted : string) : M Run unit :=
  todo <- getTodoByTitle page wanted ;;
  match todo with
  | Some _ =>
      throw (JsError ("Todo with title " +:+ dq +:+ wanted +:+ dq
                      +:+ " should not exist but was found"))
  | None => on_proc (Logger.info host ("Verified todo does not exist: " +:+ wanted))
  end.

End WithHost.

End Pages.

(* ===================================================================== *)
(** ** Further steps of src/steps/loginSteps.ts *)
(* ===================================================================== *)

Module Steps.
Import Js JsText Effects Runtime World Session Pages.

Section WithHost.
Context {WorkSheet : Type} (host : Host WorkSheet) (driver : Driver).

(** [password.replace(/./g, '*')], one star per character of an ASCII
    password (JavaScript counts UTF-16 units); a password that is not a
    string has no [replace] method. *)
Definition masked (password : JsVal) : M Run string :=
  match password with
  | VStr s => ret (replace_class any_char s "*")
  | _ => throw (JsTypeError "password.replace is not a function")
  end.

(** [When('I login with data from test case ID {string}')] *)
Definition login_with_data (testCaseId : string) : M Run unit :=
  loginData <- on_proc (DataService.getSingleData host "Login" "test_case_id"
                          (VStr testCaseId)) ;;
  match loginData with
  | None =>
      throw (JsError ("Test data not found for test case ID: " +:+ testCaseId
                      +:+ " in 'Login' sheet."))
  | Some loginData =>
      let username := or_else (get loginData "username") (VStr "") in
      let password := or_else (get loginData "password") (VStr "") in
      set_testData "expectedResult" (get loginData "expected_result") ;;
      page <- gets (fun r => page (this r)) ;;
      enterUsername host driver page username ;;
      enterPassword host driver page password ;;
      stars <- masked password ;;
      on_proc (Logger.info host
        ("Entered credentials for test case " +:+ testCaseId +:+ ": username=" +:+ dq
         +:+ to_String username +:+ dq +:+ ", password=" +:+ dq +:+ stars +:+ dq))
  end.

(** [When('I click the login button')] *)
Definition click_login_button : M Run unit :=
  page <- gets (fun r => page (this r)) ;;
  clickLoginButton host driver page ;;
  waitForLoginToComplete host driver page ;;
  on_proc (Logger.info host "Clicked login button and waited for completion").

(** [When('I click the {string} tab')]: the selector computed from the tab name
    is not used. *)
Definition click_tab (tabName : string) : M Run unit :=
  let selector :=
    if String.eqb tabName "Register" then LoginSteps.selector "tab-register"
    else LoginSteps.selector "tab-login" in
  page <- gets (fun r => page (this r)) ;;
  clickRegisterTab host driver page ;;
  on_proc (Logger.info host ("Clicked " +:+ tabName +:+ " tab")).

(** [expect(value).toBe(true)] *)
Definition expect_toBe_true (value : bool) : M Run unit :=
  if value then ret tt else throw (JsAssertion "expect(received).toBe(expected)").

(** [Then('I should remain on the login page')] *)
Definition should_remain_on_login_page : M Run unit :=
  p <- the_page "url" ;;
  let currentUrl := page_url host p in
  on_proc (LoginSteps.expect_toContain (Some currentUrl) "/login") ;;
  isLoaded <- isPageLoaded host (Some p) ;;
  expect_toBe_true isLoaded ;;
  on_proc (Logger.info host "Verified user remains on login page").

(** [Then('the login result should match the expected outcome')], run on the
    world of the scenario. *)
Definition login_result_step : M Run unit :=
  on_this (LoginSteps.login_result_should_match host).

(** [Then('the todo should not be added to the list')] of src/steps/todoSteps.ts *)
Definition todo_should_not_be_added : M Run unit :=
  page <- gets (fun r => page (this r)) ;;
  todos <- getAllTodos driver page ;;
  let emptyTitleTodos := List.filter (fun todo => String.eqb (title todo) "") todos in
  (if (length emptyTitleTodos =? 0)%nat then ret tt
   else throw (JsAssertion "expect(received).toHaveLength(expected)")) ;;
  on_proc (Logger.info host "Verified no empty title todo was added").

End WithHost.
End Steps.

Module Fixtures3.
Import Js JsText Effects Runtime World Session Pages.

(** A driver on which every call succeeds; the page shows two todo items. *)
Definition todo_elements_shown : list TodoElement :=
  [ mkTodoElement (inr (Some "  Buy milk ")) (inr (Some "2 litres")) (inr (Some "HIGH"))
                  (inr false);
    mkTodoElement (inr (Some "Call mum")) (inr None) (inr None) (inr true) ].

Definition driver : Driver :=
  {| launch := fun _ _ _ => inr (mkBrowser 1);
     newContext := fun _ _ _ _ => inr (mkContext 1);
     setDefaultTimeout_error := fun _ _ => None;
     newPage := fun _ => inr (mkPage 1);
     fill_error := fun _ _ _ => None;
     click_error := fun _ _ => None;
     expect_toBeHidden := fun _ _ _ => None;
     todo_elements := fun _ => inr todo_elements_shown;
     fs_existsSync := fun _ => false;
     fs_mkdirSync_error := fun _ => None;
     Date_toISOString := "2025-01-31T09:15:42.123Z";
     screenshot_fullPage := fun _ _ => inr [];
     attach_error := fun _ _ => None |}.

(** A driver whose browser launches but cannot open a context. *)
Definition driver_without_context : Driver :=
  {| launch := fun _ _ _ => inr (mkBrowser 1);
     newContext := fun _ _ _ _ => inl (JsError "browser.newContext: Target closed");
     setDefaultTimeout_error := fun _ _ => None;
     newPage := fun _ => inr (mkPage 1);
     fill_error := fun _ _ _ => None;
     click_error := fun _ _ => None;
     expect_toBeHidden := fun _ _ _ => None;
     todo_elements := fun _ => inr [];
     fs_existsSync := fun _ => true;
     fs_mkdirSync_error := fun _ => None;
     Date_toISOString := "2025-01-31T09:15:42.123Z";
     screenshot_fullPage := fun _ _ => inr [];
     attach_error := fun _ _ => None |}.

(** A scenario that has not opened a session, one under a browser name the
    table does not hold, and one with an open session on a loaded cache. *)
Definition fresh : Run := mkRun Fixtures.start (Fixtures.world ∅) None [].

Definition fresh_with_browser (name : string) : Run :=
  mkRun Fixtures.start
        (mkWorld None None (Config.getConfig (<["BROWSER" := name]> ∅)) ∅)
        None [].

Definition in_session : Run := mkRun Fixtures.loaded Fixtures.open_world (Some (mkContext 1)) [].

End Fixtures3.

(* ===================================================================== *)
(** ** What the page shows, for the statements about the page objects *)
(* ===================================================================== *)

Module Observed.
Import Js JsText Effects Runtime World Session Pages.

(** What an awaited call that may reject completes with. *)
Definition completion_of (rejected : option JsThrown) : Completion unit :=
  match rejected with
  | None => Normal tt
  | Some e => Throw e
  end.

(** The elements [LoginPage.isPageLoaded] waits for, in the order of the
    source. *)
Definition login_landmarks : list string :=
  [LoginSteps.selector "tab-login"; LoginSteps.selector "login-username";
   LoginSteps.selector "login-password"; LoginSteps.selector "login-button"].

(** Whether an element shows on a page within the default wait. *)
Definition shows {WorkSheet} (host : Host WorkSheet) (p : Page) (selector : string) : bool :=
  match expect_toBeVisible host p selector None with
  | None => true
  | Some _ => false
  end.

(** The elements waited for when the waits stop at the first one that does
    not show. *)
Fixpoint waited_for (shows : string -> bool) (selectors : list string) : list string :=
  match selectors with
  | [] => []
  | selector :: rest =>
      selector :: (if shows selector then waited_for shows rest else [])
  end.

(** The texts read from an element are ASCII text. *)
Definition ascii_read (text : JsThrown + option string) : bool :=
  match text with
  | inr (Some t) => ascii_text t
  | _ => true
  end.

Definition ascii_element (element : TodoElement) : bool :=
  ascii_read (title_text element) && ascii_read (description_text element)
  && ascii_read (priority_text element).

(** The item an element of the list stands for, when all four reads of it
    succeed. *)
Definition item_read (element : TodoElement) : option TodoItem :=
  match title_text element, description_text element,
        priority_text element, is_checked element with
  | inr title, inr description, inr priority, inr completed =>
      Some {| title := trim (text_or title "");
              description := trim (text_or description "");
              completed := completed;
              priority := toLowerCase (text_or priority "medium") |}
  | _, _, _, _ => None
  end.

End Observed.

(* ===================================================================== *)
(** ** The JavaScript primitives on concrete inputs *)
(* ===================================================================== *)

Module JsFacts.
Import Js.

Example parseInt_examples :
  parseInt "30000" = Num 30000 /\ parseInt "  -12px" = Num (-12) /\
  parseInt "+7" = Num 7 /\ parseInt "0x10" = Num 0 /\
  parseInt "" = NaN /\ parseInt "fast" = NaN /\ parseInt "- 5" = NaN.
Proof. repeat split; reflexivity. Qed.

Example replace_examples :
  replace "Error: Invalid credentials" "Error: " "" = "Invalid credentials" /\
  replace "Error:none" "Error: " "" = "Error:none" /\
  replace "Error:a Error: b Error: c" "Error: " "" = "Error:a b Error: c".
Proof. repeat split; reflexivity. Qed.

Example includes_examples :
  includes "http://localhost:5173/login" "/login" = true /\
  includes "http://localhost:5173/todos" "/login" = false /\
  includes "anything" "" = true /\ includes "" "x" = false.
Proof. repeat split; reflexivity. Qed.

Example strict_eq_examples :
  strict_eq (VStr "1") (VNum (Num 1)) = false /\
  strict_eq (VNum NaN) (VNum NaN) = false /\
  strict_eq VUndef VUndef = true /\
  strict_eq (VStr "TC-LOGIN-001") (VStr "tc-login-001") = false.
Proof. repeat split; reflexivity. Qed.

Example to_String_examples :
  to_String VUndef = "undefined" /\ to_String (VNum (Num (-42))) = "-42" /\
  to_String (VBool true) = "true" /\ to_String (VStr "admin") = "admin".
Proof. repeat split; reflexivity. Qed.

Example replace_all_space_example :
  replace_all_space "Valid  login works" "_" = "Valid__login_works".
Proof. reflexivity. Qed.

Lemma strict_eq_string (a b : string) : strict_eq (VStr a) (VStr b) = true <-> a = b.
Proof. simpl. apply String.eqb_eq. Qed.

Lemma strict_eq_true_same (a b : JsVal) : strict_eq a b = true -> a = b.
Proof.
  destruct a as [|x|[x|]|x|x], b as [|y|[y|]|y|y]; simpl; try discriminate; intros H.
  - reflexivity.
  - apply Bool.eqb_prop in H. now subst.
  - apply Z.eqb_eq in H. now subst.
  - apply String.eqb_eq in H. now subst.
  - apply String.eqb_eq in H. now subst.
Qed.

(** A column a row does not have reads as [undefined], except under the
    names every object inherits a member for. *)
Example get_examples :
  let row : gmap string JsVal := list_to_map [("username", VStr "admin")] in
  get row "username" = VStr "admin" /\ get row "password" = VUndef /\
  get row "constructor" = VMember "constructor" /\
  strict_eq (get row "constructor") VUndef = false /\
  to_String (get row "toString") = "function toString() { [native code] }".
Proof. repeat split; reflexivity. Qed.

Lemma get_insert_eq (o : gmap string JsVal) (key : string) (v : JsVal) :
  get (<[key := v]> o) key = v.
Proof. unfold get. now rewrite lookup_insert_eq. Qed.

Lemma get_insert_ne (o : gmap string JsVal) (key other : string) (v : JsVal) :
  key <> other -> get (<[key := v]> o) other = get o other.
Proof. intros Hne. unfold get. now rewrite lookup_insert_ne. Qed.

End JsFacts.

(* ===================================================================== *)
(** ** Facts about the runtime and the logger *)
(* ===================================================================== *)

Module RuntimeFacts.
Import Js Effects Runtime.

Lemma proc_ext (a b : Proc) :
  console a = console b -> cache a = cache b -> files a = files b ->
  driver_calls a = driver_calls b -> a = b.
Proof.
  destruct a, b; simpl; intros; subst; reflexivity.
Qed.

Lemma print_nil s : print [] s = s.
Proof. apply proc_ext; simpl; auto using app_nil_r. Qed.

Lemma print_print l1 l2 s : print l2 (print l1 s) = print (l1 ++ l2) s.
Proof. apply proc_ext; simpl; auto using app_assoc. Qed.

Lemma append_assoc (a b c : string) : (a +:+ b) +:+ c = a +:+ (b +:+ c).
Proof.
  induction a as [|ch a IH]; [reflexivity |].
  change (String ch ((a +:+ b) +:+ c) = String ch (a +:+ (b +:+ c))).
  now rewrite IH.
Qed.

Lemma append_nil_r (a : string) : a +:+ "" = a.
Proof.
  induction a as [|ch a IH]; [reflexivity |].
  change (String ch (a +:+ "") = String ch a).
  now rewrite IH.
Qed.

Lemma keys_empty_iff {A} (m : gmap string A) :
  (length (Object_keys m) =? 0)%nat = true <-> m = ∅.
Proof.
  unfold Object_keys. rewrite Nat.eqb_eq, length_fmap.
  split.
  - intros H. apply map_to_list_empty_iff. now apply length_zero_iff_nil.
  - intros ->. now rewrite map_to_list_empty.
Qed.

Lemma keys_nonempty {A} (m : gmap string A) :
  m <> ∅ -> (length (Object_keys m) =? 0)%nat = false.
Proof.
  intros H. destruct (length (Object_keys m) =? 0)%nat eqn:E; [|reflexivity].
  apply keys_empty_iff in E. contradiction.
Qed.

Section WithHost.
Context {WorkSheet : Type} (host : Host WorkSheet).

Lemma log_run level message s :
  Logger.log host level message s = (Normal tt, print (Logger.emitted host level message) s).
Proof.
  unfold Logger.log, Logger.emitted.
  destruct (_ <=? _)%nat; [destruct level|]; unfold ret, modify, print;
    try reflexivity; now rewrite <- (print_nil s) at 1.
Qed.

Lemma info_run message s :
  Logger.info host message s = (Normal tt, print (Logger.emitted host INFO message) s).
Proof. apply log_run. Qed.

Lemma warn_run message s :
  Logger.warn host message s = (Normal tt, print (Logger.emitted host WARN message) s).
Proof. apply log_run. Qed.

Lemma error_run message s :
  Logger.error host message s = (Normal tt, print (Logger.emitted host ERROR message) s).
Proof. apply log_run. Qed.

Lemma debug_run message s :
  Logger.debug host message s = (Normal tt, print (Logger.emitted host DEBUG message) s).
Proof. apply log_run. Qed.

End WithHost.
End RuntimeFacts.

(* ===================================================================== *)
(** ** Facts about the data service *)
(* ===================================================================== *)

Module DataServiceFacts.
Import Js Effects Runtime DataService Spec RuntimeFacts.

Lemma cache_names_entry (c : gmap string (list Row)) (name : string) (rows : list Row) :
  name <> "__proto__" -> c !! name = Some rows ->
  (length (cache_names c) =? 0)%nat = false.
Proof.
  intros Hname Hentry.
  assert (Hin : In name (cache_names c)).
  { unfold cache_names. apply filter_In. split.
    - apply list_elem_of_In. unfold Object_keys. apply list_elem_of_fmap.
      exists (name, rows). split; [reflexivity |]. now apply elem_of_map_to_list.
    - apply String.eqb_neq in Hname. now rewrite Hname. }
  destruct (cache_names c); [inversion Hin | reflexivity].
Qed.

Lemma cache_names_nonempty (c : gmap string (list Row)) :
  c <> ∅ -> c !! "__proto__" = None -> (length (cache_names c) =? 0)%nat = false.
Proof.
  intros Hne Hproto. destruct (map_choose c Hne) as (name & rows & Hentry).
  apply (cache_names_entry c name rows); [| exact Hentry].
  intros ->. rewrite Hproto in Hentry. discriminate.
Qed.

Lemma cache_names_empty : cache_names (∅ : gmap string (list Row)) = [].
Proof. unfold cache_names, Object_keys. now rewrite map_to_list_empty. Qed.

Section WithHost.
Context {WorkSheet : Type} (host : Host WorkSheet).

(** An entry of the cache is what a read under its name gives. *)
Lemma cache_read_entry (c : gmap string (list Row)) (name : string) (rows : list Row) :
  name <> "__proto__" -> c !! name = Some rows ->
  cache_read host c name = Some (Rows rows).
Proof.
  intros Hname Hentry. unfold cache_read.
  apply String.eqb_neq in Hname. now rewrite Hname, Hentry.
Qed.

(** A read from a cache whose prototype is [Object.prototype]. *)
Lemma cache_read_plain (c : gmap string (list Row)) (name : string) :
  c !! "__proto__" = None ->
  cache_read host c name
  = match c !! name with
    | Some rows => Some (Rows rows)
    | None =>
        if bool_decide (name ∈ Object_prototype_members)
        then Some (Inherited name) else None
    end.
Proof.
  intros Hproto. unfold cache_read.
  destruct (String.eqb_spec name "__proto__") as [-> | Hname].
  - rewrite Hproto. reflexivity.
  - rewrite Hproto. reflexivity.
Qed.

Lemma store_loop (wb : WorkBook WorkSheet) (names : list string) (s : Proc) :
  exists lines,
    forEach names (fun sheetName =>
       let worksheet := Sheets wb !! sheetName in
       let data := XLSX_sheet_to_json host worksheet in
       cache_store sheetName data ;;
       Logger.info host ("Successfully loaded " +:+ nat_to_string (length data)
                         +:+ " rows from sheet: " +:+ sheetName)) s
    = (Normal tt,
       print lines
         (set_cache (fun c =>
            foldl (fun c name => <[name := XLSX_sheet_to_json host (Sheets wb !! name)]> c)
                  c names) s)).
Proof.
  match goal with |- context [forEach _ ?b _] => set (body := b) end.
  revert s. induction names as [|name names IH]; intros s.
  - exists []. simpl. unfold ret. f_equal. apply proc_ext; simpl; auto using app_nil_r.
  - simpl forEach. unfold bind at 1.
    assert (Hb : exists l1, body name s
              = (Normal tt,
                 print l1 (set_cache (fun c =>
                   <[name := XLSX_sheet_to_json host (Sheets wb !! name)]> c) s))).
    { subst body. cbv beta zeta. unfold bind, cache_store, modify.
      rewrite info_run. eauto. }
    destruct Hb as [l1 ->].
    match goal with |- context [forEach names body ?st] =>
      destruct (IH st) as [lines ->] end.
    exists (l1 ++ lines). f_equal. apply proc_ext; simpl; auto using app_assoc.
Qed.

Lemma loadData_ok filePath wb s :
  XLSX_readFile host (read_path host filePath) = inr wb ->
  exists lines,
    loadData host filePath s
    = (Normal tt, print lines (set_cache (merged_cache host wb) s)).
Proof.
  intros Hread. unfold loadData, read_path in *.
  unfold bind at 1. rewrite info_run.
  unfold try_catch. unfold bind at 1. rewrite Hread. simpl lift. unfold ret at 1.
  cbv beta iota. unfold bind at 1.
  match goal with |- context [forEach _ _ ?st] =>
    destruct (store_loop wb (SheetNames wb) st) as [lines Hl] end.
  cbv zeta in Hl. rewrite Hl.
  rewrite info_run.
  eexists. f_equal. rewrite print_print.
  apply proc_ext; simpl; [|reflexivity..].
  rewrite <- app_assoc. reflexivity.
Qed.

Lemma loadData_failed filePath e s :
  XLSX_readFile host (read_path host filePath) = inl e ->
  loadData host filePath s
  = (Throw (JsError ("DataService failed to load data: " +:+ thrown_message e)),
     print (Logger.emitted host INFO
              ("Attempting to load data from: " +:+ default (EXCEL_FILE_PATH host) filePath)
            ++ Logger.emitted host ERROR
              ("Failed to load Excel data from " +:+ read_path host filePath +:+ ". Error:"))
           s).
Proof.
  intros Hread. unfold loadData, read_path in *.
  unfold bind at 1. rewrite info_run.
  unfold try_catch. unfold bind at 1. rewrite Hread. simpl lift. unfold throw at 1.
  unfold bind. rewrite error_run. unfold throw. now rewrite print_print.
Qed.

Lemma merged_cache_lookup (wb : WorkBook WorkSheet) before name :
  merged_cache host wb before !! name
  = if decide (name ∈ SheetNames wb)
    then Some (XLSX_sheet_to_json host (Sheets wb !! name))
    else before !! name.
Proof.
  unfold merged_cache. generalize (SheetNames wb) as names. intros names.
  revert before. induction names as [|n names IH]; intros before; simpl.
  - destruct (decide (name ∈ [])) as [H|H]; [inversion H | reflexivity].
  - rewrite IH.
    destruct (decide (name ∈ names)) as [Hin|Hnin].
    + rewrite decide_True by (now right). reflexivity.
    + destruct (decide (name = n)) as [->|Hne].
      * rewrite decide_True by (now left). now rewrite lookup_insert_eq.
      * rewrite decide_False.
        -- now rewrite lookup_insert_ne.
        -- intros H. apply elem_of_cons in H as [H|H]; contradiction.
Qed.

Lemma getData_loaded sheetName s :
  (length (cache_names (cache s)) =? 0)%nat = false ->
  getData host sheetName s
  = match cache_read host (cache s) sheetName with
    | Some data => (Normal data, s)
    | None =>
        (Normal (Rows []),
         print (Logger.emitted host ERROR
                  ("Sheet '" +:+ sheetName +:+ "' not found in Excel file.")) s)
    end.
Proof.
  intros Hne. unfold getData, bind, gets.
  rewrite Hne. unfold ret.
  destruct (cache_read host (cache s) sheetName); [reflexivity |].
  now rewrite error_run.
Qed.

(** With entries in the cache the lookups leave it as it is, whether they
    return or throw; without, they leave the cache the default [loadData()]
    leaves. *)
Lemma lookups_keep_cache sheetName key value s :
  ((length (cache_names (cache s)) =? 0)%nat = false ->
     cache (getData host sheetName s).2 = cache s /\
     cache (getSingleData host sheetName key value s).2 = cache s) /\
  ((length (cache_names (cache s)) =? 0)%nat = true ->
     cache (getData host sheetName s).2 = cache (loadData host None s).2 /\
     cache (getSingleData host sheetName key value s).2 = cache (loadData host None s).2).
Proof.
  assert (Hsingle : cache (getSingleData host sheetName key value s).2
                    = cache (getData host sheetName s).2).
  { unfold getSingleData, bind.
    destruct (getData host sheetName s) as [[[rows|member]|e] s1]; reflexivity. }
  rewrite Hsingle. split.
  - intros Hne. rewrite (getData_loaded _ _ Hne).
    destruct (cache_read host (cache s) sheetName); auto.
  - intros Hempty.
    assert (Hget : cache (getData host sheetName s).2 = cache (loadData host None s).2).
    { unfold getData. unfold bind at 1. unfold gets at 1. rewrite Hempty.
      unfold bind at 1. unfold bind at 1. rewrite warn_run.
      destruct (XLSX_readFile host (read_path host None)) as [e|wb] eqn:Hread.
      - rewrite !(loadData_failed None e _ Hread). reflexivity.
      - destruct (loadData_ok None wb s Hread) as [l1 ->].
        destruct (loadData_ok None wb
                    (print (Logger.emitted host WARN
                       "Data cache is empty. Attempting to load data now.") s) Hread)
          as [l2 ->].
        unfold bind, gets. simpl.
        destruct (cache_read host (merged_cache host wb (cache s)) sheetName);
          [reflexivity |].
        now rewrite error_run. }
    auto.
Qed.



(** C1 (as amended): a successful load stores every sheet of the file under
    its name and leaves every other cache entry as it was; the cache is
    merged into, not replaced. *)
Theorem loadData_stores_sheets_over_cache filePath wb s :
  XLSX_readFile host (read_path host filePath) = inr wb ->
  exists s',
    loadData host filePath s = (Normal tt, s') /\
    (forall name, name ∈ SheetNames wb ->
       cache s' !! name = Some (XLSX_sheet_to_json host (Sheets wb !! name))) /\
    (forall name, name ∉ SheetNames wb -> cache s' !! name = cache s !! name).
Proof.
  intros Hread. destruct (loadData_ok filePath wb s Hread) as [lines ->].
  eexists. split; [reflexivity |]. simpl.
  split; intros name Hname; rewrite merged_cache_lookup.
  - now rewrite decide_True.
  - now rewrite decide_False.
Qed.

(** C7: when the file cannot be read or parsed, [loadData] throws the
    load error built from the underlying message, and the cache (and the
    files) are exactly what they were before the call; an empty cache stays
    empty. *)
Theorem loadData_failure_leaves_cache_untouched filePath e s :
  XLSX_readFile host (read_path host filePath) = inl e ->
  exists s',
    loadData host filePath s
    = (Throw (JsError ("DataService failed to load data: " +:+ thrown_message e)), s') /\
    cache s' = cache s /\
    files s' = files s /\
    (cache s = ∅ -> cache s' = ∅).
Proof.
  intros Hread. rewrite (loadData_failed filePath e s Hread).
  eexists. split; [reflexivity |]. simpl. auto.
Qed.



End WithHost.
End DataServiceFacts.

(** *** The data service on the fixture host *)

Module DataServiceExamples.
Import Js Effects Runtime DataService Spec Fixtures DataServiceFacts.

Lemma loadData_stores_sheets_over_cache_witness :
  exists s',
    loadData (host ∅ INFO) (Some "login_only.xlsx") loaded = (Normal tt, s') /\
    (forall name, name ∈ SheetNames book_login_only ->
       cache s' !! name
       = Some (XLSX_sheet_to_json (host ∅ INFO) (Sheets book_login_only !! name))) /\
    (forall name, name ∉ SheetNames book_login_only ->
       cache s' !! name = cache loaded !! name).
Proof.
  apply (loadData_stores_sheets_over_cache
           (host ∅ INFO) (Some "login_only.xlsx") book_login_only loaded).
  reflexivity.
Defined.

(** C1, as the specification states it, fails: after loading the workbook
    with the sheets Login and Todo and then the workbook with Login alone,
    both loads succeeding, the sheet Todo is still cached. *)
Lemma reload_keeps_sheets_of_earlier_load : ~ replaced_on_reload (host ∅ INFO).
Proof.
  intros Hclaim.
  assert (Hfirst : XLSX_readFile (host ∅ INFO)
                     (read_path (host ∅ INFO) (Some "/proj/two_sheets.xlsx"))
                   = inr book_two_sheets) by reflexivity.
  assert (Hsecond : XLSX_readFile (host ∅ INFO)
                      (read_path (host ∅ INFO) (Some "/proj/login_only.xlsx"))
                    = inr book_login_only) by reflexivity.
  destruct (loadData_ok (host ∅ INFO) _ _ start Hfirst) as [l1 Hrun1].
  set (s1 := print l1 (set_cache (merged_cache (host ∅ INFO) book_two_sheets) start))
    in Hrun1.
  destruct (loadData_ok (host ∅ INFO) _ _ s1 Hsecond) as [l2 Hrun2].
  assert (Habsent : "Todo" ∉ SheetNames book_login_only).
  { simpl. intros Hin. apply list_elem_of_singleton in Hin. discriminate. }
  specialize (Hclaim _ _ _ _ Hsecond Hrun2 "Todo" Habsent).
  simpl in Hclaim.
  rewrite merged_cache_lookup, (decide_False _ _ Habsent) in Hclaim.
  rewrite merged_cache_lookup, decide_True in Hclaim; [discriminate |].
  simpl. apply elem_of_cons. right. apply list_elem_of_singleton. reflexivity.
Qed.

Lemma loadData_failure_leaves_cache_untouched_witness :
  exists s',
    loadData (host ∅ INFO) (Some "missing.xlsx") loaded
    = (Throw (JsError ("DataService failed to load data: "
                       +:+ "ENOENT: no such file or directory, open '/proj/missing.xlsx'")),
       s') /\
    cache s' = cache loaded /\
    files s' = files loaded /\
    (cache loaded = ∅ -> cache s' = ∅).
Proof.
  apply (loadData_failure_leaves_cache_untouched
           (host ∅ INFO) (Some "missing.xlsx")
           (JsError "ENOENT: no such file or directory, open '/proj/missing.xlsx'") loaded).
  reflexivity.
Defined.

Lemma loaded_nonempty : cache loaded <> ∅.
Proof.
  intros Hempty.
  assert (Hlogin : cache loaded !! "Login" = Some login_rows) by reflexivity.
  rewrite Hempty in Hlogin. discriminate.
Defined.




(** C10: with the sheets Login and Todo cached, a lookup under the sheet name
    "constructor" does not return a result. [getData] finds the function every
    object inherits under that name, takes it for the sheet and returns it
    without a log line; [getSingleData] then calls [find] on it and throws a
    TypeError. The frame part of the claim holds of every lookup, whether it
    returns or throws: the cache is left as it was when it holds an entry,
    and as the default [loadData()] leaves it when it holds none. *)
Theorem lookup_under_inherited_name_throws :
  getData (host ∅ INFO) "constructor" loaded = (Normal (Inherited "constructor"), loaded) /\
  getSingleData (host ∅ INFO) "constructor" "test_case_id" (VStr "TC-LOGIN-001") loaded
  = (Throw (JsTypeError "data.find is not a function"), loaded) /\
  (forall (WorkSheet : Type) (h : Host WorkSheet) (sheetName key : string) (value : JsVal)
          (s : Proc),
     let left_by_lookup :=
       if (length (cache_names (cache s)) =? 0)%nat
       then cache (loadData h None s).2 else cache s in
     cache (getData h sheetName s).2 = left_by_lookup /\
     cache (getSingleData h sheetName key value s).2 = left_by_lookup).
Proof.
  assert (Hloaded : (length (cache_names (cache loaded)) =? 0)%nat = false).
  { apply cache_names_nonempty; [exact loaded_nonempty | reflexivity]. }
  assert (Hget : getData (host ∅ INFO) "constructor" loaded
                 = (Normal (Inherited "constructor"), loaded)).
  { rewrite (getData_loaded (host ∅ INFO) "constructor" loaded Hloaded). reflexivity. }
  split; [exact Hget |]. split.
  - unfold getSingleData, bind. rewrite Hget. reflexivity.
  - intros WorkSheet h sheetName key value s. cbv zeta.
    destruct (lookups_keep_cache h sheetName key value s) as [Hkeep Hload].
    destruct (length (cache_names (cache s)) =? 0)%nat; auto.
Qed.

End DataServiceExamples.

(* ===================================================================== *)
(** ** Facts about the scenario generator *)
(* ===================================================================== *)

Module ScenarioGeneratorFacts.
Import Js Effects Runtime ScenarioGenerator Spec RuntimeFacts.

Lemma append_loop (rows : list Row) (index : nat) (acc : string) :
  forEach_indexed index rows
    (fun row index => modify (fun acc => acc +:+ scenario_text row index)) acc
  = (Normal tt, acc +:+ appended index rows).
Proof.
  revert index acc. induction rows as [|row rows IH]; intros index acc.
  - simpl. unfold ret. now rewrite append_nil_r.
  - simpl. unfold bind, modify at 1. rewrite IH. now rewrite append_assoc.
Qed.

Lemma printed_text (cell : JsVal) (text : string) :
  printed cell text -> to_String cell = text.
Proof.
  destruct cell as [|[]|[z|]|s|member]; simpl; intros Hprinted;
    try (symmetry; exact Hprinted).
  - now destruct Hprinted as [_ ->].
  - contradiction.
Qed.

(** The template literal of the source is the block of the specification. *)
Lemma scenario_text_block (row : Row) (index : nat) (username password : string) :
  printed (get row "username") username ->
  printed (get row "password") password ->
  scenario_text row index = scenario_block (S index) username password.
Proof.
  intros Husername Hpassword. unfold scenario_text, scenario_block.
  now rewrite (printed_text _ _ Husername), (printed_text _ _ Hpassword), Nat.add_1_r.
Qed.

Lemma appended_blocks (rows : list Row) (credentials : list (string * string)) :
  carry rows credentials ->
  forall index, appended index rows = scenario_blocks (S index) credentials.
Proof.
  induction 1 as [|row [username password] rows credentials [Hu Hp] _ IH];
    intros index; simpl; [reflexivity |].
  now rewrite (scenario_text_block row index username password Hu Hp), IH.
Qed.

(** The file for two rows, written out. *)
Example feature_text_two_rows :
  feature_text [("admin", "password"); ("admin", "wrongpassword")]
  = "Feature: Login DDT Tests" +:+ nl
    +:+ nl +:+ "  Scenario: Login test #1 (admin)" +:+ nl
    +:+ "    Given I login with username " +:+ dq +:+ "admin" +:+ dq
    +:+ " and password " +:+ dq +:+ "password" +:+ dq +:+ nl
    +:+ "    Then Login should be successful" +:+ nl
    +:+ nl +:+ "  Scenario: Login test #2 (admin)" +:+ nl
    +:+ "    Given I login with username " +:+ dq +:+ "admin" +:+ dq
    +:+ " and password " +:+ dq +:+ "wrongpassword" +:+ dq +:+ nl
    +:+ "    Then Login should be successful" +:+ nl.
Proof. vm_compute. reflexivity. Qed.

Section WithHost.
Context {WorkSheet : Type} (host : Host WorkSheet).

(** C5: for a fixed sequence of rows (and a writable output path),
    [generateLoginFeature] leaves the output file holding the single feature
    header followed by one scenario block per row in row order, each block
    the template with the number of the row and the texts of its username
    and password cells substituted literally, whatever the file held before;
    no other file changes, and a second run on the same rows changes
    nothing. *)
Theorem generateLoginFeature_rowwise_idempotent
    (rows : list Row) (credentials : list (string * string)) (s : Proc) :
  DataLoader_loadLoginData host (process_env host !! "TEST_ENV") = inr rows ->
  fs_write_error host (outputPath host) = None ->
  carry rows credentials ->
  let written :=
    set_files (fun fs => <[outputPath host := feature_text credentials]> fs) s in
  generateLoginFeature host s = (Normal tt, written) /\
  files written !! outputPath host = Some (feature_text credentials) /\
  (forall path, path <> outputPath host -> files written !! path = files s !! path) /\
  generateLoginFeature host written = (Normal tt, written).
Proof.
  intros Hrows Hwritable Hcarry written.
  assert (Hrun : forall s0,
            generateLoginFeature host s0
            = (Normal tt,
               set_files (fun fs => <[outputPath host := feature_text credentials]> fs)
                         s0)).
  { intros s0. unfold generateLoginFeature, getLoginTestData, bind.
    rewrite Hrows. simpl lift. unfold ret at 1. rewrite append_loop.
    rewrite (appended_blocks rows credentials Hcarry 0).
    unfold writeFileSync, bind. rewrite Hwritable. simpl throw_if. unfold ret, modify.
    reflexivity. }
  repeat split.
  - apply Hrun.
  - simpl. apply lookup_insert_eq.
  - intros path Hpath. simpl. now apply lookup_insert_ne.
  - rewrite Hrun. f_equal. apply proc_ext; simpl; try reflexivity.
    apply insert_insert_eq.
Qed.

End WithHost.

(** The login rows of the fixture carry three pairs of credentials. *)
Lemma login_rows_carry :
  carry Fixtures.login_rows
        [("admin", "password"); ("admin", "wrongpassword"); ("duplicate", "other")].
Proof. repeat constructor. Qed.

Lemma generateLoginFeature_rowwise_idempotent_witness :
  let host := Fixtures.host ∅ INFO in
  let text :=
    "Feature: Login DDT Tests" +:+ nl
    +:+ nl +:+ "  Scenario: Login test #1 (admin)" +:+ nl
    +:+ "    Given I login with username " +:+ dq +:+ "admin" +:+ dq
    +:+ " and password " +:+ dq +:+ "password" +:+ dq +:+ nl
    +:+ "    Then Login should be successful" +:+ nl
    +:+ nl +:+ "  Scenario: Login test #2 (admin)" +:+ nl
    +:+ "    Given I login with username " +:+ dq +:+ "admin" +:+ dq
    +:+ " and password " +:+ dq +:+ "wrongpassword" +:+ dq +:+ nl
    +:+ "    Then Login should be successful" +:+ nl
    +:+ nl +:+ "  Scenario: Login test #3 (duplicate)" +:+ nl
    +:+ "    Given I login with username " +:+ dq +:+ "duplicate" +:+ dq
    +:+ " and password " +:+ dq +:+ "other" +:+ dq +:+ nl
    +:+ "    Then Login should be successful" +:+ nl in
  let written := set_files (fun fs => <[outputPath host := text]> fs) Fixtures.start in
  generateLoginFeature host Fixtures.start = (Normal tt, written) /\
  files written !! outputPath host = Some text /\
  (forall path, path <> outputPath host ->
     files written !! path = files Fixtures.start !! path) /\
  generateLoginFeature host written = (Normal tt, written).
Proof.
  apply (generateLoginFeature_rowwise_idempotent
           (Fixtures.host ∅ INFO) Fixtures.login_rows
           [("admin", "password"); ("admin", "wrongpassword"); ("duplicate", "other")]
           Fixtures.start eq_refl eq_refl login_rows_carry).
Defined.

End ScenarioGeneratorFacts.

(* ===================================================================== *)
(** ** Facts about the Cucumber world *)
(* ===================================================================== *)

Module WorldFacts.
Import Js Effects Runtime World.

Section WithHost.
Context {WorkSheet : Type} (host : Host WorkSheet).

(** C9: on a world without a browser, [closeBrowser] returns normally and
    changes nothing (no log line, no driver call); on a world without a
    page, [takeScreenshot] returns [undefined] and changes nothing. *)
Theorem teardown_and_capture_tolerate_absent_session
    (this : CustomWorld) (scenarioName : string) (s : Proc) :
  (browser this = None -> closeBrowser host this s = (Normal tt, s)) /\
  (page this = None -> takeScreenshot host this scenarioName s = (Normal None, s)).
Proof.
  split; intros Hnone.
  - unfold closeBrowser. now rewrite Hnone.
  - unfold takeScreenshot. now rewrite Hnone.
Qed.

End WithHost.

Lemma teardown_and_capture_tolerate_absent_session_witness :
  closeBrowser (Fixtures.host ∅ INFO) (Fixtures.world ∅) Fixtures.start
  = (Normal tt, Fixtures.start) /\
  takeScreenshot (Fixtures.host ∅ INFO) (Fixtures.world ∅) "Valid login" Fixtures.start
  = (Normal None, Fixtures.start).
Proof.
  destruct (teardown_and_capture_tolerate_absent_session
              (Fixtures.host ∅ INFO) (Fixtures.world ∅) "Valid login" Fixtures.start)
    as [Hclose Hshot].
  split; [apply Hclose | apply Hshot]; reflexivity.
Defined.

End WorldFacts.

(* ===================================================================== *)
(** ** Facts about the configuration manager *)
(* ===================================================================== *)

Module ConfigFacts.
Import Js Config Spec.

Lemma env_or_set env name fallback v :
  is_set env name v -> env_or env name fallback = v.
Proof.
  intros [Hlookup Hne]. unfold env_or. rewrite Hlookup.
  apply String.eqb_neq in Hne. now rewrite Hne.
Qed.

Lemma env_or_insert_ne env name other v fallback :
  other <> name -> env_or (<[other := v]> env) name fallback = env_or env name fallback.
Proof. intros Hne. unfold env_or. now rewrite lookup_insert_ne. Qed.

Lemma env_is_insert_ne env name other v literal :
  other <> name -> env_is (<[other := v]> env) name literal = env_is env name literal.
Proof. intros Hne. unfold env_is. now rewrite lookup_insert_ne. Qed.

Lemma env_or_delete_ne env name other fallback :
  other <> name -> env_or (delete other env) name fallback = env_or env name fallback.
Proof. intros Hne. unfold env_or. now rewrite lookup_delete_ne. Qed.

Lemma env_is_delete_ne env name other literal :
  other <> name -> env_is (delete other env) name literal = env_is env name literal.
Proof. intros Hne. unfold env_is. now rewrite lookup_delete_ne. Qed.

Lemma config_ext (a b : IConfig) :
  ENV a = ENV b -> BASE_URL a = BASE_URL b -> HEADLESS a = HEADLESS b ->
  SLOW_MO a = SLOW_MO b -> TIMEOUT a = TIMEOUT b -> BROWSER a = BROWSER b ->
  VIEWPORT_WIDTH a = VIEWPORT_WIDTH b -> VIEWPORT_HEIGHT a = VIEWPORT_HEIGHT b ->
  ALLURE_RESULTS_DIR a = ALLURE_RESULTS_DIR b ->
  SCREENSHOT_ON_FAIL a = SCREENSHOT_ON_FAIL b -> a = b.
Proof. destruct a, b; simpl; intros; subst; reflexivity. Qed.

(** C6: a setting whose environment variable is set carries the variable's
    value.  For HEADLESS the code reads the variable into the base settings
    and then every profile overwrites the field: in the production profile
    with HEADLESS=false the base settings hold [false] and the resolved
    settings are headless all the same; in the local profile HEADLESS=true
    resolves to a headed browser, and SLOW_MO=250 to the fixed 50; and in no
    environment does the value of HEADLESS reach the resolved settings. *)
Theorem HEADLESS_variable_is_overwritten :
  Fixtures.production_env !! "HEADLESS" = Some "false" /\
  base_HEADLESS (baseConfig Fixtures.production_env "production") = false /\
  HEADLESS (getConfig Fixtures.production_env) = true /\
  HEADLESS (getConfig {["HEADLESS" := "true"]}) = false /\
  base_SLOW_MO (baseConfig {["SLOW_MO" := "250"]} "local") = Num 250 /\
  SLOW_MO (getConfig {["SLOW_MO" := "250"]}) = Num 50 /\
  (forall (env : gmap string string) (value : string),
     getConfig (<["HEADLESS" := value]> env) = getConfig (delete "HEADLESS" env)).
Proof.
  split; [reflexivity |]. split; [reflexivity |].
  split; [reflexivity |]. split; [reflexivity |].
  split; [reflexivity |]. split; [reflexivity |].
  intros env value. unfold getConfig.
  rewrite !env_or_insert_ne, !env_or_delete_ne by discriminate.
  destruct (String.eqb (env_or env "NODE_ENV" "local") "production");
    [| destruct (String.eqb (env_or env "NODE_ENV" "local") "staging");
       [| destruct (String.eqb (env_or env "NODE_ENV" "local") "development")]];
    apply config_ext;
    cbn [ENV BASE_URL HEADLESS SLOW_MO TIMEOUT BROWSER VIEWPORT_WIDTH VIEWPORT_HEIGHT
         ALLURE_RESULTS_DIR SCREENSHOT_ON_FAIL with_SLOW_MO with_HEADLESS
         with_SCREENSHOT_ON_FAIL spread baseConfig base_ENV base_HEADLESS base_SLOW_MO
         base_TIMEOUT base_BROWSER base_VIEWPORT_WIDTH base_VIEWPORT_HEIGHT
         base_ALLURE_RESULTS_DIR base_SCREENSHOT_ON_FAIL];
    rewrite ?env_or_insert_ne, ?env_or_delete_ne, ?env_is_insert_ne, ?env_is_delete_ne
      by discriminate;
    reflexivity.
Qed.

(** C8: [getConfig] is a total function of the environment, and for an
    environment name outside production, staging and development it returns
    the settings of the local profile (with [ENV] holding the name given). *)
Theorem getConfig_falls_back_to_local (env : gmap string string) :
  env_name env <> "production" ->
  env_name env <> "staging" ->
  env_name env <> "development" ->
  getConfig env = with_ENV (env_name env) (getConfig (<["NODE_ENV" := "local"]> env)) /\
  HEADLESS (getConfig env) = false /\
  SLOW_MO (getConfig env) = Num 50 /\
  BASE_URL (getConfig env) = env_or env "LOCAL_BASE_URL" "http://localhost:5173".
Proof.
  unfold env_name. intros Hprod Hstag Hdev.
  apply String.eqb_neq in Hprod, Hstag, Hdev.
  assert (Hlocal : env_or (<["NODE_ENV" := "local"]> env) "NODE_ENV" "local" = "local").
  { unfold env_or. now rewrite lookup_insert_eq. }
  unfold getConfig. rewrite Hlocal, Hprod, Hstag, Hdev.
  change (String.eqb "local" "production") with false.
  change (String.eqb "local" "staging") with false.
  change (String.eqb "local" "development") with false.
  cbv iota.
  split; [| split; [| split]]; try reflexivity.
  apply config_ext;
    cbn [ENV BASE_URL HEADLESS SLOW_MO TIMEOUT BROWSER VIEWPORT_WIDTH VIEWPORT_HEIGHT
         ALLURE_RESULTS_DIR SCREENSHOT_ON_FAIL with_ENV with_SLOW_MO with_HEADLESS
         spread baseConfig base_ENV base_HEADLESS base_SLOW_MO
         base_TIMEOUT base_BROWSER base_VIEWPORT_WIDTH base_VIEWPORT_HEIGHT
         base_ALLURE_RESULTS_DIR base_SCREENSHOT_ON_FAIL];
    rewrite ?env_or_insert_ne, ?env_is_insert_ne by discriminate;
    reflexivity.
Qed.

Lemma getConfig_falls_back_to_local_witness :
  getConfig Fixtures.qa_env
  = with_ENV "qa" (getConfig (<["NODE_ENV" := "local"]> Fixtures.qa_env)) /\
  HEADLESS (getConfig Fixtures.qa_env) = false /\
  SLOW_MO (getConfig Fixtures.qa_env) = Num 50 /\
  BASE_URL (getConfig Fixtures.qa_env) = "http://localhost:5173".
Proof.
  apply (getConfig_falls_back_to_local Fixtures.qa_env); discriminate.
Defined.

End ConfigFacts.

(* ===================================================================== *)
(** ** Facts about the data-driven login assertion *)
(* ===================================================================== *)

Module LoginStepsFacts.
Import Js Effects Runtime World LoginSteps Spec RuntimeFacts.

Lemma stored_expected_result (row : Row) (w : CustomWorld) :
  get (testData (store_expected_result row w)) "expectedResult" = get row "expected_result".
Proof. unfold store_expected_result, get at 1. simpl. now rewrite lookup_insert_eq. Qed.

Lemma startsWith_nonempty (v : string) (c : ascii) (rest : string) :
  startsWith v (String c rest) = true -> String.eqb v "" = false.
Proof. destruct v; simpl; [discriminate | reflexivity]. Qed.

Lemma replace_error_prefix (msg : string) :
  replace ("Error: " +:+ msg) "Error: " "" = msg.
Proof. destruct msg; reflexivity. Qed.

Section WithHost.
Context {WorkSheet : Type} (host : Host WorkSheet).

Lemma assertErrorMessageDisplayed_run p s :
  exists s',
    assertErrorMessageDisplayed host p s
    = (match expect_toBeVisible host p (selector "error-message") None with
       | None => Normal tt
       | Some e => Throw e
       end, s').
Proof.
  unfold assertErrorMessageDisplayed, assertElementVisible, bind, driver_call, modify.
  rewrite info_run.
  destruct (expect_toBeVisible host p (selector "error-message") None);
    simpl; unfold throw, ret; eauto.
Qed.

Lemma getErrorMessage_run p s :
  exists s', getErrorMessage host p s = (Normal (shown_error host p), s').
Proof.
  unfold getErrorMessage, waitForElementVisible, getElementText, shown_error,
    try_catch, bind, driver_call, modify.
  rewrite info_run.
  destruct (expect_toBeVisible host p (selector "error-message") (Some 5000%Z)); simpl.
  - unfold throw. rewrite debug_run. unfold ret. eauto.
  - unfold ret at 1. rewrite debug_run.
    destruct (locator_textContent host p (selector "error-message")); simpl.
    + unfold throw. rewrite debug_run. unfold ret. eauto.
    + unfold ret. eauto.
Qed.

(** The success branch ends normally on every page: it logs, issues the
    header expectation without awaiting it, and logs again. *)
Lemma success_branch_run p url s :
  success_branch host p url s
  = (Normal tt,
     print (Logger.emitted host INFO
              ("Verified successful login and redirection to: " +:+ url))
       (set_driver_calls
          (fun cs => cs ++ [ExpectToHaveText p (selector "todos-header") "My Tasks" false])
          (print (Logger.emitted host INFO "Verified todos page header: My Tasks") s))).
Proof.
  unfold success_branch, bind, driver_call, modify. now rewrite !info_run.
Qed.

Lemma error_branch_passes_iff p url v s :
  (exists s', error_branch host p url v s = (Normal tt, s')) <->
  expect_toBeVisible host p (selector "error-message") None = None /\
  (exists text, shown_error host p = Some text /\
                includes text (replace v "Error: " "") = true) /\
  includes url "/login" = true.
Proof.
  unfold error_branch. unfold bind at 1.
  destruct (assertErrorMessageDisplayed_run p s) as [s1 ->].
  destruct (expect_toBeVisible host p (selector "error-message") None) as [e|].
  { split; [intros [s' H]; discriminate | intros [H _]; discriminate]. }
  unfold bind at 1. destruct (getErrorMessage_run p s1) as [s2 ->].
  unfold bind at 1. unfold expect_toContain at 1.
  destruct (shown_error host p) as [text|].
  2:{ unfold throw. split; [intros [s' H]; discriminate |].
      intros (_ & (text & Habs & _) & _). discriminate. }
  destruct (includes text (replace v "Error: " "")) eqn:Htext.
  2:{ unfold throw. split; [intros [s' H]; discriminate |].
      intros (_ & (t & Hsome & Hinc) & _). injection Hsome as <-. congruence. }
  unfold ret at 1. unfold bind at 1. unfold expect_toContain.
  destruct (includes url "/login") eqn:Hurl.
  2:{ unfold throw. split; [intros [s' H]; discriminate | intros (_ & _ & H); discriminate]. }
  unfold ret at 1. rewrite info_run.
  split; [intros _ | eauto]. repeat split. eauto.
Qed.

(** C4 (as amended): the assertion step routes on the stored
    expected_result. A string starting with "Success" runs the success
    branch; a string starting with "Error:" runs the error branch, which for
    "Error: <msg>" passes exactly when the error element is visible, its text
    contains <msg> and the URL contains "/login"; any other non-empty string
    raises the unrecognized-format error; the empty string and an absent
    cell raise the separate "not set" error. *)
Theorem login_result_routes_by_prefix
    (row : Row) (w : CustomWorld) (p : Page) (s : Proc) :
  page w = Some p ->
  let this := store_expected_result row w in
  let url := page_url host p in
  (forall v, get row "expected_result" = VStr v -> startsWith v "Success" = true ->
     login_result_should_match host this s = success_branch host p url s) /\
  (forall v, get row "expected_result" = VStr v ->
     startsWith v "Success" = false -> startsWith v "Error:" = true ->
     login_result_should_match host this s = error_branch host p url v s) /\
  (forall msg, get row "expected_result" = VStr ("Error: " +:+ msg) ->
     ((exists s', login_result_should_match host this s = (Normal tt, s')) <->
      expect_toBeVisible host p (selector "error-message") None = None /\
      (exists text, shown_error host p = Some text /\ includes text msg = true) /\
      includes url "/login" = true)) /\
  (forall v, get row "expected_result" = VStr v ->
     startsWith v "Success" = false -> startsWith v "Error:" = false -> v <> "" ->
     login_result_should_match host this s
     = (Throw (JsError ("Unknown expected result format: " +:+ v)), s)) /\
  (get row "expected_result" = VStr "" \/ get row "expected_result" = VUndef ->
     login_result_should_match host this s
     = (Throw (JsError "Expected result not set in test data."), s)).
Proof.
  intros Hpage this url.
  assert (Hroute : forall v, get row "expected_result" = VStr v -> v <> "" ->
            login_result_should_match host this s
            = if startsWith v "Success" then success_branch host p url s
              else if startsWith v "Error:" then error_branch host p url v s
              else (Throw (JsError ("Unknown expected result format: " +:+ v)), s)).
  { intros v Hv Hne. unfold login_result_should_match.
    subst this. rewrite stored_expected_result, Hv. unfold truthy.
    apply String.eqb_neq in Hne. rewrite Hne. simpl negb. cbv iota.
    change (page (store_expected_result row w)) with (page w).
    rewrite Hpage. fold url. unfold throw.
    destruct (startsWith v "Success"); [reflexivity |].
    destruct (startsWith v "Error:"); reflexivity. }
  split; [| split; [| split; [| split]]].
  - intros v Hv Hsuccess. rewrite (Hroute v Hv), Hsuccess; [reflexivity |].
    apply String.eqb_neq. eapply startsWith_nonempty. exact Hsuccess.
  - intros v Hv Hsuccess Herror. rewrite (Hroute v Hv), Hsuccess, Herror; [reflexivity |].
    apply String.eqb_neq. eapply startsWith_nonempty. exact Herror.
  - intros msg Hv. rewrite (Hroute _ Hv) by discriminate.
    change (startsWith ("Error: " +:+ msg) "Success") with false.
    change (startsWith ("Error: " +:+ msg) "Error:") with true. cbv iota.
    rewrite error_branch_passes_iff, replace_error_prefix. reflexivity.
  - intros v Hv Hsuccess Herror Hne.
    now rewrite (Hroute v Hv Hne), Hsuccess, Herror.
  - intros Hblank. unfold login_result_should_match.
    subst this. rewrite stored_expected_result.
    destruct Hblank as [-> | ->]; reflexivity.
Qed.

End WithHost.

Lemma login_result_routes_by_prefix_witness :
  login_result_should_match (Fixtures.host ∅ INFO)
    (store_expected_result
       (Fixtures.row [("expected_result", VStr "Error: Invalid credentials")])
       Fixtures.open_world)
    Fixtures.start
  = error_branch (Fixtures.host ∅ INFO) (mkPage 1) "http://localhost:5173/login"
      "Error: Invalid credentials" Fixtures.start.
Proof.
  destruct (login_result_routes_by_prefix (Fixtures.host ∅ INFO)
              (Fixtures.row [("expected_result", VStr "Error: Invalid credentials")])
              Fixtures.open_world (mkPage 1) Fixtures.start eq_refl)
    as (_ & Herror & _).
  apply (Herror "Error: Invalid credentials"); reflexivity.
Defined.

(** C4, as the specification states it, fails: the empty string starts with
    neither prefix, and the step raises the "not set" error for it, not the
    unrecognized-format error. *)
Lemma blank_expected_result_is_not_unrecognized :
  ~ other_values_unrecognized (Fixtures.host ∅ INFO).
Proof.
  intros Hclaim.
  destruct (Hclaim Fixtures.blank_result_row Fixtures.open_world (mkPage 1) ""
              Fixtures.start eq_refl eq_refl eq_refl eq_refl) as [s' Hrun].
  assert (Hthrow :
    (login_result_should_match (Fixtures.host ∅ INFO)
       (store_expected_result Fixtures.blank_result_row Fixtures.open_world)
       Fixtures.start).1
    = Throw (JsError "Expected result not set in test data."))
    by (vm_compute; reflexivity).
  rewrite Hrun in Hthrow. discriminate.
Qed.

End LoginStepsFacts.

(* ===================================================================== *)
(** ** The data service against its reference behaviour *)
(* ===================================================================== *)

Module DataServiceMore.
Import Js Effects Runtime DataService Spec Reference RuntimeFacts DataServiceFacts.

Lemma set_cache_print (f : gmap string (list Row) -> gmap string (list Row)) lines s :
  set_cache f (print lines s) = print lines (set_cache f s).
Proof. apply proc_ext; reflexivity. Qed.

Lemma set_cache_set_cache (f g : gmap string (list Row) -> gmap string (list Row)) s :
  set_cache g (set_cache f s) = set_cache (fun c => g (f c)) s.
Proof. apply proc_ext; reflexivity. Qed.

Lemma set_cache_same s : set_cache (fun c => c) s = s.
Proof. apply proc_ext; reflexivity. Qed.

Lemma find_some_first_match {A} (f : A -> bool) (rows : list A) (r : A) :
  List.find f rows = Some r -> first_match f rows r.
Proof.
  induction rows as [|x rows IH]; simpl; [discriminate |].
  destruct (f x) eqn:Hx.
  - intros [= <-]. exists [], rows. repeat split; auto.
  - intros Hfind. destruct (IH Hfind) as (before & after & -> & Hbefore & Hr).
    exists (x :: before), after. repeat split; auto.
Qed.

Lemma find_none_all_false {A} (f : A -> bool) (rows : list A) :
  List.find f rows = None -> Forall (fun x => f x = false) rows.
Proof.
  induction rows as [|x rows IH]; simpl; [constructor |].
  destruct (f x) eqn:Hx; [discriminate |]. intros Hfind. constructor; auto.
Qed.

Section WithHost.
Context {WorkSheet : Type} (host : Host WorkSheet).

Lemma store_loop_lines (wb : WorkBook WorkSheet) (names : list string) (s : Proc) :
  forEach names (fun sheetName =>
     let worksheet := Sheets wb !! sheetName in
     let data := XLSX_sheet_to_json host worksheet in
     cache_store sheetName data ;;
     Logger.info host ("Successfully loaded " +:+ nat_to_string (length data)
                       +:+ " rows from sheet: " +:+ sheetName)) s
  = (Normal tt,
     print (flat_map (fun name =>
              Logger.emitted host INFO
                ("Successfully loaded " +:+ nat_to_string (length (sheet_rows host wb name))
                 +:+ " rows from sheet: " +:+ name)) names)
       (set_cache (fun c =>
          foldl (fun c name => <[name := XLSX_sheet_to_json host (Sheets wb !! name)]> c)
                c names) s)).
Proof.
  match goal with |- context [forEach _ ?b _] => set (body := b) end.
  revert s. induction names as [|name names IH]; intros s.
  - simpl. unfold ret. f_equal. apply proc_ext; simpl; auto using app_nil_r.
  - simpl forEach. unfold bind at 1.
    assert (Hb : body name s
              = (Normal tt,
                 print (Logger.emitted host INFO
                          ("Successfully loaded "
                           +:+ nat_to_string (length (sheet_rows host wb name))
                           +:+ " rows from sheet: " +:+ name))
                   (set_cache (fun c =>
                      <[name := XLSX_sheet_to_json host (Sheets wb !! name)]> c) s))).
    { subst body. cbv beta zeta. unfold bind, cache_store, modify.
      now rewrite info_run. }
    rewrite Hb, IH. f_equal. apply proc_ext; simpl; auto using app_assoc.
Qed.

Lemma loadData_run filePath s :
  loadData host filePath s
  = ((load_outcome host filePath (cache s)).1,
     print (load_lines host filePath)
       (set_cache (fun c => (load_outcome host filePath c).2) s)).
Proof.
  destruct (XLSX_readFile host (read_path host filePath)) as [e|wb] eqn:Hread.
  - rewrite (loadData_failed host filePath e s Hread).
    unfold load_outcome, load_lines. rewrite Hread. simpl.
    rewrite set_cache_same. reflexivity.
  - unfold load_outcome, load_lines. rewrite Hread. simpl.
    unfold loadData. fold (read_path host filePath).
    unfold bind at 1. rewrite info_run.
    unfold try_catch. unfold bind at 1. rewrite Hread. simpl lift. unfold ret at 1.
    cbv beta iota. unfold bind at 1.
    pose proof (store_loop_lines wb (SheetNames wb)) as Hloop. cbv zeta in Hloop.
    rewrite Hloop, info_run. f_equal.
    rewrite !print_print. apply proc_ext; simpl; try reflexivity.
    now rewrite <- !app_assoc.
Qed.

Lemma getData_run sheetName s :
  getData host sheetName s
  = ((getData_outcome host sheetName (cache s)).1,
     print (getData_lines host sheetName (cache s))
       (set_cache (fun c => (getData_outcome host sheetName c).2) s)).
Proof.
  unfold getData, getData_outcome, getData_lines.
  unfold bind at 1. unfold gets at 1.
  destruct (length (cache_names (cache s)) =? 0)%nat eqn:Hkeys.
  - unfold bind at 1. unfold bind at 1. rewrite warn_run, loadData_run.
    unfold bind, gets. simpl.
    destruct (load_outcome host None (cache s)) as [[[]|e] c'] eqn:Hload; simpl.
    + unfold missing_sheet_lines.
      destruct (cache_read host c' sheetName) as [data|]; simpl; rewrite ?error_run;
        unfold ret; f_equal; apply proc_ext; simpl; rewrite ?Hkeys, ?Hload; simpl;
        rewrite ?app_nil_r, <- ?app_assoc; reflexivity.
    + f_equal. apply proc_ext; simpl; rewrite ?Hkeys, ?Hload; simpl;
        rewrite ?app_nil_r, <- ?app_assoc; reflexivity.
  - unfold ret at 1. unfold bind, gets. simpl. unfold missing_sheet_lines.
    destruct (cache_read host (cache s) sheetName) as [data|]; simpl; rewrite ?error_run;
      unfold ret; f_equal; apply proc_ext; simpl; rewrite ?Hkeys; simpl;
      rewrite ?app_nil_r; reflexivity.
Qed.

Lemma getSingleData_run sheetName key value s :
  getSingleData host sheetName key value s
  = (match (getData_outcome host sheetName (cache s)).1 with
     | Normal (Rows rows) =>
         Normal (List.find (fun row => strict_eq (get row key) value) rows)
     | Normal (Inherited _) => Throw (JsTypeError "data.find is not a function")
     | Throw e => Throw e
     end,
     print (getData_lines host sheetName (cache s))
       (set_cache (fun c => (getData_outcome host sheetName c).2) s)).
Proof.
  unfold getSingleData, bind. rewrite getData_run.
  destruct (getData_outcome host sheetName (cache s)).1 as [[rows|member]|e]; reflexivity.
Qed.

Lemma merged_cache_names (wb : WorkBook WorkSheet) before name :
  name ∈ SheetNames wb -> name <> "__proto__" ->
  (length (cache_names (merged_cache host wb before)) =? 0)%nat = false.
Proof.
  intros Hin Hname.
  apply (cache_names_entry _ name (XLSX_sheet_to_json host (Sheets wb !! name)) Hname).
  now rewrite merged_cache_lookup, decide_True.
Qed.

Lemma merged_cache_twice (wb : WorkBook WorkSheet) before :
  merged_cache host wb (merged_cache host wb before) = merged_cache host wb before.
Proof.
  apply map_eq. intros name. rewrite !merged_cache_lookup.
  destruct (decide (name ∈ SheetNames wb)); reflexivity.
Qed.

(** A read that gives nothing found no entry under the name. *)
Lemma cache_read_none (c : gmap string (list Row)) (name : string) :
  cache_read host c name = None -> c !! name = None.
Proof.
  unfold cache_read. destruct (String.eqb_spec name "__proto__") as [-> | Hname].
  - destruct (c !! "__proto__"); discriminate.
  - destruct (c !! name); [discriminate | reflexivity].
Qed.

(** A read that gives rows found them under the name: as an entry, or for
    [__proto__] as the array assigned as prototype. *)
Lemma cache_read_rows (c : gmap string (list Row)) (name : string) (rows : list Row) :
  cache_read host c name = Some (Rows rows) -> c !! name = Some rows.
Proof.
  unfold cache_read. destruct (String.eqb_spec name "__proto__") as [-> | Hname].
  - destruct (c !! "__proto__"); [now intros [= ->] | discriminate].
  - destruct (c !! name); [now intros [= ->] |].
    destruct (c !! "__proto__") as [proto|].
    + destruct (String.eqb name "length").
      * destruct (length proto =? 0)%nat; discriminate.
      * destruct (is_index name (length proto)
                  || bool_decide (name ∈ Array_prototype_members host)
                  || bool_decide (name ∈ Object_prototype_members)); discriminate.
    + destruct (bool_decide (name ∈ Object_prototype_members)); discriminate.
Qed.

(** X1: after a successful [loadData], [getData] for a sheet name of the file
    (other than [__proto__]) returns exactly that sheet's rows, whatever was
    cached before. *)
Theorem load_then_getData_returns_sheet filePath wb name s :
  XLSX_readFile host (read_path host filePath) = inr wb ->
  name ∈ SheetNames wb ->
  name <> "__proto__" ->
  exists s',
    (loadData host filePath ;; getData host name) s
    = (Normal (Rows (sheet_rows host wb name)), s') /\
    cache s' = merged_cache host wb (cache s).
Proof.
  intros Hread Hin Hname. unfold bind. rewrite loadData_run.
  unfold load_outcome. rewrite Hread. simpl.
  rewrite getData_run. simpl cache.
  unfold getData_outcome.
  rewrite (merged_cache_names wb (cache s) name Hin Hname).
  rewrite (cache_read_entry host _ name (sheet_rows host wb name) Hname)
    by now rewrite merged_cache_lookup, decide_True.
  eexists. split; [reflexivity |]. simpl.
  now rewrite (merged_cache_names wb (cache s) name Hin Hname).
Qed.

(** X2: loading the same file a second time leaves the cache exactly as the
    first load left it. *)
Theorem reload_same_file_keeps_cache filePath wb s :
  XLSX_readFile host (read_path host filePath) = inr wb ->
  exists s1 s2,
    loadData host filePath s = (Normal tt, s1) /\
    loadData host filePath s1 = (Normal tt, s2) /\
    cache s2 = cache s1.
Proof.
  intros Hread. rewrite loadData_run. unfold load_outcome at 1. rewrite Hread.
  eexists. eexists. split; [reflexivity |].
  rewrite loadData_run. unfold load_outcome. rewrite Hread. simpl.
  split; [reflexivity |]. apply merged_cache_twice.
Qed.

(** X3: a lookup on an empty cache loads the workbook at the default path
    first, and the cache then holds the workbook's sheets. When no sheet of
    the workbook is named [__proto__], [getData] returns the named sheet's
    rows; for a name that is no sheet it returns what the object inherits
    under a member name of [Object.prototype], and no rows under any other
    name. *)
Theorem lazy_load_serves_lookup wb name s :
  cache s = ∅ ->
  XLSX_readFile host (resolve host (EXCEL_FILE_PATH host)) = inr wb ->
  "__proto__" ∉ SheetNames wb ->
  exists s',
    getData host name s
    = (Normal (if decide (name ∈ SheetNames wb) then Rows (sheet_rows host wb name)
               else if decide (name ∈ Object_prototype_members) then Inherited name
               else Rows []),
       s') /\
    cache s' = merged_cache host wb ∅.
Proof.
  intros Hempty Hread Hproto. rewrite getData_run.
  assert (Hout : getData_outcome host name (cache s)
                 = (Normal (default (Rows []) (cache_read host (merged_cache host wb ∅) name)),
                    merged_cache host wb ∅)).
  { unfold getData_outcome. rewrite Hempty, cache_names_empty.
    unfold load_outcome, read_path. simpl default. now rewrite Hread. }
  eexists. split.
  - rewrite Hout. simpl. rewrite cache_read_plain
      by (now rewrite merged_cache_lookup, decide_False, lookup_empty).
    rewrite merged_cache_lookup, lookup_empty.
    destruct (decide (name ∈ SheetNames wb)); [reflexivity |].
    destruct (decide (name ∈ Object_prototype_members)) as [Hmember | Hmember].
    + now rewrite bool_decide_eq_true_2.
    + now rewrite bool_decide_eq_false_2.
  - simpl. now rewrite Hout.
Qed.

(** X4: whatever the state, a row returned by [getSingleData] is the first
    row of the cached sheet whose key column equals the value; [undefined]
    is returned only when the sheet is not cached or none of its rows
    matches. *)
Theorem getSingleData_result_sound sheetName key value s result s' :
  getSingleData host sheetName key value s = (Normal result, s') ->
  match result with
  | Some r =>
      exists rows, cache s' !! sheetName = Some rows /\
                   first_match (fun row => strict_eq (get row key) value) rows r
  | None =>
      cache s' !! sheetName = None \/
      exists rows, cache s' !! sheetName = Some rows /\
                   Forall (fun row => strict_eq (get row key) value = false) rows
  end.
Proof.
  rewrite getSingleData_run. intros Hrun.
  assert (Hcache : cache s' = (getData_outcome host sheetName (cache s)).2).
  { injection Hrun as _ <-. reflexivity. }
  assert (Hdata : (getData_outcome host sheetName (cache s)).1
                  = Normal (default (Rows []) (cache_read host (cache s') sheetName))).
  { rewrite Hcache. unfold getData_outcome in *.
    destruct (length (cache_names (cache s)) =? 0)%nat; [| reflexivity].
    destruct (load_outcome host None (cache s)) as [[[]|e] c']; simpl in *;
      [reflexivity | discriminate]. }
  rewrite Hdata in Hrun.
  destruct (cache_read host (cache s') sheetName) as [[rows|member]|] eqn:Hread;
    simpl in Hrun; try discriminate.
  - apply cache_read_rows in Hread. injection Hrun as Hfind _.
    destruct result as [r|].
    + exists rows. split; [exact Hread |]. now apply find_some_first_match.
    + right. exists rows. split; [exact Hread |]. now apply find_none_all_false.
  - apply cache_read_none in Hread. injection Hrun as <- _. now left.
Qed.

(** X5: [loadData], [getData] and [getSingleData] change nothing but the
    cache and the console: written files and the calls made to the browser
    driver stay as they were, also when they throw. *)
Theorem data_service_leaves_files_and_driver filePath sheetName key value s :
  (files (loadData host filePath s).2 = files s /\
   driver_calls (loadData host filePath s).2 = driver_calls s) /\
  (files (getData host sheetName s).2 = files s /\
   driver_calls (getData host sheetName s).2 = driver_calls s) /\
  (files (getSingleData host sheetName key value s).2 = files s /\
   driver_calls (getSingleData host sheetName key value s).2 = driver_calls s).
Proof.
  rewrite loadData_run, getData_run, getSingleData_run. simpl. auto.
Qed.

End WithHost.

Lemma emitted_silent {WorkSheet} (host : Host WorkSheet) level message :
  CURRENT_LOG_LEVEL host = SILENT -> Logger.emitted host level message = [].
Proof. intros Hsilent. unfold Logger.emitted. rewrite Hsilent. now destruct level. Qed.

Lemma flat_map_nil {A B} (f : A -> list B) (l : list A) :
  (forall x, f x = []) -> flat_map f l = [].
Proof. intros Hf. induction l as [|x l IH]; simpl; [reflexivity |]. now rewrite Hf, IH. Qed.

Lemma getData_lines_silent {WorkSheet} (host : Host WorkSheet) sheetName c :
  CURRENT_LOG_LEVEL host = SILENT -> getData_lines host sheetName c = [].
Proof.
  intros Hsilent. unfold getData_lines, load_lines, missing_sheet_lines.
  assert (Hno : forall level message, Logger.emitted host level message = [])
    by (intros; now apply emitted_silent).
  destruct (length (cache_names c) =? 0)%nat.
  - unfold load_outcome.
    destruct (XLSX_readFile host (read_path host None)) as [e|wb];
      rewrite ?flat_map_nil by (intros; apply Hno); rewrite ?Hno; simpl;
      try reflexivity.
    destruct (cache_read host (merged_cache host wb c) sheetName);
      rewrite ?Hno; reflexivity.
  - destruct (cache_read host c sheetName); rewrite ?Hno; reflexivity.
Qed.

(** X6: the configured log level changes the console only: under every level
    [getSingleData] completes the same way and leaves the same cache, and
    under SILENT it writes no line at all. *)
Theorem log_level_changes_console_only {WorkSheet} (host : Host WorkSheet)
    (level : LogLevel) sheetName key value s :
  (getSingleData (with_level level host) sheetName key value s).1
  = (getSingleData host sheetName key value s).1 /\
  cache (getSingleData (with_level level host) sheetName key value s).2
  = cache (getSingleData host sheetName key value s).2 /\
  console (getSingleData (with_level SILENT host) sheetName key value s).2 = console s.
Proof.
  rewrite !getSingleData_run. simpl.
  split; [reflexivity |]. split; [reflexivity |].
  rewrite getData_lines_silent by reflexivity. apply app_nil_r.
Qed.

End DataServiceMore.

(** *** The reference behaviour on the fixture hosts *)

Module DataServiceMoreExamples.
Import Js Effects Runtime DataService Spec Reference Fixtures Fixtures2 DataServiceMore.

Lemma login_in_two_sheets : "Login" ∈ SheetNames book_two_sheets.
Proof. apply elem_of_cons. now left. Qed.

Lemma load_then_getData_returns_sheet_witness :
  exists s',
    (loadData (host ∅ INFO) (Some "two_sheets.xlsx") ;; getData (host ∅ INFO) "Login") start
    = (Normal (Rows (sheet_rows (host ∅ INFO) book_two_sheets "Login")), s') /\
    cache s' = merged_cache (host ∅ INFO) book_two_sheets (cache start).
Proof.
  apply (load_then_getData_returns_sheet (host ∅ INFO) (Some "two_sheets.xlsx")
           book_two_sheets "Login" start).
  - reflexivity.
  - exact login_in_two_sheets.
  - discriminate.
Defined.

(** A sheet named [__proto__] is stored as the prototype of the cache, not as
    an entry: the cache still counts as empty, and a lookup loads the default
    workbook, which may fail. *)
Example sheet_named_proto_is_not_served :
  XLSX_readFile (host ∅ INFO) (read_path (host ∅ INFO) (Some "proto_only.xlsx"))
  = inr book_proto_only /\
  "__proto__" ∈ SheetNames book_proto_only /\
  ((loadData (host ∅ INFO) (Some "proto_only.xlsx") ;; getData (host ∅ INFO) "__proto__")
     start).1
  = Throw (JsError ("DataService failed to load data: "
             +:+ "ENOENT: no such file or directory, open '/proj/test_data.xlsx'")).
Proof.
  split; [reflexivity |]. split; [apply list_elem_of_here |].
  vm_compute. reflexivity.
Qed.

Lemma reload_same_file_keeps_cache_witness :
  exists s1 s2,
    loadData (host ∅ INFO) (Some "two_sheets.xlsx") loaded = (Normal tt, s1) /\
    loadData (host ∅ INFO) (Some "two_sheets.xlsx") s1 = (Normal tt, s2) /\
    cache s2 = cache s1.
Proof.
  apply (reload_same_file_keeps_cache (host ∅ INFO) (Some "two_sheets.xlsx")
           book_two_sheets loaded).
  reflexivity.
Defined.

Lemma proto_not_in_two_sheets : "__proto__" ∉ SheetNames book_two_sheets.
Proof. apply (bool_decide_unpack _). reflexivity. Qed.

Lemma lazy_load_serves_lookup_witness :
  (exists s',
     getData (host_with_default INFO) "Todo" start
     = (Normal (Rows (sheet_rows (host_with_default INFO) book_two_sheets "Todo")), s') /\
     cache s' = merged_cache (host_with_default INFO) book_two_sheets ∅) /\
  (exists s',
     getData (host_with_default INFO) "toString" start
     = (Normal (Inherited "toString"), s') /\
     cache s' = merged_cache (host_with_default INFO) book_two_sheets ∅) /\
  (exists s',
     getData (host_with_default INFO) "Orders" start = (Normal (Rows []), s') /\
     cache s' = merged_cache (host_with_default INFO) book_two_sheets ∅).
Proof.
  split; [| split].
  - apply (lazy_load_serves_lookup (host_with_default INFO) book_two_sheets "Todo" start
             eq_refl eq_refl proto_not_in_two_sheets).
  - apply (lazy_load_serves_lookup (host_with_default INFO) book_two_sheets "toString"
             start eq_refl eq_refl proto_not_in_two_sheets).
  - apply (lazy_load_serves_lookup (host_with_default INFO) book_two_sheets "Orders" start
             eq_refl eq_refl proto_not_in_two_sheets).
Defined.

Lemma getSingleData_result_sound_witness :
  exists rows,
    cache loaded !! "Login" = Some rows /\
    first_match (fun row => strict_eq (get row "test_case_id") (VStr "TC-LOGIN-002"))
                rows (List.nth 1 login_rows ∅).
Proof.
  apply (getSingleData_result_sound (host ∅ INFO) "Login" "test_case_id"
           (VStr "TC-LOGIN-002") loaded (Some (List.nth 1 login_rows ∅)) loaded).
  reflexivity.
Defined.

End DataServiceMoreExamples.

(* ===================================================================== *)
(** ** More facts about the configuration manager and the log level *)
(* ===================================================================== *)

Module ConfigMore.
Import Js JsText Config Spec Reference ConfigFacts.

Lemma leading_digits_of_uint (d : Decimal.uint) (a : nat) :
  leading_digits (NilEmpty.string_of_uint d) (Some (Z.of_nat a))
  = Some (Z.of_nat (Nat.of_uint_acc d a)).
Proof.
  revert a. induction d; intros a; simpl;
    try (change (default 0%Z (Some (Z.of_nat a))) with (Z.of_nat a));
    try reflexivity;
    match goal with
    | |- leading_digits _ (Some ?z) = Some (Z.of_nat (Nat.of_uint_acc _ ?n)) =>
        replace z with (Z.of_nat n) by (rewrite Nat.tail_mul_spec; lia); apply IHd
    end.
Qed.

(** [parseInt] reads back the decimal numeral of every natural number. *)
Lemma parseInt_nat_to_string (n : nat) : parseInt (nat_to_string n) = Num (Z.of_nat n).
Proof.
  unfold nat_to_string.
  rewrite <- (Unsigned.of_to n) at 2.
  generalize (Nat.to_uint n). intros d. unfold Nat.of_uint.
  destruct d; [reflexivity | ..];
    unfold parseInt; simpl;
    match goal with
    | |- match leading_digits _ (Some ?z) with _ => _ end
         = Num (Z.of_nat (Nat.of_uint_acc _ ?n)) =>
        replace z with (Z.of_nat n) by (rewrite ?Nat.tail_mul_spec; lia);
        rewrite leading_digits_of_uint
    end;
    f_equal; lia.
Qed.

Lemma nat_to_string_nonempty (n : nat) : nat_to_string n <> "".
Proof.
  intros Hempty. pose proof (parseInt_nat_to_string n) as Hparse.
  rewrite Hempty in Hparse. discriminate.
Qed.

(** X7: a numeric variable holding the decimal numeral of [n], an integer
    that a number holds exactly, resolves to the number [n]: TIMEOUT and the
    viewport sizes in every profile, SLOW_MO in every profile but the local
    one. *)
Theorem decimal_variables_resolve_to_their_number (env : gmap string string) (n : nat) :
  safe_integer (Z.of_nat n) ->
  (env !! "TIMEOUT" = Some (nat_to_string n) ->
     TIMEOUT (getConfig env) = Num (Z.of_nat n)) /\
  (env !! "VIEWPORT_WIDTH" = Some (nat_to_string n) ->
     VIEWPORT_WIDTH (getConfig env) = Num (Z.of_nat n)) /\
  (env !! "VIEWPORT_HEIGHT" = Some (nat_to_string n) ->
     VIEWPORT_HEIGHT (getConfig env) = Num (Z.of_nat n)) /\
  (env !! "SLOW_MO" = Some (nat_to_string n) ->
     profile_of (env_name env) <> Local ->
     SLOW_MO (getConfig env) = Num (Z.of_nat n)).
Proof.
  intros _.
  assert (Hset : forall name, env !! name = Some (nat_to_string n) ->
                              is_set env name (nat_to_string n)).
  { intros name Hname. split; [exact Hname | apply nat_to_string_nonempty]. }
  unfold getConfig, profile_of, env_name.
  set (name := env_or env "NODE_ENV" "local").
  destruct (String.eqb name "production");
    [| destruct (String.eqb name "staging");
       [| destruct (String.eqb name "development")]];
    cbn [SLOW_MO TIMEOUT VIEWPORT_WIDTH VIEWPORT_HEIGHT
         with_HEADLESS with_SLOW_MO with_SCREENSHOT_ON_FAIL spread baseConfig
         base_SLOW_MO base_TIMEOUT base_VIEWPORT_WIDTH base_VIEWPORT_HEIGHT];
    (split; [| split; [| split]]); intros H; try intros Hprofile;
    try (exfalso; apply Hprofile; reflexivity);
    rewrite (env_or_set _ _ _ _ (Hset _ H)); apply parseInt_nat_to_string.
Qed.

Lemma decimal_variables_resolve_to_their_number_witness :
  TIMEOUT (getConfig Fixtures.qa_env) = Num 1000 /\
  SLOW_MO (getConfig Fixtures.production_env) = Num 250.
Proof.
  split.
  - apply (decimal_variables_resolve_to_their_number Fixtures.qa_env 1000).
    + unfold safe_integer. lia.
    + reflexivity.
  - apply (decimal_variables_resolve_to_their_number Fixtures.production_env 250).
    + unfold safe_integer. lia.
    + reflexivity.
    + discriminate.
Defined.

(** X8: SCREENSHOT_ON_FAIL is off in the production profile whatever the
    variable holds; in the other profiles it is on exactly when the variable
    is the string "true". *)
Theorem SCREENSHOT_ON_FAIL_resolution (env : gmap string string) :
  SCREENSHOT_ON_FAIL (getConfig env)
  = match profile_of (env_name env) with
    | Production => false
    | _ => bool_decide (env !! "SCREENSHOT_ON_FAIL" = Some "true")
    end.
Proof.
  unfold getConfig, profile_of, env_name.
  set (name := env_or env "NODE_ENV" "local").
  assert (Hbase : (if env_is env "SCREENSHOT_ON_FAIL" "true" then true else false)
                  = bool_decide (env !! "SCREENSHOT_ON_FAIL" = Some "true")).
  { unfold env_is. destruct (env !! "SCREENSHOT_ON_FAIL") as [v|].
    - destruct (String.eqb_spec v "true") as [-> | Hne].
      + now rewrite bool_decide_eq_true_2.
      + rewrite bool_decide_eq_false_2; [reflexivity | congruence].
    - now rewrite bool_decide_eq_false_2. }
  destruct (String.eqb name "production"); [reflexivity |].
  destruct (String.eqb name "staging"); [exact Hbase |].
  destruct (String.eqb name "development"); exact Hbase.
Qed.

(** [getConfig] is determined by the variables it reads under the profile. *)
Lemma getConfig_agree (env env' : gmap string string) :
  (forall name, name ∈ read_variables (profile_of (env_name env)) ->
                env' !! name = env !! name) ->
  getConfig env' = getConfig env.
Proof.
  intros Hagree.
  assert (Hor : forall name fallback,
            name ∈ read_variables (profile_of (env_name env)) ->
            env_or env' name fallback = env_or env name fallback).
  { intros name fallback Hin. unfold env_or. now rewrite Hagree. }
  assert (His : forall name literal,
            name ∈ read_variables (profile_of (env_name env)) ->
            env_is env' name literal = env_is env name literal).
  { intros name literal Hin. unfold env_is. now rewrite Hagree. }
  assert (Hname : env_or env' "NODE_ENV" "local" = env_or env "NODE_ENV" "local").
  { apply Hor. unfold read_variables. set_solver. }
  unfold getConfig. rewrite Hname.
  unfold env_name, profile_of in Hor, His.
  destruct (String.eqb (env_or env "NODE_ENV" "local") "production");
    [| destruct (String.eqb (env_or env "NODE_ENV" "local") "staging");
       [| destruct (String.eqb (env_or env "NODE_ENV" "local") "development")]];
    unfold baseConfig;
    rewrite !Hor, !His by (unfold read_variables, base_url_variable; set_solver);
    reflexivity.
Qed.

(** X9: [getConfig] depends only on the variables it reads: setting or
    removing any other variable, the base-URL variables of the other
    profiles included, leaves the resolved settings unchanged. *)
Theorem getConfig_ignores_other_variables (env : gmap string string) (k v : string) :
  k ∉ read_variables (profile_of (env_name env)) ->
  getConfig (<[k := v]> env) = getConfig env /\
  getConfig (delete k env) = getConfig env.
Proof.
  intros Hk. split; apply getConfig_agree; intros name Hin.
  - apply lookup_insert_ne. intros ->. contradiction.
  - apply lookup_delete_ne. intros ->. contradiction.
Qed.

Lemma getConfig_ignores_other_variables_witness :
  getConfig (<["LOCAL_BASE_URL" := "http://127.0.0.1:3000"]> Fixtures.production_env)
  = getConfig Fixtures.production_env /\
  getConfig (delete "LOCAL_BASE_URL" Fixtures.production_env)
  = getConfig Fixtures.production_env.
Proof.
  apply (getConfig_ignores_other_variables Fixtures.production_env
           "LOCAL_BASE_URL" "http://127.0.0.1:3000").
  intros Hin. vm_compute in Hin.
  repeat (apply elem_of_cons in Hin as [Hin | Hin]; [discriminate |]).
  inversion Hin.
Defined.

Lemma env_or_unset env name fallback : is_unset env name -> env_or env name fallback = fallback.
Proof. intros [H | H]; unfold env_or; now rewrite H. Qed.

(** X10: a variable that is absent or empty gives the named default:
    TIMEOUT 30000, BROWSER chromium, a 1920x1080 viewport, the results
    directory allure-results, the profile's own base URL, and SLOW_MO 0
    outside the local profile. *)
Theorem unset_variables_take_defaults (env : gmap string string) :
  (is_unset env "TIMEOUT" -> TIMEOUT (getConfig env) = Num 30000) /\
  (is_unset env "BROWSER" -> BROWSER (getConfig env) = "chromium") /\
  (is_unset env "VIEWPORT_WIDTH" -> VIEWPORT_WIDTH (getConfig env) = Num 1920) /\
  (is_unset env "VIEWPORT_HEIGHT" -> VIEWPORT_HEIGHT (getConfig env) = Num 1080) /\
  (is_unset env "ALLURE_RESULTS_DIR" ->
     ALLURE_RESULTS_DIR (getConfig env) = "allure-results") /\
  (is_unset env (base_url_variable (profile_of (env_name env))) ->
     BASE_URL (getConfig env) = default_base_url (profile_of (env_name env))) /\
  (is_unset env "SLOW_MO" -> profile_of (env_name env) <> Local ->
     SLOW_MO (getConfig env) = Num 0).
Proof.
  unfold getConfig, profile_of, env_name.
  set (name := env_or env "NODE_ENV" "local").
  destruct (String.eqb name "production");
    [| destruct (String.eqb name "staging");
       [| destruct (String.eqb name "development")]];
    cbn [HEADLESS SLOW_MO TIMEOUT BROWSER VIEWPORT_WIDTH VIEWPORT_HEIGHT BASE_URL
         ALLURE_RESULTS_DIR with_HEADLESS with_SLOW_MO with_SCREENSHOT_ON_FAIL spread
         baseConfig base_HEADLESS base_SLOW_MO base_TIMEOUT base_BROWSER
         base_VIEWPORT_WIDTH base_VIEWPORT_HEIGHT base_ALLURE_RESULTS_DIR
         base_url_variable default_base_url];
    repeat split; intros Hunset; try intros Hprofile;
    try (rewrite (env_or_unset _ _ _ Hunset); reflexivity);
    contradiction.
Qed.

Lemma unset_variables_take_defaults_witness :
  VIEWPORT_WIDTH (getConfig Fixtures.production_env) = Num 1920 /\
  BROWSER (getConfig Fixtures.qa_env) = "chromium".
Proof.
  split.
  - apply (unset_variables_take_defaults Fixtures.production_env). now left.
  - apply (unset_variables_take_defaults Fixtures.qa_env). now left.
Defined.

End ConfigMore.

Module LoggerMore.
Import Js JsText Effects Runtime LoggerLevel.

Lemma upper_lower_level_name (l : LogLevel) :
  toUpperCase (toLowerCase (level_name l)) = level_name l.
Proof. destruct l; reflexivity. Qed.

Lemma getLogLevel_of_upper (env : gmap string string) (s : string) (l : LogLevel) :
  toUpperCase s = level_name l -> getLogLevel (<["LOG_LEVEL" := s]> env) = l.
Proof.
  intros Hupper. unfold getLogLevel. rewrite lookup_insert_eq. simpl fmap.
  rewrite Hupper. now destruct l.
Qed.

(** X11: LOG_LEVEL selects a level by its enum name in any letter case;
    when the variable is absent, or holds ASCII text that names no level,
    the level is INFO. *)
Theorem getLogLevel_reads_names_in_any_case (env : gmap string string) :
  (forall s l, toUpperCase s = level_name l ->
     getLogLevel (<["LOG_LEVEL" := s]> env) = l) /\
  (forall l, getLogLevel (<["LOG_LEVEL" := level_name l]> env) = l /\
             getLogLevel (<["LOG_LEVEL" := toLowerCase (level_name l)]> env) = l) /\
  (env !! "LOG_LEVEL" = None -> getLogLevel env = INFO) /\
  (forall s, ascii_text s = true -> (forall l, toUpperCase s <> level_name l) ->
     getLogLevel (<["LOG_LEVEL" := s]> env) = INFO).
Proof.
  repeat split.
  - intros s l. apply getLogLevel_of_upper.
  - apply getLogLevel_of_upper. now destruct l.
  - apply getLogLevel_of_upper. apply upper_lower_level_name.
  - intros Hnone. unfold getLogLevel. now rewrite Hnone.
  - intros s _ Hother. unfold getLogLevel. rewrite lookup_insert_eq.
    change (toUpperCase <$> Some s) with (Some (toUpperCase s)). cbv iota beta.
    destruct (String.eqb (toUpperCase s) "DEBUG") eqn:Hdebug;
      [apply String.eqb_eq in Hdebug; exfalso; exact (Hother DEBUG Hdebug) |].
    destruct (String.eqb (toUpperCase s) "INFO") eqn:Hinfo; [reflexivity |].
    destruct (String.eqb (toUpperCase s) "WARN") eqn:Hwarn;
      [apply String.eqb_eq in Hwarn; exfalso; exact (Hother WARN Hwarn) |].
    destruct (String.eqb (toUpperCase s) "ERROR") eqn:Herror;
      [apply String.eqb_eq in Herror; exfalso; exact (Hother ERROR Herror) |].
    destruct (String.eqb (toUpperCase s) "SILENT") eqn:Hsilent;
      [apply String.eqb_eq in Hsilent; exfalso; exact (Hother SILENT Hsilent) |].
    reflexivity.
Qed.

Lemma getLogLevel_reads_names_in_any_case_witness :
  getLogLevel (<["LOG_LEVEL" := "Warn"]> ∅) = WARN /\
  getLogLevel (<["LOG_LEVEL" := "verbose"]> ∅) = INFO.
Proof.
  destruct (getLogLevel_reads_names_in_any_case ∅) as (Hname & _ & _ & Hother).
  split.
  - apply (Hname "Warn" WARN). reflexivity.
  - apply (Hother "verbose"); [reflexivity |]. intros l. destruct l; discriminate.
Defined.

End LoggerMore.

(* ===================================================================== *)
(** ** More facts about the scenario generator *)
(* ===================================================================== *)

Module ScenarioGeneratorMore.
Import Js Effects Runtime ScenarioGenerator Spec RuntimeFacts ScenarioGeneratorFacts.

Section WithHost.
Context {WorkSheet : Type} (host : Host WorkSheet).

(** X12: when the login data cannot be loaded, or the output file cannot be
    written, [generateLoginFeature] throws that very error and leaves every
    file, and the rest of the process state, as it was. *)
Theorem generateLoginFeature_failure_changes_nothing (s : Proc) (e : JsThrown) :
  (DataLoader_loadLoginData host (process_env host !! "TEST_ENV") = inl e ->
     generateLoginFeature host s = (Throw e, s)) /\
  (forall rows,
     DataLoader_loadLoginData host (process_env host !! "TEST_ENV") = inr rows ->
     fs_write_error host (outputPath host) = Some e ->
     generateLoginFeature host s = (Throw e, s)).
Proof.
  split.
  - intros Hload. unfold generateLoginFeature, getLoginTestData, bind.
    now rewrite Hload.
  - intros rows Hload Hwrite. unfold generateLoginFeature, getLoginTestData, bind.
    rewrite Hload. simpl lift. unfold ret at 1. rewrite append_loop.
    unfold writeFileSync, bind. now rewrite Hwrite.
Qed.

End WithHost.

Lemma generateLoginFeature_failure_changes_nothing_witness :
  generateLoginFeature Fixtures2.host_without_login_data Fixtures.loaded
  = (Throw (JsError "Unknown environment"), Fixtures.loaded).
Proof.
  apply (generateLoginFeature_failure_changes_nothing
           Fixtures2.host_without_login_data Fixtures.loaded
           (JsError "Unknown environment")).
  reflexivity.
Defined.

End ScenarioGeneratorMore.

(* ===================================================================== *)
(** ** Facts about the session: browser start-up, teardown and hooks *)
(* ===================================================================== *)

Module SessionFacts.
Import Js JsText Effects Runtime World Session Hooks Reference RuntimeFacts.

Lemma bind_normal {St A B} (m : M St A) (k : A -> M St B) s a s' :
  m s = (Normal a, s') -> bind m k s = k a s'.
Proof. intros H. unfold bind. now rewrite H. Qed.

Lemma bind_throw {St A B} (m : M St A) (k : A -> M St B) s e s' :
  m s = (Throw e, s') -> bind m k s = (Throw e, s').
Proof. intros H. unfold bind. now rewrite H. Qed.

(** The scenario state after lines were written to the console. *)
Lemma on_proc_log {WorkSheet} (host : Host WorkSheet) level message r :
  on_proc (Logger.log host level message) r
  = (Normal tt,
     mkRun (print (Logger.emitted host level message) (proc r))
           (this r) (context r) (calls r)).
Proof. unfold on_proc. now rewrite log_run. Qed.

Lemma on_proc_info {WorkSheet} (host : Host WorkSheet) message r :
  on_proc (Logger.info host message) r
  = (Normal tt,
     mkRun (print (Logger.emitted host INFO message) (proc r))
           (this r) (context r) (calls r)).
Proof. apply on_proc_log. Qed.

Lemma on_proc_debug {WorkSheet} (host : Host WorkSheet) message r :
  on_proc (Logger.debug host message) r
  = (Normal tt,
     mkRun (print (Logger.emitted host DEBUG message) (proc r))
           (this r) (context r) (calls r)).
Proof. apply on_proc_log. Qed.

Lemma on_proc_error {WorkSheet} (host : Host WorkSheet) message r :
  on_proc (Logger.error host message) r
  = (Normal tt,
     mkRun (print (Logger.emitted host ERROR message) (proc r))
           (this r) (context r) (calls r)).
Proof. apply on_proc_log. Qed.

Lemma run_ext (a b : Run) :
  proc a = proc b -> this a = this b -> context a = context b -> calls a = calls b ->
  a = b.
Proof. destruct a, b; simpl; intros; subst; reflexivity. Qed.

Lemma not_in_table (name : string) :
  name ∉ ["chromium"; "firefox"; "webkit"] ->
  browser_table name
  = if bool_decide (name ∈ Object_prototype_members) then InheritedMember else Missing.
Proof.
  intros Hname. unfold browser_table.
  destruct (String.eqb_spec name "chromium") as [-> | _]; [exfalso; apply Hname; set_solver |].
  destruct (String.eqb_spec name "firefox") as [-> | _]; [exfalso; apply Hname; set_solver |].
  destruct (String.eqb_spec name "webkit") as [-> | _]; [exfalso; apply Hname; set_solver |].
  reflexivity.
Qed.

(** No character of the class is left by a replacement that brings none. *)
Lemma replace_class_clean (class : ascii -> bool) (s : string) (c : ascii) :
  class c = false ->
  Forall (fun x => class x = false)
         (list_ascii_of_string (replace_class class s (String c EmptyString))) /\
  String.length (replace_class class s (String c EmptyString)) = String.length s.
Proof.
  intros Hc. induction s as [|x s [IHclean IHlen]]; simpl; [split; constructor |].
  destruct (class x) eqn:Hx;
    change (String ?a EmptyString +:+ ?t) with (String a t); simpl;
    (split; [constructor; assumption | now rewrite IHlen]).
Qed.

Lemma replace_all_space_as_class (s rep : string) :
  replace_all_space s rep = replace_class is_space s rep.
Proof. induction s as [|c s IH]; simpl; [reflexivity | now rewrite IH]. Qed.

Section WithHost.
Context {WorkSheet : Type} (host : Host WorkSheet) (driver : Driver).

(** X13: under a browser name other than chromium, firefox and webkit,
    [initBrowser] throws before it launches anything: no call reaches the
    driver and the world is left as it was. The error is "Unsupported browser
    type: <name>", except for the names every object inherits (constructor,
    toString, ...), for which the table lookup is truthy and the call of
    [launch] on it raises a TypeError. *)
Theorem initBrowser_rejects_unknown_browser (r : Run) :
  Config.BROWSER (config (this r)) ∉ ["chromium"; "firefox"; "webkit"] ->
  initBrowser host driver r
  = (Throw (if bool_decide (Config.BROWSER (config (this r)) ∈ Object_prototype_members)
            then JsTypeError "browserType.launch is not a function"
            else JsError ("Unsupported browser type: "
                          +:+ Config.BROWSER (config (this r)))),
     mkRun (print (Logger.emitted host INFO
                     ("Initializing " +:+ Config.BROWSER (config (this r))
                      +:+ " browser...")) (proc r))
           (this r) (context r) (calls r)).
Proof.
  intros Hname. unfold initBrowser.
  unfold bind at 1. unfold gets at 1. unfold bind at 1. rewrite on_proc_info.
  rewrite (not_in_table _ Hname).
  destruct (bool_decide (Config.BROWSER (config (this r)) ∈ Object_prototype_members));
    reflexivity.
Qed.

(** X14: when the configured browser is one of the three and the driver
    launches it, opens a context and a page, [initBrowser] returns with the
    world holding that browser, context and page, having passed the
    configured headless flag, slow-motion delay, viewport, base URL and
    timeout to the driver, in this order. *)
Theorem initBrowser_opens_configured_session (r : Run) t b c p :
  let cfg := config (this r) in
  browser_table (Config.BROWSER cfg) = Entry t ->
  launch driver t (Config.HEADLESS cfg) (Config.SLOW_MO cfg) = inr b ->
  newContext driver b (Config.VIEWPORT_WIDTH cfg) (Config.VIEWPORT_HEIGHT cfg)
             (Config.BASE_URL cfg) = inr c ->
  setDefaultTimeout_error driver c (Config.TIMEOUT cfg) = None ->
  newPage driver c = inr p ->
  initBrowser host driver r
  = (Normal tt,
     mkRun (print (Logger.emitted host INFO
                     ("Initializing " +:+ Config.BROWSER cfg +:+ " browser...")
                   ++ Logger.emitted host INFO "Browser and Page initialized successfully.")
                  (proc r))
           (mkWorld (Some b) (Some p) cfg (testData (this r)))
           (Some c)
           (calls r ++ [Launch t (Config.HEADLESS cfg) (Config.SLOW_MO cfg);
                        NewContext b (Config.VIEWPORT_WIDTH cfg)
                                   (Config.VIEWPORT_HEIGHT cfg) (Config.BASE_URL cfg);
                        SetDefaultTimeout c (Config.TIMEOUT cfg);
                        NewPage c])).
Proof.
  intros cfg Htable Hlaunch Hcontext Htimeout Hpage. unfold initBrowser.
  unfold bind at 1. unfold gets at 1. unfold bind at 1. rewrite on_proc_info.
  fold cfg. rewrite Htable.
  unfold bind, call, modify, set_browser, set_context, set_page, lift, throw_if, ret.
  simpl. rewrite Hlaunch. simpl. rewrite Hcontext. simpl. rewrite Htimeout. simpl.
  rewrite Hpage. simpl. rewrite on_proc_info. simpl.
  f_equal. apply run_ext; simpl; try reflexivity.
  - now rewrite print_print.
  - now rewrite <- !app_assoc.
Qed.

(** X15: when the browser launches but no context can be opened,
    [initBrowser] throws that error with the launched browser already stored
    in the world, so that [closeBrowser] on that world still closes it. *)
Theorem failed_initBrowser_keeps_browser_for_teardown (r : Run) t b e :
  let cfg := config (this r) in
  browser_table (Config.BROWSER cfg) = Entry t ->
  launch driver t (Config.HEADLESS cfg) (Config.SLOW_MO cfg) = inr b ->
  newContext driver b (Config.VIEWPORT_WIDTH cfg) (Config.VIEWPORT_HEIGHT cfg)
             (Config.BASE_URL cfg) = inl e ->
  exists r',
    initBrowser host driver r = (Throw e, r') /\
    browser (this r') = Some b /\
    page (this r') = page (this r) /\
    driver_calls (proc (on_this (closeBrowser host) r').2)
    = (driver_calls (proc r) ++ [BrowserClose b])%list.
Proof.
  intros cfg Htable Hlaunch Hcontext. unfold initBrowser.
  unfold bind at 1. unfold gets at 1. unfold bind at 1. rewrite on_proc_info.
  fold cfg. rewrite Htable.
  unfold bind, call, modify, set_browser, lift, throw, ret.
  simpl. rewrite Hlaunch. simpl. rewrite Hcontext. simpl.
  eexists. split; [reflexivity |]. simpl. repeat split.
  unfold on_this, on_proc, closeBrowser. simpl.
  unfold bind at 1. rewrite info_run. unfold bind, driver_call, modify. simpl.
  destruct (browser_close host b); reflexivity.
Qed.

(** X16: with a page, [takeScreenshot] asks the driver for a screenshot at
    <cwd>/<results dir>/screenshot-<name>-<time>.png, where <name> is the
    scenario name, ASCII text, with every white-space character replaced by an underscore
    (same length, no white space left); it returns the buffer, or throws what
    the driver throws. *)
Theorem takeScreenshot_names_file_after_scenario
    (w : CustomWorld) (p : Page) (scenarioName : string) (s : Proc) :
  page w = Some p ->
  ascii_text scenarioName = true ->
  let clean := replace_all_space scenarioName "_" in
  let path :=
    path_join host
      [cwd host; Config.ALLURE_RESULTS_DIR (config w);
       "screenshot-" +:+ clean +:+ "-" +:+ Z_to_string (Date_now host) +:+ ".png"] in
  takeScreenshot host w scenarioName s
  = (match page_screenshot host p path with
     | inr buffer => Normal (Some buffer)
     | inl e => Throw e
     end,
     set_driver_calls (fun cs => cs ++ [PageScreenshot p path])
       (print (Logger.emitted host DEBUG ("Taking screenshot: " +:+ path)) s)) /\
  Forall (fun c => is_space c = false) (list_ascii_of_string clean) /\
  String.length clean = String.length scenarioName.
Proof.
  intros Hpage _ clean path. split.
  - unfold takeScreenshot. rewrite Hpage. fold clean. fold path.
    unfold bind at 1. rewrite debug_run. unfold bind, driver_call, modify, lift.
    destruct (page_screenshot host p path); reflexivity.
  - subst clean. rewrite replace_all_space_as_class.
    apply (replace_class_clean is_space scenarioName "_"%char). reflexivity.
Qed.

(** X17: with a page, [ScreenshotManager.capture] creates the screenshots
    directory only when it is missing, takes a full-page screenshot at
    screenshots/<name>-<stamp>.png and attaches it as image/png; <stamp> is
    the ISO time with every colon and dot replaced by a dash. *)
Theorem capture_writes_stamped_file (r : Run) (p : Page) (name : option string)
    (buffer : Buffer) :
  page (this r) = Some p ->
  let stamp := replace_class colon_or_dot (Date_toISOString driver) "-" in
  let filePath :=
    path_join host ["screenshots"; default "screenshot" name +:+ "-" +:+ stamp +:+ ".png"] in
  (fs_existsSync driver "screenshots" = false ->
     fs_mkdirSync_error driver "screenshots" = None) ->
  screenshot_fullPage driver p filePath = inr buffer ->
  attach_error driver buffer "image/png" = None ->
  capture host driver name r
  = (Normal filePath,
     mkRun (proc r) (this r) (context r)
           (calls r
            ++ (if fs_existsSync driver "screenshots" then [] else [MkdirSync "screenshots"])
            ++ [ScreenshotFullPage p filePath; Attach buffer "image/png"])) /\
  Forall (fun c => colon_or_dot c = false) (list_ascii_of_string stamp) /\
  String.length stamp = String.length (Date_toISOString driver).
Proof.
  intros Hpage stamp filePath Hmkdir Hshot Hattach. split.
  - unfold capture. fold stamp. fold filePath.
    unfold bind at 1.
    assert (Hdir :
      (if negb (fs_existsSync driver "screenshots")
       then call (MkdirSync "screenshots") ;;
            throw_if (fs_mkdirSync_error driver "screenshots")
       else ret tt) r
      = (Normal tt,
         mkRun (proc r) (this r) (context r)
               (calls r ++ (if fs_existsSync driver "screenshots"
                            then [] else [MkdirSync "screenshots"])))).
    { destruct (fs_existsSync driver "screenshots") eqn:Hexists; simpl.
      - unfold ret. f_equal. apply run_ext; simpl; auto using app_nil_r.
      - unfold bind, call, modify. now rewrite (Hmkdir eq_refl). }
    rewrite Hdir.
    unfold the_page, bind, gets, call, modify, lift, throw_if, ret. simpl.
    rewrite Hpage. simpl. rewrite Hshot. simpl. rewrite Hattach.
    f_equal. apply run_ext; simpl; try reflexivity.
    now rewrite <- !app_assoc.
  - apply (replace_class_clean colon_or_dot (Date_toISOString driver) "-"%char).
    reflexivity.
Qed.

(** X18: the [After] hook. For a scenario that did not fail it captures
    nothing and closes the browser of the world; for a failed scenario a
    capture that throws ends the hook at once, so the browser is not closed
    (as when the world has no page). *)
Theorem After_closes_browser_unless_capture_throws
    (scenario_name : string) (status : option Status) (r : Run) :
  (is_failed status = false ->
   forall b, browser (this r) = Some b ->
     (After host driver scenario_name status r).1
     = match browser_close host b with
       | None => Normal tt
       | Some e => Throw e
       end /\
     calls (After host driver scenario_name status r).2 = calls r /\
     driver_calls (proc (After host driver scenario_name status r).2)
     = (driver_calls (proc r) ++ [BrowserClose b])%list) /\
  (status = Some FAILED ->
   (forall e r',
      capture host driver
        (Some ("FAILED-" +:+ replace_runs is_space false scenario_name "_")) r
      = (Throw e, r') ->
      After host driver scenario_name status r = (Throw e, r')) /\
   (page (this r) = None ->
    (fs_existsSync driver "screenshots" = false ->
       fs_mkdirSync_error driver "screenshots" = None) ->
    (After host driver scenario_name status r).1
    = Throw (JsTypeError "Cannot read properties of undefined (reading 'screenshot')") /\
    driver_calls (proc (After host driver scenario_name status r).2)
    = driver_calls (proc r))).
Proof.
  split.
  - intros Hpassed b Hbrowser.
    assert (Hrun : exists r',
      After host driver scenario_name status r
      = (match browser_close host b with
         | None => Normal tt
         | Some e => Throw e
         end, r') /\
      calls r' = calls r /\
      driver_calls (proc r') = (driver_calls (proc r) ++ [BrowserClose b])%list).
    { unfold After. rewrite Hpassed.
      unfold bind at 1. unfold ret at 1. unfold bind at 1. rewrite on_proc_info.
      unfold bind at 1. unfold on_this, on_proc, closeBrowser. simpl. rewrite Hbrowser.
      unfold bind at 1. rewrite info_run. unfold bind at 1. unfold driver_call, modify.
      simpl. destruct (browser_close host b); simpl; rewrite ?info_run;
        eexists; (split; [reflexivity |]); simpl; split; reflexivity. }
    destruct Hrun as (r' & -> & Hcalls & Hdriver). simpl. auto.
  - intros ->. simpl is_failed. cbv iota.
    assert (Hthrow : forall e r',
      capture host driver
        (Some ("FAILED-" +:+ replace_runs is_space false scenario_name "_")) r
      = (Throw e, r') ->
      After host driver scenario_name (Some FAILED) r = (Throw e, r')).
    { intros e r' Hcapture. unfold After. simpl is_failed. cbv iota.
      unfold bind at 1. unfold bind at 1. now rewrite Hcapture. }
    split; [exact Hthrow |].
    intros Hpage Hmkdir.
    destruct (capture host driver
                (Some ("FAILED-" +:+ replace_runs is_space false scenario_name "_")) r)
      as [c r'] eqn:Hcapture.
    assert (Hc : c = Throw (JsTypeError
                   "Cannot read properties of undefined (reading 'screenshot')") /\
                 proc r' = proc r).
    { unfold capture in Hcapture. unfold bind at 1 in Hcapture.
      destruct (fs_existsSync driver "screenshots") eqn:Hexists; simpl in Hcapture.
      - unfold ret at 1 in Hcapture. unfold the_page, bind, gets in Hcapture.
        simpl in Hcapture. rewrite Hpage in Hcapture. unfold throw in Hcapture.
        injection Hcapture as <- <-. split; reflexivity.
      - unfold bind at 1 in Hcapture. unfold call, modify in Hcapture.
        rewrite (Hmkdir eq_refl) in Hcapture. simpl in Hcapture.
        unfold the_page, bind, gets in Hcapture. simpl in Hcapture.
        rewrite Hpage in Hcapture. unfold throw in Hcapture.
        injection Hcapture as <- <-. split; reflexivity. }
    destruct Hc as [-> Hproc]. rewrite (Hthrow _ _ eq_refl). simpl.
    split; [reflexivity | now rewrite Hproc].
Qed.

(** X19: [BeforeAll] never throws. A workbook that cannot be loaded is
    reported by an error line and the run goes on with the cache as it was;
    a workbook that loads is merged into the cache. *)
Theorem BeforeAll_swallows_load_failure (s : Proc) :
  let path := Some (Hooks.EXCEL_FILE_PATH host) in
  exists s',
    BeforeAll host s = (Normal tt, s') /\
    cache s' = (load_outcome host path (cache s)).2 /\
    files s' = files s /\
    console s'
    = (console s ++ load_lines host path
       ++ match XLSX_readFile host (DataService.read_path host path) with
          | inl _ =>
              Logger.emitted host ERROR
                "FATAL: Could not load test data from /test-data/test_data.xlsx. Test execution aborted."
          | inr _ => []
          end
       ++ Logger.emitted host INFO "🚀 Starting test execution..."
       ++ Logger.emitted host INFO "✅ Test environment initialized")%list.
Proof.
  intros path. unfold BeforeAll. unfold bind at 1. unfold try_catch.
  rewrite DataServiceMore.loadData_run. fold path. unfold load_outcome.
  destruct (XLSX_readFile host (DataService.read_path host path)) as [e|wb]; simpl.
  - rewrite error_run. unfold bind. rewrite !info_run.
    eexists. split; [reflexivity |]. simpl. repeat split.
    now rewrite <- !app_assoc.
  - unfold bind. rewrite !info_run.
    eexists. split; [reflexivity |]. simpl. repeat split.
    now rewrite <- !app_assoc.
Qed.

End WithHost.
End SessionFacts.

(* ===================================================================== *)
(** ** Facts about the login page object and the login steps *)
(* ===================================================================== *)

Module LoginFlowFacts.
Import Js JsText Effects Runtime World Session Pages Steps Observed Reference.
Import RuntimeFacts SessionFacts.

Lemma or_else_string (text : string) : or_else (VStr text) (VStr "") = VStr text.
Proof.
  unfold or_else, truthy. destruct (String.eqb_spec text "") as [-> | _]; reflexivity.
Qed.

(** Every character of a masked text is a star, or a line terminator that
    the pattern [/./] does not match. *)
Lemma mask_stars (text : string) :
  Forall (fun c => c = "*"%char \/ is_line_terminator c = true)
         (list_ascii_of_string (replace_class any_char text "*")) /\
  String.length (replace_class any_char text "*") = String.length text.
Proof.
  induction text as [|c text [IHstars IHlen]]; simpl; [split; constructor |].
  unfold any_char at 1 3. destruct (is_line_terminator c) eqn:Hc; simpl negb; cbv iota;
    change (String ?a EmptyString +:+ ?t) with (String a t); simpl;
    (split; [constructor; auto | now rewrite IHlen]).
Qed.

Section WithHost.
Context {WorkSheet : Type} (host : Host WorkSheet) (driver : Driver).

Lemma waitForElementVisible_run p selector elementName timeout r :
  waitForElementVisible host (Some p) selector elementName timeout r
  = (completion_of (expect_toBeVisible host p selector timeout),
     mkRun (print (Logger.emitted host INFO
                     ("Waiting for element to be visible: "
                      +:+ text_or elementName selector)) (proc r))
           (this r) (context r) (calls r ++ [ToBeVisible p selector timeout])).
Proof.
  unfold waitForElementVisible, member. unfold bind at 1. unfold ret at 1.
  unfold bind at 1. rewrite on_proc_info. unfold bind, call, modify, throw_if.
  simpl. destruct (expect_toBeVisible host p selector timeout); reflexivity.
Qed.

Lemma fillText_run p selector text elementName r :
  fillText host driver (Some p) selector text elementName r
  = (completion_of (fill_error driver p selector text),
     mkRun (print (Logger.emitted host INFO
                     ("Filling text " +:+ dq +:+ to_String text +:+ dq +:+ " into: "
                      +:+ text_or elementName selector)) (proc r))
           (this r) (context r) (calls r ++ [Fill p selector text])).
Proof.
  unfold fillText, member. unfold bind at 1. rewrite on_proc_info.
  unfold bind, call, modify, throw_if, ret.
  simpl. destruct (fill_error driver p selector text); reflexivity.
Qed.

Lemma clickElement_run p selector elementName r :
  clickElement host driver (Some p) selector elementName r
  = (completion_of (click_error driver p selector),
     mkRun (print (Logger.emitted host INFO
                     ("Clicking element: " +:+ text_or elementName selector)) (proc r))
           (this r) (context r) (calls r ++ [Click p selector])).
Proof.
  unfold clickElement, member. unfold bind at 1. rewrite on_proc_info.
  unfold bind, call, modify, throw_if, ret.
  simpl. destruct (click_error driver p selector); reflexivity.
Qed.

(** [isPageLoaded] on a page. *)
Lemma isPageLoaded_run p r :
  exists r',
    isPageLoaded host (Some p) r
    = (Normal (forallb (shows host p) login_landmarks), r') /\
    this r' = this r /\
    cache (proc r') = cache (proc r) /\
    calls r'
    = (calls r ++ map (fun selector => ToBeVisible p selector None)
                      (waited_for (shows host p) login_landmarks))%list.
Proof.
  unfold isPageLoaded, try_catch, login_landmarks, shows. simpl forallb. simpl waited_for.
  unfold bind at 1. rewrite waitForElementVisible_run.
  destruct (expect_toBeVisible host p (LoginSteps.selector "tab-login") None); simpl.
  { unfold bind. rewrite on_proc_error. eexists. split; [reflexivity |]. simpl. auto. }
  unfold bind at 1. rewrite waitForElementVisible_run.
  destruct (expect_toBeVisible host p (LoginSteps.selector "login-username") None); simpl.
  { unfold bind. rewrite on_proc_error. eexists. split; [reflexivity |]. simpl.
    rewrite <- !app_assoc. auto. }
  unfold bind at 1. rewrite waitForElementVisible_run.
  destruct (expect_toBeVisible host p (LoginSteps.selector "login-password") None); simpl.
  { unfold bind. rewrite on_proc_error. eexists. split; [reflexivity |]. simpl.
    rewrite <- !app_assoc. auto. }
  unfold bind at 1. rewrite waitForElementVisible_run.
  destruct (expect_toBeVisible host p (LoginSteps.selector "login-button") None); simpl.
  { unfold bind. rewrite on_proc_error. eexists. split; [reflexivity |]. simpl.
    rewrite <- !app_assoc. auto. }
  unfold ret. eexists. split; [reflexivity |]. simpl. rewrite <- !app_assoc. auto.
Qed.

(** [waitForLoginToComplete] ends normally. *)
Lemma waitForLoginToComplete_run page r :
  exists r',
    waitForLoginToComplete host driver page r = (Normal tt, r') /\
    this r' = this r /\ cache (proc r') = cache (proc r).
Proof.
  unfold waitForLoginToComplete, try_catch. destruct page as [p|].
  - unfold bind at 1. rewrite waitForElementVisible_run.
    destruct (expect_toBeVisible host p (LoginSteps.selector "loading-spinner")
                (Some 2000%Z)); simpl.
    { rewrite on_proc_debug. eexists. split; [reflexivity |]. simpl. auto. }
    unfold waitForElementHidden, member. unfold bind at 1. unfold ret at 1.
    unfold bind at 1. rewrite on_proc_info. unfold bind, call, modify, throw_if. simpl.
    destruct (expect_toBeHidden driver p (LoginSteps.selector "loading-spinner")
                (Some 10000%Z)); simpl.
    + rewrite on_proc_debug. eexists. split; [reflexivity |]. simpl. auto.
    + eexists. split; [reflexivity |]. simpl. auto.
  - unfold waitForElementVisible, member. unfold bind at 1. unfold bind at 1.
    unfold throw at 1. rewrite on_proc_debug. eexists. split; [reflexivity |]. simpl. auto.
Qed.

(** The step [login_with_data] on a row of the Login sheet. *)
Lemma login_with_data_run testCaseId r rows row p u pw :
  (getData_outcome host "Login" (cache (proc r))).1 = Normal (DataService.Rows rows) ->
  List.find (fun row => strict_eq (get row "test_case_id") (VStr testCaseId)) rows
  = Some row ->
  page (this r) = Some p ->
  get row "username" = VStr u ->
  get row "password" = VStr pw ->
  fill_error driver p (LoginSteps.selector "login-username") (VStr u) = None ->
  fill_error driver p (LoginSteps.selector "login-password") (VStr pw) = None ->
  exists r',
    login_with_data host driver testCaseId r = (Normal tt, r') /\
    this r'
    = mkWorld (browser (this r)) (Some p) (config (this r))
              (<["expectedResult" := get row "expected_result"]> (testData (this r))) /\
    calls r'
    = (calls r ++ [Fill p (LoginSteps.selector "login-username") (VStr u);
                   Fill p (LoginSteps.selector "login-password") (VStr pw)])%list /\
    console (proc r')
    = (console (proc r) ++ getData_lines host "Login" (cache (proc r))
       ++ Logger.emitted host INFO
            ("Filling text " +:+ dq +:+ u +:+ dq +:+ " into: Username Input")
       ++ Logger.emitted host INFO
            ("Filling text " +:+ dq +:+ pw +:+ dq +:+ " into: Password Input")
       ++ Logger.emitted host INFO
            ("Entered credentials for test case " +:+ testCaseId +:+ ": username=" +:+ dq
             +:+ u +:+ dq +:+ ", password=" +:+ dq
             +:+ replace_class any_char pw "*" +:+ dq))%list.
Proof.
  intros Hrows Hfind Hpage Hu Hpw Hfill_u Hfill_pw.
  unfold login_with_data. unfold bind at 1. unfold on_proc at 1.
  rewrite DataServiceMore.getSingleData_run, Hrows, Hfind.
  rewrite Hu, Hpw, !or_else_string.
  unfold bind at 1. unfold set_testData, modify at 1.
  unfold bind at 1. unfold gets at 1. simpl. rewrite Hpage.
  unfold enterUsername, enterPassword.
  unfold bind at 1. rewrite fillText_run, Hfill_u. simpl.
  unfold bind at 1. rewrite fillText_run, Hfill_pw. simpl.
  unfold bind at 1. unfold ret at 1. rewrite on_proc_info.
  eexists. split; [reflexivity |]. simpl.
  repeat split; now rewrite <- ?app_assoc.
Qed.

(** X20: when no row of the Login sheet has the test case id, the step
    [login_with_data] throws "Test data not found ..." before it touches the
    page: nothing is filled and the world is left as it was. When the data
    cannot be loaded at all, the step throws the load error instead. *)
Theorem login_with_data_unknown_id_fills_nothing (testCaseId : string) (r : Run) :
  (forall rows,
     (getData_outcome host "Login" (cache (proc r))).1 = Normal (DataService.Rows rows) ->
     List.find (fun row => strict_eq (get row "test_case_id") (VStr testCaseId)) rows
     = None ->
     exists r',
       login_with_data host driver testCaseId r
       = (Throw (JsError ("Test data not found for test case ID: " +:+ testCaseId
                          +:+ " in 'Login' sheet.")), r') /\
       this r' = this r /\ calls r' = calls r /\
       driver_calls (proc r') = driver_calls (proc r)) /\
  (forall e,
     (getData_outcome host "Login" (cache (proc r))).1 = Throw e ->
     exists r',
       login_with_data host driver testCaseId r = (Throw e, r') /\
       this r' = this r /\ calls r' = calls r).
Proof.
  split.
  - intros rows Hrows Hfind. unfold login_with_data. unfold bind at 1. unfold on_proc at 1.
    rewrite DataServiceMore.getSingleData_run, Hrows, Hfind.
    eexists. split; [reflexivity |]. simpl. auto.
  - intros e Hthrow. unfold login_with_data. unfold bind at 1. unfold on_proc at 1.
    rewrite DataServiceMore.getSingleData_run, Hthrow.
    eexists. split; [reflexivity |]. simpl. auto.
Qed.

(** X21: on the first row of the Login sheet with the test case id, the step
    [login_with_data] stores the row's expected_result in the world's test
    data and fills the username and the password of that row, in this order,
    and nothing else. *)
Theorem login_with_data_enters_first_matching_row
    (testCaseId : string) (r : Run) rows row p u pw :
  (getData_outcome host "Login" (cache (proc r))).1 = Normal (DataService.Rows rows) ->
  List.find (fun row => strict_eq (get row "test_case_id") (VStr testCaseId)) rows
  = Some row ->
  page (this r) = Some p ->
  get row "username" = VStr u ->
  get row "password" = VStr pw ->
  fill_error driver p (LoginSteps.selector "login-username") (VStr u) = None ->
  fill_error driver p (LoginSteps.selector "login-password") (VStr pw) = None ->
  exists r',
    login_with_data host driver testCaseId r = (Normal tt, r') /\
    get (testData (this r')) "expectedResult" = get row "expected_result" /\
    (forall key, key <> "expectedResult" ->
       get (testData (this r')) key = get (testData (this r)) key) /\
    calls r'
    = (calls r ++ [Fill p (LoginSteps.selector "login-username") (VStr u);
                   Fill p (LoginSteps.selector "login-password") (VStr pw)])%list.
Proof.
  intros Hrows Hfind Hpage Hu Hpw Hfill_u Hfill_pw.
  destruct (login_with_data_run testCaseId r rows row p u pw)
    as (r' & Hrun & Hthis & Hcalls & _); try assumption.
  exists r'. split; [exact Hrun |]. rewrite Hthis. simpl. repeat split.
  - unfold get. now rewrite lookup_insert_eq.
  - intros key Hkey. unfold get. now rewrite lookup_insert_ne.
  - exact Hcalls.
Qed.

(** X22: at the DEBUG or INFO level the step [login_with_data] leaves the
    password, ASCII text, in clear on the console: its own summary line shows
    the password as stars (one per character, line terminators apart), but
    the line that [enterPassword] logs before it carries the password
    itself. *)
Theorem login_with_data_logs_password_in_clear
    (testCaseId : string) (r : Run) rows row p u pw :
  (getData_outcome host "Login" (cache (proc r))).1 = Normal (DataService.Rows rows) ->
  List.find (fun row => strict_eq (get row "test_case_id") (VStr testCaseId)) rows
  = Some row ->
  page (this r) = Some p ->
  get row "username" = VStr u ->
  get row "password" = VStr pw ->
  fill_error driver p (LoginSteps.selector "login-username") (VStr u) = None ->
  fill_error driver p (LoginSteps.selector "login-password") (VStr pw) = None ->
  ascii_text pw = true ->
  (CURRENT_LOG_LEVEL host = DEBUG \/ CURRENT_LOG_LEVEL host = INFO) ->
  exists r' stars,
    login_with_data host driver testCaseId r = (Normal tt, r') /\
    (INFO, "Filling text " +:+ dq +:+ pw +:+ dq +:+ " into: Password Input")
      ∈ console (proc r') /\
    (INFO, "Entered credentials for test case " +:+ testCaseId +:+ ": username=" +:+ dq
           +:+ u +:+ dq +:+ ", password=" +:+ dq +:+ stars +:+ dq)
      ∈ console (proc r') /\
    String.length stars = String.length pw /\
    Forall (fun c => c = "*"%char \/ is_line_terminator c = true)
           (list_ascii_of_string stars).
Proof.
  intros Hrows Hfind Hpage Hu Hpw Hfill_u Hfill_pw _ Hlevel.
  destruct (login_with_data_run testCaseId r rows row p u pw)
    as (r' & Hrun & _ & _ & Hconsole); try assumption.
  assert (Hinfo : forall message, Logger.emitted host INFO message = [(INFO, message)]).
  { intros message. unfold Logger.emitted. now destruct Hlevel as [-> | ->]. }
  rewrite !Hinfo in Hconsole.
  exists r', (replace_class any_char pw "*").
  split; [exact Hrun |]. rewrite Hconsole.
  destruct (mask_stars pw) as [Hstars Hlen].
  split; [rewrite !elem_of_app, !list_elem_of_singleton; auto 10 |].
  split; [rewrite !elem_of_app, !list_elem_of_singleton; auto 10 |].
  split; assumption.
Qed.

(** X23: a data row whose expected_result starts with "Success" makes the
    pair of steps [login_with_data] and [login_result_step] pass whatever the
    page shows after the login: the result step issues its header expectation
    without waiting for it. *)
Theorem success_row_passes_whatever_the_page_shows
    (testCaseId : string) (r : Run) rows row p u pw v :
  (getData_outcome host "Login" (cache (proc r))).1 = Normal (DataService.Rows rows) ->
  List.find (fun row => strict_eq (get row "test_case_id") (VStr testCaseId)) rows
  = Some row ->
  page (this r) = Some p ->
  get row "username" = VStr u ->
  get row "password" = VStr pw ->
  fill_error driver p (LoginSteps.selector "login-username") (VStr u) = None ->
  fill_error driver p (LoginSteps.selector "login-password") (VStr pw) = None ->
  get row "expected_result" = VStr v ->
  startsWith v "Success" = true ->
  exists r',
    (login_with_data host driver testCaseId ;; login_result_step host) r
    = (Normal tt, r').
Proof.
  intros Hrows Hfind Hpage Hu Hpw Hfill_u Hfill_pw Hv Hsuccess.
  destruct (login_with_data_run testCaseId r rows row p u pw)
    as (r' & Hrun & Hthis & _); try assumption.
  assert (Hget : get (testData (this r')) "expectedResult" = VStr v).
  { rewrite Hthis. simpl. unfold get at 1. rewrite lookup_insert_eq. exact Hv. }
  assert (Hpage' : page (this r') = Some p) by now rewrite Hthis.
  unfold bind. rewrite Hrun. unfold login_result_step, on_this, on_proc.
  unfold LoginSteps.login_result_should_match. rewrite Hget, Hpage'. unfold truthy.
  rewrite (LoginStepsFacts.startsWith_nonempty _ _ _ Hsuccess), Hsuccess.
  cbn [negb]. cbv beta iota. rewrite LoginStepsFacts.success_branch_run. eauto.
Qed.

(** X24: [isPageLoaded] never throws. On a page it answers whether the login
    tab, the username input, the password input and the login button all
    show, and it stops waiting at the first one that does not; without a
    page it answers false and waits for nothing. *)
Theorem isPageLoaded_answers_without_throwing (page : option Page) (r : Run) :
  exists r',
    isPageLoaded host page r
    = (Normal match page with
              | Some p => forallb (shows host p) login_landmarks
              | None => false
              end, r') /\
    this r' = this r /\
    calls r'
    = (calls r
       ++ match page with
          | Some p => map (fun selector => ToBeVisible p selector None)
                          (waited_for (shows host p) login_landmarks)
          | None => []
          end)%list.
Proof.
  destruct page as [p|].
  - destruct (isPageLoaded_run p r) as (r' & Hrun & Hthis & _ & Hcalls). eauto.
  - unfold isPageLoaded, try_catch, waitForElementVisible, member.
    unfold bind at 1. unfold bind at 1. unfold throw at 1.
    unfold bind. rewrite on_proc_error. eexists. split; [reflexivity |]. simpl.
    now rewrite app_nil_r.
Qed.

(** X25: the step [click_login_button] fails only when the click itself
    fails: whatever the waits for the loading spinner meet is swallowed by
    [waitForLoginToComplete]. *)
Theorem click_login_button_fails_only_on_click (p : Page) (r : Run) :
  page (this r) = Some p ->
  exists r',
    click_login_button host driver r
    = (completion_of (click_error driver p (LoginSteps.selector "login-button")), r') /\
    this r' = this r.
Proof.
  intros Hpage. unfold click_login_button. unfold bind at 1. unfold gets at 1.
  rewrite Hpage. unfold clickLoginButton. unfold bind at 1. rewrite clickElement_run.
  destruct (click_error driver p (LoginSteps.selector "login-button")); simpl.
  - eauto.
  - unfold bind at 1.
    match goal with
    | |- context [waitForLoginToComplete host driver (Some p) ?r0] =>
        destruct (waitForLoginToComplete_run (Some p) r0) as (r1 & -> & Hthis & _)
    end.
    rewrite on_proc_info. eexists. split; [reflexivity |]. simpl. exact Hthis.
Qed.

(** X26: the step [click_tab] clicks the register tab whatever tab it is
    asked for: the tab name reaches the log line only. *)
Theorem click_tab_always_clicks_register (tabName : string) (p : Page) (r : Run) :
  page (this r) = Some p ->
  exists r',
    click_tab host driver tabName r
    = (completion_of (click_error driver p (LoginSteps.selector "tab-register")), r') /\
    calls r' = (calls r ++ [Click p (LoginSteps.selector "tab-register")])%list.
Proof.
  intros Hpage. unfold click_tab. unfold bind at 1. unfold gets at 1.
  rewrite Hpage. unfold clickRegisterTab. unfold bind at 1. rewrite clickElement_run.
  destruct (click_error driver p (LoginSteps.selector "tab-register")); simpl.
  - eauto.
  - rewrite on_proc_info. eauto.
Qed.

(** X27: on a page, the step [should_remain_on_login_page] passes exactly
    when the URL contains "/login" and the four elements of the login form
    show. *)
Theorem should_remain_on_login_page_passes_iff (p : Page) (r : Run) :
  page (this r) = Some p ->
  ((exists r', should_remain_on_login_page host r = (Normal tt, r')) <->
   includes (page_url host p) "/login" = true /\
   forallb (shows host p) login_landmarks = true).
Proof.
  intros Hpage. set (loaded := forallb (shows host p) login_landmarks).
  unfold should_remain_on_login_page, the_page.
  unfold bind at 1. unfold bind at 1. unfold gets at 1. rewrite Hpage. unfold ret at 1.
  unfold bind at 1. unfold on_proc at 1. unfold LoginSteps.expect_toContain.
  destruct (includes (page_url host p) "/login"); simpl.
  2:{ split; [intros [r' H]; discriminate | intros [H _]; discriminate]. }
  unfold bind at 1.
  match goal with
  | |- context [isPageLoaded host (Some p) ?r0] =>
      destruct (isPageLoaded_run p r0) as (r1 & -> & _)
  end.
  fold loaded. destruct loaded; simpl.
  - unfold bind at 1. unfold ret at 1. rewrite on_proc_info.
    split; [auto | eauto].
  - split; [intros [r' H]; discriminate | intros [_ H]; discriminate].
Qed.

End WithHost.
End LoginFlowFacts.

(* ===================================================================== *)
(** ** Facts about the todo page object *)
(* ===================================================================== *)

Module TodoPageFacts.
Import Js JsText Effects Runtime World Session Pages Steps Observed.
Import RuntimeFacts SessionFacts.

Lemma trim_end_idempotent (s : string) : trim_end (trim_end s) = trim_end s.
Proof.
  induction s as [|c s IH]; simpl; [reflexivity |].
  destruct (is_space c && String.eqb (trim_end s) "") eqn:Hdrop; simpl; [reflexivity |].
  now rewrite IH, Hdrop.
Qed.

Lemma skip_space_head (s : string) :
  skip_space s = "" \/
  exists c rest, skip_space s = String c rest /\ is_space c = false.
Proof.
  induction s as [|c s IH]; simpl; [now left |].
  destruct (is_space c) eqn:Hc; [exact IH | right; eauto].
Qed.

(** [trim] leaves a trimmed text as it is. *)
Lemma trim_idempotent (s : string) : trim (trim s) = trim s.
Proof.
  unfold trim. destruct (skip_space_head s) as [-> | (c & rest & -> & Hc)]; [reflexivity |].
  assert (Hhead : trim_end (String c rest) = String c (trim_end rest))
    by (simpl; now rewrite Hc).
  rewrite Hhead. simpl skip_space. rewrite Hc, <- Hhead.
  apply trim_end_idempotent.
Qed.

Lemma lower_char_idempotent (c : ascii) : lower_char (lower_char c) = lower_char c.
Proof.
  destruct c as [[] [] [] [] [] [] [] []]; reflexivity.
Qed.

Lemma toLowerCase_idempotent (s : string) : toLowerCase (toLowerCase s) = toLowerCase s.
Proof.
  unfold toLowerCase. induction s as [|c s IH]; simpl; [reflexivity |].
  now rewrite lower_char_idempotent, IH.
Qed.

Lemma toLowerCase_nonempty (s : string) : s <> "" -> toLowerCase s <> "".
Proof. destruct s; [congruence | discriminate]. Qed.

Lemma text_or_nonempty (text : option string) (fallback : string) :
  fallback <> "" -> text_or text fallback <> "".
Proof.
  intros Hfallback. unfold text_or. destruct text as [t|]; [| exact Hfallback].
  destruct (String.eqb_spec t ""); assumption.
Qed.

(** What every item built by [getAllTodos] satisfies. *)
Lemma item_read_normal (element : TodoElement) (item : TodoItem) :
  item_read element = Some item ->
  trim (title item) = title item /\
  trim (description item) = description item /\
  toLowerCase (priority item) = priority item /\
  priority item <> "".
Proof.
  unfold item_read.
  destruct (title_text element) as [|t]; [discriminate |].
  destruct (description_text element) as [|d]; [discriminate |].
  destruct (priority_text element) as [|pr]; [discriminate |].
  destruct (is_checked element) as [|c]; [discriminate |].
  intros [= <-]. simpl. repeat split.
  - apply trim_idempotent.
  - apply trim_idempotent.
  - apply toLowerCase_idempotent.
  - apply toLowerCase_nonempty, text_or_nonempty. discriminate.
Qed.

Lemma read_element_run (element : TodoElement) (item : TodoItem) (r : Run) :
  item_read element = Some item -> read_element element r = (Normal item, r).
Proof.
  unfold item_read, read_element, bind, lift, ret.
  destruct (title_text element) as [|t]; [discriminate |].
  destruct (description_text element) as [|d]; [discriminate |].
  destruct (priority_text element) as [|pr]; [discriminate |].
  destruct (is_checked element) as [|c]; [discriminate |].
  now intros [= <-].
Qed.

Lemma collect_run (elements : list TodoElement) (items : list TodoItem) :
  Forall2 (fun element item => item_read element = Some item) elements items ->
  forall todos r, collect elements todos r = (Normal (todos ++ items)%list, r).
Proof.
  induction 1 as [|element item elements items Hread _ IH]; intros todos r; simpl.
  - unfold ret. now rewrite app_nil_r.
  - unfold bind. rewrite (read_element_run _ _ _ Hread), IH.
    now rewrite <- app_assoc.
Qed.

Section WithHost.
Context {WorkSheet : Type} (host : Host WorkSheet) (driver : Driver).

Lemma getAllTodos_run p elements items r :
  todo_elements driver p = inr elements ->
  Forall2 (fun element item => item_read element = Some item) elements items ->
  getAllTodos driver (Some p) r
  = (Normal items, mkRun (proc r) (this r) (context r) (calls r ++ [TodoItems p])).
Proof.
  intros Helements Hread. unfold getAllTodos, member.
  unfold bind at 1. unfold ret at 1. unfold bind at 1. unfold call, modify.
  unfold bind at 1. unfold lift. rewrite Helements. unfold ret.
  now rewrite (collect_run _ _ Hread).
Qed.

Lemma find_title_some (items : list TodoItem) (wanted : string) :
  (exists item, List.find (fun todo => String.eqb (title todo) wanted) items = Some item)
  <-> exists item, item ∈ items /\ title item = wanted.
Proof.
  induction items as [|item items IH]; simpl.
  - split; [intros [? H]; discriminate | intros (? & H & _); inversion H].
  - destruct (String.eqb_spec (title item) wanted) as [Heq | Hne].
    + split; [intros _; exists item; split; [left | exact Heq] | eauto].
    + rewrite IH. split.
      * intros (found & Hin & Htitle). exists found. split; [now right | exact Htitle].
      * intros (found & Hin & Htitle). apply elem_of_cons in Hin as [-> | Hin];
          [contradiction | eauto].
Qed.

(** X28: when the reads of every element of the list succeed and give ASCII
    text, [getAllTodos]
    returns one item per element, in the order of the page, after a single
    query of the list; every title and description is trimmed, and every
    priority is in lower case and not empty ("medium" when the element shows
    none). *)
Theorem getAllTodos_lists_every_element_in_order
    (p : Page) (elements : list TodoElement) (items : list TodoItem) (r : Run) :
  todo_elements driver p = inr elements ->
  Forall (fun element => ascii_element element = true) elements ->
  Forall2 (fun element item => item_read element = Some item) elements items ->
  getAllTodos driver (Some p) r
  = (Normal items, mkRun (proc r) (this r) (context r) (calls r ++ [TodoItems p])) /\
  length items = length elements /\
  Forall (fun item =>
            trim (title item) = title item /\
            trim (description item) = description item /\
            toLowerCase (priority item) = priority item /\
            priority item <> "") items.
Proof.
  intros Helements _ Hread.
  split; [exact (getAllTodos_run p elements items r Helements Hread) |].
  split; [symmetry; exact (Forall2_length _ _ _ Hread) |].
  clear Helements.
  induction Hread as [|element item elements' items' Hitem _ IH]; constructor.
  - exact (item_read_normal _ _ Hitem).
  - exact IH.
Qed.

(** X29: when the list can be read and holds ASCII text, exactly one of [assertTodoExists] and
    [assertTodoNotExists] passes for a title: the first when an item of the
    list has that title, the second otherwise. A title with white space
    around it is never found, since the titles read from the page are
    trimmed. *)
Theorem assertTodoExists_and_NotExists_split
    (p : Page) (elements : list TodoElement) (items : list TodoItem)
    (wanted : string) (r : Run) :
  todo_elements driver p = inr elements ->
  Forall (fun element => ascii_element element = true) elements ->
  Forall2 (fun element item => item_read element = Some item) elements items ->
  ((exists r', assertTodoExists host driver (Some p) wanted r = (Normal tt, r')) <->
   exists item, item ∈ items /\ title item = wanted) /\
  ((exists r', assertTodoNotExists host driver (Some p) wanted r = (Normal tt, r')) <->
   ~ exists item, item ∈ items /\ title item = wanted) /\
  (trim wanted <> wanted ->
   exists r',
     assertTodoExists host driver (Some p) wanted r
     = (Throw (JsError ("Todo with title " +:+ dq +:+ wanted +:+ dq +:+ " not found")),
        r')).
Proof.
  intros Helements _ Hread.
  assert (Hrun_exists : forall r0,
    assertTodoExists host driver (Some p) wanted r0
    = match List.find (fun todo => String.eqb (title todo) wanted) items with
      | None =>
          (Throw (JsError ("Todo with title " +:+ dq +:+ wanted +:+ dq +:+ " not found")),
           mkRun (proc r0) (this r0) (context r0) (calls r0 ++ [TodoItems p]))
      | Some _ =>
          (Normal tt,
           mkRun (print (Logger.emitted host INFO ("Verified todo exists: " +:+ wanted))
                        (proc r0))
                 (this r0) (context r0) (calls r0 ++ [TodoItems p]))
      end).
  { intros r0. unfold assertTodoExists, getTodoByTitle.
    unfold bind at 1. unfold bind at 1.
    rewrite (getAllTodos_run p elements items r0 Helements Hread). unfold ret at 1.
    destruct (List.find _ items); [now rewrite on_proc_info | reflexivity]. }
  assert (Hrun_not : forall r0,
    assertTodoNotExists host driver (Some p) wanted r0
    = match List.find (fun todo => String.eqb (title todo) wanted) items with
      | Some _ =>
          (Throw (JsError ("Todo with title " +:+ dq +:+ wanted +:+ dq
                           +:+ " should not exist but was found")),
           mkRun (proc r0) (this r0) (context r0) (calls r0 ++ [TodoItems p]))
      | None =>
          (Normal tt,
           mkRun (print (Logger.emitted host INFO
                           ("Verified todo does not exist: " +:+ wanted)) (proc r0))
                 (this r0) (context r0) (calls r0 ++ [TodoItems p]))
      end).
  { intros r0. unfold assertTodoNotExists, getTodoByTitle.
    unfold bind at 1. unfold bind at 1.
    rewrite (getAllTodos_run p elements items r0 Helements Hread). unfold ret at 1.
    destruct (List.find _ items); [reflexivity | now rewrite on_proc_info]. }
  pose proof (find_title_some items wanted) as Hfind.
  assert (Htrimmed : forall item, item ∈ items -> trim (title item) = title item).
  { intros item Hin.
    apply list_elem_of_lookup in Hin as [i Hi].
    destruct (Forall2_lookup_r _ _ _ _ _ Hread Hi) as (element & _ & Hitem).
    now apply item_read_normal in Hitem. }
  rewrite Hrun_exists, Hrun_not.
  destruct (List.find (fun todo => String.eqb (title todo) wanted) items) as [found|].
  - assert (Hsome : exists item, item ∈ items /\ title item = wanted)
      by (apply Hfind; eauto).
    split; [split; eauto |].
    split.
    + split; [intros [r' H]; discriminate | intros Hnone; contradiction].
    + intros Huntrimmed. destruct Hsome as (item & Hin & <-).
      exfalso. apply Huntrimmed. now apply Htrimmed.
  - assert (Hnone : ~ exists item, item ∈ items /\ title item = wanted).
    { intros Hsome. apply Hfind in Hsome as [item Hitem]. discriminate. }
    split; [split; [intros [r' H]; discriminate | intros H; contradiction] |].
    split; [split; eauto | eauto].
Qed.

(** X30: when the list can be read and holds ASCII text, the step
    [todo_should_not_be_added]
    passes exactly when no element of the list has a blank title: a title
    text that is missing, empty or white space only counts as empty. *)
Theorem todo_should_not_be_added_passes_iff
    (p : Page) (elements : list TodoElement) (items : list TodoItem) (r : Run) :
  page (this r) = Some p ->
  todo_elements driver p = inr elements ->
  Forall (fun element => ascii_element element = true) elements ->
  Forall2 (fun element item => item_read element = Some item) elements items ->
  ((exists r', todo_should_not_be_added host driver r = (Normal tt, r')) <->
   Forall (fun element =>
             forall text, title_text element = inr text -> trim (text_or text "") <> "")
          elements).
Proof.
  intros Hpage Helements _ Hread. unfold todo_should_not_be_added.
  unfold bind at 1. unfold gets at 1. rewrite Hpage.
  unfold bind at 1. rewrite (getAllTodos_run p elements items r Helements Hread).
  assert (Hlen :
    (length (List.filter (fun todo => String.eqb (title todo) "") items) =? 0)%nat = true
    <-> Forall (fun element =>
                  forall text, title_text element = inr text ->
                               trim (text_or text "") <> "") elements).
  { clear Helements Hpage.
    induction Hread as [|element item elements' items' Hitem _ IH]; simpl.
    - split; [constructor | reflexivity].
    - assert (Htitle : forall text, title_text element = inr text ->
                                    title item = trim (text_or text "")).
      { intros text Htext. unfold item_read in Hitem. rewrite Htext in Hitem.
        destruct (description_text element); [discriminate |].
        destruct (priority_text element); [discriminate |].
        destruct (is_checked element); [discriminate |].
        now injection Hitem as <-. }
      assert (Hreads : exists text, title_text element = inr text).
      { unfold item_read in Hitem. destruct (title_text element); [discriminate | eauto]. }
      destruct Hreads as [text Htext].
      destruct (String.eqb_spec (title item) "") as [Hblank | Hshown]; simpl.
      + split; [discriminate |]. intros Hall. inversion Hall as [|? ? Hhead _]; subst.
        exfalso. apply (Hhead text Htext). now rewrite <- (Htitle text Htext).
      + rewrite IH. split.
        * intros Hrest. constructor; [| exact Hrest].
          intros text' Htext'. now rewrite <- (Htitle text' Htext').
        * intros Hall. now inversion Hall. }
  destruct (length (List.filter (fun todo => String.eqb (title todo) "") items) =? 0)%nat.
  - unfold bind at 1. unfold ret at 1. rewrite on_proc_info.
    split; [intros _; now apply Hlen | eauto].
  - unfold bind at 1. unfold throw at 1.
    split; [intros [r' H]; discriminate | intros H; apply Hlen in H; discriminate].
Qed.

End WithHost.
End TodoPageFacts.

(* ===================================================================== *)
(** ** The session, the login flow and the todo page on the fixture hosts *)
(* ===================================================================== *)

Module SessionExamples.
Import Js JsText Effects Runtime World Session Hooks Pages Steps Observed Reference.
Import Fixtures Fixtures3 SessionFacts LoginFlowFacts TodoPageFacts.

Lemma initBrowser_rejects_unknown_browser_witness :
  (initBrowser (host ∅ INFO) driver (fresh_with_browser "edge")).1
  = Throw (JsError "Unsupported browser type: edge") /\
  (initBrowser (host ∅ INFO) driver (fresh_with_browser "constructor")).1
  = Throw (JsTypeError "browserType.launch is not a function").
Proof.
  split.
  - rewrite (initBrowser_rejects_unknown_browser (host ∅ INFO) driver
               (fresh_with_browser "edge")); [reflexivity |].
    apply (bool_decide_unpack _). vm_compute. exact I.
  - rewrite (initBrowser_rejects_unknown_browser (host ∅ INFO) driver
               (fresh_with_browser "constructor")); [reflexivity |].
    apply (bool_decide_unpack _). vm_compute. exact I.
Defined.

Lemma initBrowser_opens_configured_session_witness :
  calls (initBrowser (host ∅ INFO) driver fresh).2
  = [Launch chromium false (Num 50);
     NewContext (mkBrowser 1) (Num 1920) (Num 1080) "http://localhost:5173";
     SetDefaultTimeout (mkContext 1) (Num 30000);
     NewPage (mkContext 1)] /\
  page (this (initBrowser (host ∅ INFO) driver fresh).2) = Some (mkPage 1).
Proof.
  rewrite (initBrowser_opens_configured_session (host ∅ INFO) driver fresh
             chromium (mkBrowser 1) (mkContext 1) (mkPage 1)
             eq_refl eq_refl eq_refl eq_refl eq_refl).
  split; reflexivity.
Defined.

Lemma failed_initBrowser_keeps_browser_for_teardown_witness :
  exists r',
    initBrowser (host ∅ INFO) driver_without_context fresh
    = (Throw (JsError "browser.newContext: Target closed"), r') /\
    browser (this r') = Some (mkBrowser 1) /\
    page (this r') = None /\
    driver_calls (proc (on_this (closeBrowser (host ∅ INFO)) r').2)
    = [BrowserClose (mkBrowser 1)].
Proof.
  apply (failed_initBrowser_keeps_browser_for_teardown (host ∅ INFO) driver_without_context
           fresh chromium (mkBrowser 1) (JsError "browser.newContext: Target closed"));
    reflexivity.
Defined.

Lemma takeScreenshot_names_file_after_scenario_witness :
  driver_calls (takeScreenshot (host ∅ INFO) open_world "Valid  login" loaded).2
  = [PageScreenshot (mkPage 1)
       "/proj/allure-results/screenshot-Valid__login-1700000000000.png"].
Proof.
  destruct (takeScreenshot_names_file_after_scenario (host ∅ INFO) open_world (mkPage 1)
              "Valid  login" loaded eq_refl eq_refl) as [-> _].
  reflexivity.
Defined.

Lemma capture_writes_stamped_file_witness :
  (capture (host ∅ INFO) driver (Some "FAILED-Valid_login") in_session).1
  = Normal "screenshots/FAILED-Valid_login-2025-01-31T09-15-42-123Z.png" /\
  calls (capture (host ∅ INFO) driver (Some "FAILED-Valid_login") in_session).2
  = [MkdirSync "screenshots";
     ScreenshotFullPage (mkPage 1)
       "screenshots/FAILED-Valid_login-2025-01-31T09-15-42-123Z.png";
     Attach [] "image/png"].
Proof.
  destruct (capture_writes_stamped_file (host ∅ INFO) driver in_session (mkPage 1)
              (Some "FAILED-Valid_login") [] eq_refl (fun _ => eq_refl) eq_refl eq_refl)
    as [-> _].
  split; reflexivity.
Defined.

Lemma After_closes_browser_unless_capture_throws_witness :
  driver_calls (proc (After (host ∅ INFO) driver "Valid login" (Some PASSED) in_session).2)
  = [BrowserClose (mkBrowser 1)] /\
  (After (host ∅ INFO) driver "Valid login" (Some FAILED) fresh).1
  = Throw (JsTypeError "Cannot read properties of undefined (reading 'screenshot')").
Proof.
  split.
  - destruct (After_closes_browser_unless_capture_throws (host ∅ INFO) driver
                "Valid login" (Some PASSED) in_session) as [Hpassed _].
    destruct (Hpassed eq_refl (mkBrowser 1) eq_refl) as (_ & _ & ->). reflexivity.
  - destruct (After_closes_browser_unless_capture_throws (host ∅ INFO) driver
                "Valid login" (Some FAILED) fresh) as [_ Hfailed].
    destruct (Hfailed eq_refl) as [_ Hnopage].
    destruct (Hnopage eq_refl (fun _ => eq_refl)) as [-> _]. reflexivity.
Defined.

Lemma login_with_data_unknown_id_fills_nothing_witness :
  exists r',
    login_with_data (host ∅ INFO) driver "TC-LOGIN-404" in_session
    = (Throw (JsError
                "Test data not found for test case ID: TC-LOGIN-404 in 'Login' sheet."),
       r') /\
    this r' = this in_session /\ calls r' = [] /\ driver_calls (proc r') = [].
Proof.
  destruct (login_with_data_unknown_id_fills_nothing (host ∅ INFO) driver
              "TC-LOGIN-404" in_session) as [Hmiss _].
  apply (Hmiss login_rows); reflexivity.
Defined.

Lemma login_with_data_enters_first_matching_row_witness :
  exists r',
    login_with_data (host ∅ INFO) driver "TC-LOGIN-001" in_session = (Normal tt, r') /\
    get (testData (this r')) "expectedResult" = VStr "Success" /\
    (forall key, key <> "expectedResult" ->
       get (testData (this r')) key = get (testData (this in_session)) key) /\
    calls r'
    = [Fill (mkPage 1) (LoginSteps.selector "login-username") (VStr "admin");
       Fill (mkPage 1) (LoginSteps.selector "login-password") (VStr "password")].
Proof.
  apply (login_with_data_enters_first_matching_row (host ∅ INFO) driver "TC-LOGIN-001"
           in_session login_rows (List.nth 0 login_rows ∅) (mkPage 1) "admin" "password");
    reflexivity.
Defined.

Lemma login_with_data_logs_password_in_clear_witness :
  exists r' stars,
    login_with_data (host ∅ INFO) driver "TC-LOGIN-001" in_session = (Normal tt, r') /\
    (INFO, "Filling text " +:+ dq +:+ "password" +:+ dq +:+ " into: Password Input")
      ∈ console (proc r') /\
    (INFO, "Entered credentials for test case " +:+ "TC-LOGIN-001" +:+ ": username=" +:+ dq
           +:+ "admin" +:+ dq +:+ ", password=" +:+ dq +:+ stars +:+ dq)
      ∈ console (proc r') /\
    String.length stars = String.length "password" /\
    Forall (fun c => c = "*"%char \/ is_line_terminator c = true)
           (list_ascii_of_string stars).
Proof.
  apply (login_with_data_logs_password_in_clear (host ∅ INFO) driver "TC-LOGIN-001"
           in_session login_rows (List.nth 0 login_rows ∅) (mkPage 1) "admin" "password");
    try reflexivity.
  right. reflexivity.
Defined.

Lemma success_row_passes_whatever_the_page_shows_witness :
  exists r',
    (login_with_data (host ∅ INFO) driver "TC-LOGIN-001" ;;
     login_result_step (host ∅ INFO)) in_session
    = (Normal tt, r').
Proof.
  apply (success_row_passes_whatever_the_page_shows (host ∅ INFO) driver "TC-LOGIN-001"
           in_session login_rows (List.nth 0 login_rows ∅) (mkPage 1)
           "admin" "password" "Success");
    reflexivity.
Defined.

Lemma click_login_button_fails_only_on_click_witness :
  exists r',
    click_login_button (host ∅ INFO) driver in_session = (Normal tt, r') /\
    this r' = this in_session.
Proof.
  apply (click_login_button_fails_only_on_click (host ∅ INFO) driver (mkPage 1) in_session).
  reflexivity.
Defined.

Lemma click_tab_always_clicks_register_witness :
  exists r',
    click_tab (host ∅ INFO) driver "Login" in_session = (Normal tt, r') /\
    calls r' = [Click (mkPage 1) (LoginSteps.selector "tab-register")].
Proof.
  apply (click_tab_always_clicks_register (host ∅ INFO) driver "Login" (mkPage 1)
           in_session).
  reflexivity.
Defined.

Lemma should_remain_on_login_page_passes_iff_witness :
  exists r', should_remain_on_login_page (host ∅ INFO) in_session = (Normal tt, r').
Proof.
  apply (should_remain_on_login_page_passes_iff (host ∅ INFO) (mkPage 1) in_session eq_refl).
  split; reflexivity.
Defined.

(** The items the two elements of the fixture page stand for. *)
Lemma todo_elements_shown_read :
  Forall2 (fun element item => item_read element = Some item) todo_elements_shown
    [mkTodoItem "Buy milk" "2 litres" false "high";
     mkTodoItem "Call mum" "" true "medium"].
Proof. repeat constructor. Qed.

Lemma todo_elements_shown_ascii :
  Forall (fun element => ascii_element element = true) todo_elements_shown.
Proof. repeat constructor. Qed.

Lemma getAllTodos_lists_every_element_in_order_witness :
  (getAllTodos driver (Some (mkPage 1)) in_session).1
  = Normal [mkTodoItem "Buy milk" "2 litres" false "high";
            mkTodoItem "Call mum" "" true "medium"].
Proof.
  destruct (getAllTodos_lists_every_element_in_order driver (mkPage 1) todo_elements_shown
              _ in_session eq_refl todo_elements_shown_ascii todo_elements_shown_read)
    as [-> _].
  reflexivity.
Defined.

Lemma assertTodoExists_and_NotExists_split_witness :
  (exists r',
     assertTodoExists (host ∅ INFO) driver (Some (mkPage 1)) "Buy milk" in_session
     = (Normal tt, r')) /\
  (exists r',
     assertTodoExists (host ∅ INFO) driver (Some (mkPage 1)) "  Buy milk " in_session
     = (Throw (JsError ("Todo with title " +:+ dq +:+ "  Buy milk " +:+ dq +:+ " not found")),
        r')).
Proof.
  split.
  - destruct (assertTodoExists_and_NotExists_split (host ∅ INFO) driver (mkPage 1)
                todo_elements_shown _ "Buy milk" in_session eq_refl
                todo_elements_shown_ascii todo_elements_shown_read)
      as (Hexists & _).
    apply Hexists. eexists. split; [apply list_elem_of_here | reflexivity].
  - destruct (assertTodoExists_and_NotExists_split (host ∅ INFO) driver (mkPage 1)
                todo_elements_shown _ "  Buy milk " in_session eq_refl
                todo_elements_shown_ascii todo_elements_shown_read)
      as (_ & _ & Huntrimmed).
    apply Huntrimmed. discriminate.
Defined.

Lemma todo_should_not_be_added_passes_iff_witness :
  exists r', todo_should_not_be_added (host ∅ INFO) driver in_session = (Normal tt, r').
Proof.
  apply (todo_should_not_be_added_passes_iff (host ∅ INFO) driver (mkPage 1)
           todo_elements_shown _ in_session eq_refl eq_refl
           todo_elements_shown_ascii todo_elements_shown_read).
  repeat constructor; intros text [= <-]; discriminate.
Defined.

End SessionExamples.
